(** * CanSat flight-simulation front-ends: a shallow embedding

    Two Python programs drive the RocketPy engine and plot its result with
    Matplotlib: [CansatTerminal.py], an interactive script, and
    [flask_app.py], a one-route web view.  The engine, NumPy, Matplotlib and
    the interpreter built-ins are not part of the repository; they appear
    here as interfaces (the float built-ins, the engine's answers) or as a
    small state machine (pyplot's figure registry).  The code of the two
    programs is embedded statement by statement over a state-and-exception
    monad. *)

From Stdlib Require Import String Ascii List Bool ZArith QArith Lia.
From Stdlib Require Import DecimalString.
From Stdlib Require DecimalNat DecimalFacts.
Import ListNotations.
Set Warnings "-register-all".
Close Scope Q_scope.
Open Scope string_scope.

(** ** Exceptions and results *)

Inductive exc_class :=
| ValueError | IndexError | NameError | EOFError | AttributeError
| OtherError (name : string).

Definition class_name (c : exc_class) : string :=
  match c with
  | ValueError => "ValueError"
  | IndexError => "IndexError"
  | NameError => "NameError"
  | EOFError => "EOFError"
  | AttributeError => "AttributeError"
  | OtherError n => n
  end.

(** An instance of [Exception]: its class, [str(e)], and the stack frames
    that [traceback.format_exc()] prints for it. *)
Record exn := mkExn {
  exc_type : exc_class;
  exc_str : string;
  exc_frames : string
}.

Definition newline : string := String (ascii_of_nat 10) EmptyString.

(** [traceback.format_exc()] while [e] is being handled. *)
Definition format_exc (e : exn) : string :=
  "Traceback (most recent call last):" ++ newline ++ exc_frames e
  ++ class_name (exc_type e) ++ ": " ++ exc_str e ++ newline.

(** What an external call answers: a value or a raised [Exception]. *)
Inductive Exc (A : Type) :=
| Val (a : A)
| Err (e : exn).
Arguments Val {A} a.
Arguments Err {A} e.

(** What a statement sequence ends in.  [Exit] is the [SystemExit] of
    [exit()]: it is not an [Exception], so [except Exception] lets it
    through. *)
Inductive Res (A : Type) :=
| Ok (a : A)
| Raise (e : exn)
| Exit.
Arguments Ok {A} a.
Arguments Raise {A} e.
Arguments Exit {A}.

(** ** The monad of the scripts: state passing with exceptions.
    A raised exception keeps the state reached so far. *)
Section Monad.
Context {S : Type}.

Definition M (A : Type) : Type := S -> Res A * S.

Definition ret {A} (a : A) : M A := fun s => (Ok a, s).

Definition bind {A B} (c : M A) (k : A -> M B) : M B :=
  fun s =>
    match c s with
    | (Ok a, s') => k a s'
    | (Raise e, s') => (Raise e, s')
    | (Exit, s') => (Exit, s')
    end.

Definition raise {A} (e : exn) : M A := fun s => (Raise e, s).

(** [exit()] *)
Definition sys_exit {A} : M A := fun s => (Exit, s).

Definition modify (f : S -> S) : M unit := fun s => (Ok tt, f s).

Definition gets {A} (f : S -> A) : M A := fun s => (Ok (f s), s).

(** An external call's answer enters the script. *)
Definition ext {A} (r : Exc A) : M A :=
  match r with
  | Val a => ret a
  | Err e => raise e
  end.

(** [try: body / except Exception as e: handler e] *)
Definition try_except {A} (body : M A) (handler : exn -> M A) : M A :=
  fun s =>
    match body s with
    | (Raise e, s') => handler e s'
    | r => r
    end.
End Monad.
Arguments M S A : clear implicits.

Declare Scope py_scope.
Delimit Scope py_scope with py.
Notation "x <- c ;; k" := (bind c (fun x => k))
  (at level 61, c at next level, right associativity) : py_scope.
Notation "c ;; k" := (bind c (fun _ => k))
  (at level 61, right associativity) : py_scope.
Open Scope py_scope.

(** ** The float built-ins *)

(** Python's [float] as the programs use it.  [float_of_string s] is
    [float(s)], with [None] for [ValueError]; on the empty string it raises. *)
Class PyFloat (float : Type) := {
  float_of_string : string -> option float;
  float_of_empty : float_of_string EmptyString = None;
  str_float : float -> string;            (* f"{x}" *)
  format_2f : float -> string;            (* f"{x:.2f}" *)
  lit : Q -> float;                       (* a decimal literal *)
  of_int : Z -> float;
  fmul : float -> float -> float;
  fadd : float -> float -> float;
  fdiv : float -> float -> float;
  fneg : float -> float;
  fpow : float -> Z -> float
}.

(** Standard output: the prompt of [input] and the lines of [print]. *)
Inductive output :=
| Prompt (text : string)
| Printed (line : string).

Section Intake.
Context {float : Type} {H : PyFloat float}.

Definition prompt_text (prompt : string) (default_value : float) : string :=
  prompt ++ " [" ++ str_float default_value ++ "]: ".

Definition entrada_invalida : output :=
  Printed "Entrada inválida. Por favor, ingrese un número.".

Definition eof_error : exn :=
  mkExn EOFError "EOF when reading a line" EmptyString.

(** [get_float_input] over the lines still waiting on standard input: the
    result, the lines left, and what was written.  Each turn of
    [while True] reads one line; when none is left [input] raises
    [EOFError], which the [except ValueError] clause does not catch. *)
Fixpoint get_float_input_lines (prompt : string) (default_value : float)
    (lines : list string) : Res float * list string * list output :=
  match lines with
  | [] => (Raise eof_error, [], [Prompt (prompt_text prompt default_value)])
  | value_str :: rest =>
      if (value_str =? EmptyString)%string then
        (Ok default_value, rest, [Prompt (prompt_text prompt default_value)])
      else
        match float_of_string value_str with
        | Some x =>
            (Ok x, rest, [Prompt (prompt_text prompt default_value)])
        | None =>
            let '(r, rest', out) :=
              get_float_input_lines prompt default_value rest in
            (r, rest',
             Prompt (prompt_text prompt default_value)
               :: entrada_invalida :: out)
        end
  end.
End Intake.

(** ** NumPy: the solution matrix *)

Section Numpy.
Context {float : Type}.

(** A two-dimensional [ndarray]: its [shape] and its cells. *)
Record Matrix := mkMatrix {
  nrows : nat;                       (* shape[0] *)
  ncols : nat;                       (* shape[1] *)
  cell : nat -> nat -> float
}.

Definition size (a : Matrix) : nat := nrows a * ncols a.

Definition dec (n : nat) : string := NilZero.string_of_uint (Nat.to_uint n).

Definition index_error (j n : nat) : exn :=
  mkExn IndexError
    ("index " ++ dec j ++ " is out of bounds for axis 1 with size " ++ dec n)
    EmptyString.

(** [a[:, j]]: column [j], or [IndexError] when the matrix is narrower. *)
Definition column (a : Matrix) (j : nat) : Exc (list float) :=
  if (j <? ncols a)%nat
  then Val (map (fun i => cell a i j) (seq 0 (nrows a)))
  else Err (index_error j (ncols a)).
End Numpy.
Arguments Matrix : clear implicits.

(** ** Matplotlib: figures and pyplot's registry of open figures *)

Section Pyplot.
Context {float : Type}.

Record Line := mkLine {
  line_x : list float;
  line_y : list float;
  line_z : option (list float);
  line_label : string
}.

Record Axes := mkAxes {
  ax_spec : nat * nat * nat;         (* rows, columns, index of the panel *)
  ax_projection : string;
  ax_lines : list Line;
  ax_has_legend : bool;
  ax_has_grid : bool;
  ax_texts : list (string * string)  (* xlabel, ylabel, zlabel, title *)
}.

Record Figure := mkFigure {
  fig_size : Q * Q;
  fig_axes : list Axes;
  fig_tight : bool
}.

(** Every figure object made so far, addressed by its handle (its place in
    [figures]), and the handles pyplot still holds open, oldest first.
    The current figure is the newest open one; the current axes of a
    figure are the ones added last. *)
Record Pyplot := mkPyplot {
  figures : list Figure;
  open_figs : list nat
}.

Definition no_figures : Pyplot := mkPyplot [] [].

Definition blank (figsize : Q * Q) : Figure := mkFigure figsize [] false.

Definition default_figsize : Q * Q := (6.4%Q, 4.8%Q).

Fixpoint set_nth {A} (i : nat) (x : A) (l : list A) : list A :=
  match l, i with
  | [], _ => []
  | _ :: t, O => x :: t
  | y :: t, S i' => y :: set_nth i' x t
  end.

Definition fig_at (pl : Pyplot) (h : nat) : Figure :=
  nth h (figures pl) (blank default_figsize).

Definition update_fig (h : nat) (f : Figure -> Figure) : M Pyplot unit :=
  modify (fun pl =>
    mkPyplot (set_nth h (f (fig_at pl h)) (figures pl)) (open_figs pl)).

(** The figure with its axes number [i] changed by [f]. *)
Definition with_axes (i : nat) (f : Axes -> Axes) (fg : Figure) : Figure :=
  match nth_error (fig_axes fg) i with
  | Some ax =>
      mkFigure (fig_size fg) (set_nth i (f ax) (fig_axes fg)) (fig_tight fg)
  | None => fg
  end.

Definition update_axes (a : nat * nat) (f : Axes -> Axes) : M Pyplot unit :=
  update_fig (fst a) (with_axes (snd a) f).

(** [plt.figure(figsize=...)]: a new figure, registered and made current. *)
Definition plt_figure (figsize : Q * Q) : M Pyplot nat :=
  fun pl =>
    let h := length (figures pl) in
    (Ok h, mkPyplot (figures pl ++ [blank figsize])%list
                  (open_figs pl ++ [h])%list).

(** [plt.gcf()]: the current figure; pyplot makes one when none is open. *)
Definition plt_gcf : M Pyplot nat :=
  fun pl =>
    match rev (open_figs pl) with
    | h :: _ => (Ok h, pl)
    | [] => plt_figure default_figsize pl
    end.

(** [fig.add_subplot(...)]: new axes on the figure, which become its
    current axes. *)
Definition add_subplot (h : nat) (spec : nat * nat * nat)
    (projection : string) : M Pyplot (nat * nat) :=
  fun pl =>
    let i := length (fig_axes (fig_at pl h)) in
    match update_fig h (fun fg =>
            mkFigure (fig_size fg)
              (fig_axes fg ++ [mkAxes spec projection [] false false []])%list
              (fig_tight fg)) pl with
    | (_, pl') => (Ok (h, i), pl')
    end.

(** [plt.gca()]: the current axes; pyplot adds a full-figure panel when
    the current figure has none. *)
Definition plt_gca : M Pyplot (nat * nat) :=
  h <- plt_gcf ;;
  fun pl =>
    match length (fig_axes (fig_at pl h)) with
    | O => add_subplot h (1, 1, 1) "rectilinear" pl
    | S i => (Ok (h, i), pl)
    end.

(** [plt.subplot(r, c, k)] on a figure that has no panel at that place. *)
Definition plt_subplot (r c k : nat) : M Pyplot (nat * nat) :=
  h <- plt_gcf ;; add_subplot h (r, c, k) "rectilinear".

Definition ax_plot (a : nat * nat) (l : Line) : M Pyplot unit :=
  update_axes a (fun ax =>
    mkAxes (ax_spec ax) (ax_projection ax) (ax_lines ax ++ [l])%list
      (ax_has_legend ax) (ax_has_grid ax) (ax_texts ax)).

Definition ax_legend (a : nat * nat) : M Pyplot unit :=
  update_axes a (fun ax =>
    mkAxes (ax_spec ax) (ax_projection ax) (ax_lines ax)
      true (ax_has_grid ax) (ax_texts ax)).

Definition ax_grid (a : nat * nat) : M Pyplot unit :=
  update_axes a (fun ax =>
    mkAxes (ax_spec ax) (ax_projection ax) (ax_lines ax)
      (ax_has_legend ax) true (ax_texts ax)).

Definition ax_set (a : nat * nat) (key text : string) : M Pyplot unit :=
  update_axes a (fun ax =>
    mkAxes (ax_spec ax) (ax_projection ax) (ax_lines ax)
      (ax_has_legend ax) (ax_has_grid ax) (ax_texts ax ++ [(key, text)])%list).

Definition plt_plot (x y : list float) (label : string) : M Pyplot unit :=
  a <- plt_gca ;; ax_plot a (mkLine x y None label).

Definition plt_legend : M Pyplot unit := a <- plt_gca ;; ax_legend a.

Definition plt_tight_layout : M Pyplot unit :=
  h <- plt_gcf ;;
  update_fig h (fun fg => mkFigure (fig_size fg) (fig_axes fg) true).

(** [plt.subplots(figsize=...)]: a new figure with one panel. *)
Definition plt_subplots (figsize : Q * Q) : M Pyplot (nat * (nat * nat)) :=
  h <- plt_figure figsize ;;
  a <- add_subplot h (1, 1, 1) "rectilinear" ;;
  ret (h, a).

(** [plt.close(fig)]: the figure leaves the registry. *)
Definition plt_close (h : nat) : M Pyplot unit :=
  modify (fun pl =>
    mkPyplot (figures pl) (filter (fun k => negb (k =? h)%nat) (open_figs pl))).

(** Run pyplot code inside a larger state. *)
Definition zoom {S A} (get : S -> Pyplot) (set : Pyplot -> S -> S)
    (c : M Pyplot A) : M S A :=
  fun s => match c (get s) with (r, pl) => (r, set pl s) end.
End Pyplot.
Arguments Line : clear implicits.
Arguments Axes : clear implicits.
Arguments Figure : clear implicits.
Arguments Pyplot : clear implicits.

(** ** The engine (RocketPy) and the values handed to it *)

Record datetime := mkDatetime {
  year : nat; month : nat; day : nat;
  hour : nat; minute : nat; second : nat
}.

Definition pad2 (n : nat) : string :=
  if (n <? 10)%nat then "0" ++ dec n else dec n.

(** [d.strftime("%Y%m%d_%H%M%S")] *)
Definition strftime_Ymd_HMS (d : datetime) : string :=
  dec (year d) ++ pad2 (month d) ++ pad2 (day d) ++ "_"
  ++ pad2 (hour d) ++ pad2 (minute d) ++ pad2 (second d).

Section Engine.
Context {float : Type}.

Inductive pyval :=
| VInt (z : Z)
| VFloat (x : float)
| VStr (s : string)
| VTuple (items : list pyval)
| VList (items : list pyval)
| VDatetime (d : datetime)
| VObj (id : nat)
| VGlobal (name : string).

Definition kwargs : Type := list (string * pyval).

(** The value bound to a keyword. *)
Fixpoint keyword (k : string) (kw : kwargs) : option pyval :=
  match kw with
  | [] => None
  | (k', v) :: rest => if (k =? k')%string then Some v else keyword k rest
  end.

(** A call into the engine, by the callee's name, its positional and its
    keyword arguments: the object it returns, or the exception it
    raises. *)
Definition RocketPy : Type := string -> list pyval -> kwargs -> Exc pyval.
End Engine.
Arguments pyval : clear implicits.
Arguments kwargs : clear implicits.
Arguments RocketPy : clear implicits.

(** ** CansatTerminal.py *)

Module Terminal.
Section Script.
Context {float : Type} {H : PyFloat float}.

(** What the script reads of the [Flight] object. *)
Record Flight := mkFlight {
  apogee : Exc float;                (* flight.apogee *)
  solution_array : Exc (Matrix float)   (* np.array(flight.solution) *)
}.

(** The engine the script runs against. *)
Variable rp : RocketPy float.
Variable rp_Flight : kwargs float -> Exc Flight.

(** The process: the lines waiting on standard input, what was written,
    pyplot, the clock, the files written and the windows shown. *)
Record Process := mkProcess {
  stdin : list string;
  stdout : list output;
  plt : Pyplot float;
  now : datetime;
  disk : list (string * (Figure float));
  shown : list (list (Figure float))
}.

Definition start (lines : list string) (clock : datetime) : Process :=
  mkProcess lines [] no_figures clock [] [].

Definition print (line : string) : M Process unit :=
  modify (fun p =>
    mkProcess (stdin p) (stdout p ++ [Printed line])%list (plt p) (now p)
      (disk p) (shown p)).

Definition pyplot {A} (c : M (Pyplot float) A) : M Process A :=
  zoom plt (fun pl p =>
    mkProcess (stdin p) (stdout p) pl (now p) (disk p) (shown p)) c.

Definition get_float_input (prompt : string) (default_value : float)
    : M Process float :=
  fun p =>
    let '(r, rest, out) :=
      get_float_input_lines prompt default_value (stdin p) in
    (r, mkProcess rest (stdout p ++ out)%list (plt p) (now p)
          (disk p) (shown p)).

(** [plt.savefig(name, dpi=300, bbox_inches='tight')]: the current figure
    goes to the file. *)
Definition plt_savefig (name : string) : M Process unit :=
  h <- pyplot plt_gcf ;;
  modify (fun p =>
    mkProcess (stdin p) (stdout p) (plt p) (now p)
      (disk p ++ [(name, fig_at (plt p) h)])%list (shown p)).

(** [plt.show()]: a window for each open figure. *)
Definition plt_show : M Process unit :=
  modify (fun p =>
    mkProcess (stdin p) (stdout p) (plt p) (now p) (disk p)
      (shown p ++ [map (fig_at (plt p)) (open_figs (plt p))])%list).

Definition default_inclination : float := lit 90.0%Q.
Definition default_heading : float := lit 0.0%Q.
Definition default_rail_length : float := lit 1.2%Q.
Definition default_cansat_mass : float := lit 0.3%Q.
Definition default_drag_coeff : float := lit 0.6%Q.
Definition default_burn_time : float := lit 2.0%Q.
Definition default_avg_thrust : float := lit 10.0%Q.
Definition default_elevation : float := lit 20.0%Q.

Record Inputs := mkInputs {
  user_inclination : float;
  user_heading : float;
  user_rail_length : float;
  user_cansat_mass : float;
  user_drag_coeff : float;
  user_burn_time : float;
  user_avg_thrust : float;
  user_elevation : float
}.

(** Lines 31-41: the eight prompts. *)
Definition entrada_del_usuario : M Process Inputs :=
  print "--- Ingrese los parámetros de simulación (Presione Enter para usar el valor por defecto) ---" ;;
  i <- get_float_input "Ángulo de lanzamiento (grados, 90=vertical)" default_inclination ;;
  h <- get_float_input "Dirección de lanzamiento (Azimut, grados)" default_heading ;;
  r <- get_float_input "Longitud de la rampa de lanzamiento (metros)" default_rail_length ;;
  m <- get_float_input "Masa seca del CanSat (kg)" default_cansat_mass ;;
  d <- get_float_input "Coeficiente de arrastre (simplificado)" default_drag_coeff ;;
  b <- get_float_input "Duración del empuje del motor (segundos)" default_burn_time ;;
  t <- get_float_input "Empuje promedio del motor (Newtons)" default_avg_thrust ;;
  e <- get_float_input "Elevación del sitio de lanzamiento (metros)" default_elevation ;;
  print ("-------------------------------------------------------------------------------------" ++ newline) ;;
  ret (mkInputs i h r m d b t e).

(** Lines 54-72: the keyword arguments of [rp.SolidMotor]. *)
Definition gas_motor (user_avg_thrust user_burn_time : float) : kwargs float :=
  [ ("thrust_source", VFloat user_avg_thrust);
    ("burn_time", VFloat user_burn_time);
    ("dry_mass", VFloat (lit 0.5%Q));
    ("dry_inertia",
     VTuple [VFloat (lit 0.02%Q); VFloat (lit 0.02%Q); VFloat (lit 0.001%Q)]);
    ("center_of_dry_mass_position", VFloat (lit 0.15%Q));
    ("grains_center_of_mass_position", VFloat (lit 0.2%Q));
    ("grain_number", VInt 1);
    ("grain_separation", VFloat (lit 0.005%Q));
    ("grain_density", VFloat (lit 1700.0%Q));
    ("grain_outer_radius", VFloat (lit 0.02%Q));
    ("grain_initial_inner_radius", VFloat (lit 0.005%Q));
    ("grain_initial_height", VFloat (lit 0.08%Q));
    ("nozzle_radius", VFloat (lit 0.01%Q));
    ("throat_radius", VFloat (lit 0.005%Q));
    ("interpolation_method", VStr "linear");
    ("nozzle_position", VFloat (lit 0.0%Q));
    ("coordinate_system_orientation", VStr "nozzle_to_combustion_chamber") ].

(** Lines 43-96: environment, motor, vehicle and flight. *)
Definition configuracion (u : Inputs) : M Process Flight :=
  env <- ext (rp "rp.Environment" []
           [ ("latitude", VFloat (lit 31.8664%Q));
             ("longitude", VFloat (fneg (lit 116.5959%Q)));
             ("elevation", VFloat (user_elevation u)) ]) ;;
  let simulation_datetime := mkDatetime 2025 5 3 22 52 0 in
  ext (rp "Environment.set_date" [env; VDatetime simulation_datetime]
         [("timezone", VStr "America/Tijuana")]) ;;
  ext (rp "Environment.set_atmospheric_model" [env]
         [("type", VStr "standard_atmosphere")]) ;;
  motor <- ext (rp "rp.SolidMotor" []
             (gas_motor (user_avg_thrust u) (user_burn_time u))) ;;
  can_sat <- ext (rp "rp.Rocket" []
               [ ("radius", VFloat (lit 0.033%Q));
                 ("mass", VFloat (user_cansat_mass u));
                 ("inertia",
                  VTuple [VFloat (lit 0.0001%Q); VFloat (lit 0.0001%Q);
                          VFloat (lit 0.0002%Q)]);
                 ("center_of_mass_without_motor", VFloat (lit 0.15%Q));
                 ("coordinate_system_orientation", VStr "nose_to_tail");
                 ("power_off_drag", VFloat (user_drag_coeff u));
                 ("power_on_drag", VFloat (user_drag_coeff u)) ]) ;;
  let motor_position_z := lit 0.3%Q in
  ext (rp "Rocket.add_motor" [can_sat; motor]
         [("position", VFloat motor_position_z)]) ;;
  ext (rp_Flight
         [ ("rocket", can_sat);
           ("environment", env);
           ("rail_length", VFloat (user_rail_length u));
           ("inclination", VFloat (user_inclination u));
           ("heading", VFloat (user_heading u)) ]).

(** Lines 98-114: the apogee line and the guard on the solution array. *)
Definition resultados (flight : Flight) : M Process (Matrix float) :=
  print "Ejecutando simulación con los parámetros ingresados..." ;;
  print (newline ++ "Simulación completada. Accediendo a resultados...") ;;
  a <- ext (apogee flight) ;;
  print ("Altitud Máxima (Apogeo) alcanzada: " ++ format_2f a ++ " m") ;;
  try_except
    (solution_array <- ext (solution_array flight) ;;
     if (size solution_array =? 0)%nat then
       print (newline ++ "ADVERTENCIA: La simulación no produjo resultados. Verifique los parámetros.") ;;
       sys_exit
     else ret solution_array)
    (fun e =>
       print (newline ++ "ERROR al acceder a los resultados de la simulación: " ++ exc_str e) ;;
       print "Puede que necesite llamar a flight.post_process() después de crear el objeto Flight." ;;
       sys_exit).

(** Lines 116-127: the time-series figure. *)
Definition graficas_2d (solution_array : Matrix float) : M Process unit :=
  pyplot (plt_figure (10%Q, 8%Q)) ;;
  pyplot (plt_subplot 2 1 1) ;;
  t <- ext (column solution_array 0) ;;
  z <- ext (column solution_array 3) ;;
  pyplot (plt_plot t z "Altitud (z)") ;;
  pyplot plt_legend ;;
  pyplot (plt_subplot 2 1 2) ;;
  t <- ext (column solution_array 0) ;;
  vz <- ext (column solution_array 6) ;;
  pyplot (plt_plot t vz "Velocidad Vertical (vz)") ;;
  pyplot plt_legend ;;
  pyplot plt_tight_layout.

(** Lines 129-139: the trajectory figure. *)
Definition grafica_3d (solution_array : Matrix float) : M Process unit :=
  pos_x <- ext (column solution_array 1) ;;
  pos_y <- ext (column solution_array 2) ;;
  pos_z <- ext (column solution_array 3) ;;
  fig3d <- pyplot (plt_figure (10%Q, 8%Q)) ;;
  ax3d <- pyplot (add_subplot fig3d (1, 1, 1) "3d") ;;
  pyplot (ax_plot ax3d (mkLine pos_x pos_y (Some pos_z) "Trayectoria del CanSat")) ;;
  pyplot (ax_legend ax3d) ;;
  pyplot (ax_grid ax3d).

(** Lines 141-146: the image file and the windows. *)
Definition generar_imagen_y_mostrar : M Process unit :=
  clock <- gets now ;;
  let generate_file_name_custom := strftime_Ymd_HMS clock ++ ".png" in
  plt_savefig generate_file_name_custom ;;
  plt_show.

(** Lines 116-146: everything after the guard. *)
Definition graficar (solution_array : Matrix float) : M Process unit :=
  graficas_2d solution_array ;;
  grafica_3d solution_array ;;
  generar_imagen_y_mostrar.

(** The script, top to bottom. *)
Definition main : M Process unit :=
  u <- entrada_del_usuario ;;
  flight <- configuracion u ;;
  solution_array <- resultados flight ;;
  graficar solution_array.
End Script.
End Terminal.
Arguments Terminal.Flight : clear implicits.
Arguments Terminal.Process : clear implicits.
Arguments Terminal.Inputs : clear implicits.

(** ** flask_app.py *)

Module Server.
Section App.
Context {float : Type} {H : PyFloat float}.

(** What the view reads of the [Flight] object: [flight.apogee];
    [flight.solution.source_raw], with [None] when [flight.solution] is
    [None] or has no such attribute; and [flight.z.plot], with [None] when
    [flight] has no [z] or [z] no [plot], and otherwise the lines the
    engine draws on the axes it is given, or the exception it raises. *)
Record Attrs := mkAttrs {
  apogee : Exc float;
  solution : option (Matrix float);
  z_plot : option (Exc (list (Line float)))
}.

(** The [Flight] object: its attributes now, and what
    [flight.post_process()] turns them into ([None]: no such method). *)
Record Flight := mkFlight {
  attrs : Attrs;
  post_process : option (Exc Attrs)
}.

(** The engine the view runs against: its calls, the text of an attribute
    inside an f-string, and the flight it computes. *)
Variable rp : RocketPy float.
Variable rp_attr_text : pyval float -> string -> Exc string.
Variable rp_Flight : kwargs float -> Exc Flight.

(** Matplotlib's Agg renderer and [base64.b64encode]. *)
Variable png : Figure float -> string.
Variable b64encode : string -> string.

(** The server process: what was printed, pyplot, and the clock. *)
Record Server := mkServer {
  stdout : list string;
  plt : Pyplot float;
  now : datetime
}.

Definition print (line : string) : M Server unit :=
  modify (fun s => mkServer (stdout s ++ [line])%list (plt s) (now s)).

Definition pyplot {A} (c : M (Pyplot float) A) : M Server A :=
  zoom plt (fun pl s => mkServer (stdout s) pl (now s)) c.

(** Lines 20-28. *)
Definition fig_to_base64 (fig : nat) : M Server string :=
  buf <- gets (fun s => png (fig_at (plt s) fig)) ;;
  let img_base64 := b64encode buf in
  pyplot (plt_close fig) ;;
  ret img_base64.

(** The stack frame of an exception raised by the view's own code. *)
Definition in_the_view : string :=
  "  File flask_app.py, in ejecutar_simulacion_y_graficar" ++ newline.

(** The names bound at module level. *)
Definition module_globals : list string :=
  [ "Flask"; "render_template_string"; "rp"; "np"; "matplotlib"; "plt";
    "Axes3D"; "datetime"; "io"; "base64"; "traceback"; "app";
    "fig_to_base64"; "ejecutar_simulacion_y_graficar"; "home" ].

(** Reading a name that the function never assigns: a module-level
    binding, or [NameError] (no built-in is read this way here). *)
Definition load_global (name : string) : M Server (pyval float) :=
  if existsb (String.eqb name) module_globals
  then ret (VGlobal name)
  else raise (mkExn NameError ("name '" ++ name ++ "' is not defined")
                in_the_view).

(** [hasattr(obj, name)] for an attribute whose reading may raise:
    only [AttributeError] means the attribute is missing. *)
Definition hasattr {A} (r : Exc A) : M Server bool :=
  match r with
  | Val _ => ret true
  | Err e =>
      match exc_type e with
      | AttributeError => ret false
      | _ => raise e
      end
  end.

Definition default_inclination : float := lit 90.0%Q.
Definition default_heading : float := lit 0.0%Q.
Definition default_rail_length : float := lit 1.2%Q.
Definition default_cansat_mass : float := lit 0.3%Q.
Definition default_drag_coeff : float := lit 0.6%Q.
Definition default_burn_time : float := lit 2.0%Q.
Definition default_avg_thrust : float := lit 10.0%Q.
Definition default_elevation : float := lit 20.0%Q.

(** Line 69. *)
Definition thrust_curve (avg_thrust burn_time : float) : pyval float :=
  VList [ VTuple [VInt 0; VFloat avg_thrust];
          VTuple [VFloat burn_time; VFloat avg_thrust] ].

(** Lines 71-82: the keyword arguments of [rp.SolidMotor]. *)
Definition GasMotor (avg_thrust burn_time : float) : kwargs float :=
  [ ("thrustSource", thrust_curve avg_thrust burn_time);
    ("burnOut", VFloat burn_time);
    ("grainNumber", VInt 1);
    ("grainDensity", VInt 1800);
    ("grainOuterRadius", VFloat (lit 0.02%Q));
    ("grainInitialInnerRadius", VFloat (lit 0.005%Q));
    ("grainInitialHeight", VFloat (lit 0.05%Q));
    ("nozzleRadius", VFloat (lit 0.01%Q));
    ("throatRadius", VFloat (lit 0.005%Q));
    ("interpolationMethod", VStr "linear") ].

(** Lines 57-118: environment, motor, vehicle and flight.  In the call of
    [rp.Rocket] the keyword values are evaluated left to right; the one
    for [inertia] reads [inertia_IxIy] and [inertia_Iz], which are keywords
    of the same call, not variables. *)
Definition configurar_y_simular
    (inclination heading rail_length cansat_mass drag_coeff burn_time
     avg_thrust elevation : float) : M Server Flight :=
  print "Configurando entorno..." ;;
  env <- ext (rp "rp.Environment" []
           [ ("latitude", VFloat (lit 31.8664%Q));
             ("longitude", VFloat (fneg (lit 116.5959%Q)));
             ("elevation", VFloat elevation) ]) ;;
  simulation_datetime <- gets now ;;
  ext (rp "Environment.set_date" [env; VDatetime simulation_datetime]
         [("timezone", VStr "America/Tijuana")]) ;;
  ext (rp "Environment.set_atmospheric_model" [env]
         [("type", VStr "standard_atmosphere")]) ;;
  print "Entorno configurado." ;;
  print "Definiendo motor..." ;;
  motor <- ext (rp "rp.SolidMotor" [] (GasMotor avg_thrust burn_time)) ;;
  tag <- ext (rp_attr_text motor "tag") ;;
  burn_out <- ext (rp_attr_text motor "burnOutTime") ;;
  print ("Motor '" ++ tag ++ "' creado con tiempo de quemado: "
         ++ burn_out ++ "s") ;;
  print "Definiendo CanSat (Rocket)..." ;;
  let cansat_radius := fdiv (lit 0.066%Q) (of_int 2) in
  let kw_inertia_Iz :=
    fmul (fmul (lit 0.5%Q) cansat_mass) (fpow cansat_radius 2) in
  let kw_inertia_IxIy :=
    fmul (fmul (fdiv (of_int 1) (of_int 12)) cansat_mass)
      (fadd (fmul (of_int 3) (fpow cansat_radius 2))
            (fpow (lit 0.115%Q) 2)) in
  inertia_IxIy <- load_global "inertia_IxIy" ;;
  inertia_IxIy' <- load_global "inertia_IxIy" ;;
  inertia_Iz <- load_global "inertia_Iz" ;;
  can_sat <- ext (rp "rp.Rocket" []
               [ ("motor", motor);
                 ("radius", VFloat cansat_radius);
                 ("mass", VFloat cansat_mass);
                 ("inertia_Iz", VFloat kw_inertia_Iz);
                 ("inertia_IxIy", VFloat kw_inertia_IxIy);
                 ("inertia", VTuple [inertia_IxIy; inertia_IxIy'; inertia_Iz]);
                 ("distanceRocketNozzle", VFloat (fneg (lit 0.0575%Q)));
                 ("distanceRocketPropellant", VFloat (fneg (lit 0.0575%Q)));
                 ("powerOffDrag", VFloat drag_coeff);
                 ("powerOnDrag", VFloat drag_coeff) ]) ;;
  ext (rp "Rocket.setRailButtons"
         [can_sat;
          VList [ VFloat (fdiv (lit 0.115%Q) (of_int 2));
                  VFloat (fdiv (fneg (lit 0.115%Q)) (of_int 2)) ]] []) ;;
  can_sat_tag <- ext (rp_attr_text can_sat "tag") ;;
  print ("CanSat '" ++ can_sat_tag ++ "' creado.") ;;
  print "Configurando y ejecutando simulación de vuelo..." ;;
  ext (rp_Flight
         [ ("rocket", can_sat);
           ("environment", env);
           ("rail_length", VFloat rail_length);
           ("inclination", VFloat inclination);
           ("heading", VFloat heading) ]).

(** Lines 123 and 129: no solution to plot. *)
Definition sin_resultados (a : Attrs) : bool :=
  match solution a with
  | None => true
  | Some m => (nrows m <=? 1)%nat
  end.

Definition none_has_no_source_raw : exn :=
  mkExn AttributeError "'NoneType' object has no attribute 'source_raw'"
    in_the_view.

(** Lines 145-160: the altitude chart and its [<img>] fragment. *)
Definition grafica_2d (a : Attrs) (solution_array : Matrix float)
    : M Server string :=
  figax <- pyplot (plt_subplots (10%Q, 6%Q)) ;;
  let fig_alt := fst figax in
  let ax_alt := snd figax in
  match z_plot a with
  | Some drawn =>
      ls <- ext drawn ;;
      pyplot (update_axes ax_alt (fun ax =>
        mkAxes (ax_spec ax) (ax_projection ax) (ax_lines ax ++ ls)%list
          (ax_has_legend ax) (ax_has_grid ax) (ax_texts ax)))
  | None =>
      t <- ext (column solution_array 0) ;;
      z <- ext (column solution_array 3) ;;
      pyplot (ax_plot ax_alt (mkLine t z None "Altitud (z)"))
  end ;;
  pyplot (ax_set ax_alt "xlabel" "Tiempo (s)") ;;
  pyplot (ax_set ax_alt "ylabel" "Altitud (m)") ;;
  pyplot (ax_set ax_alt "title" "Altitud del CanSat vs. Tiempo") ;;
  pyplot (ax_legend ax_alt) ;;
  pyplot (ax_grid ax_alt) ;;
  img_base64_alt <- fig_to_base64 fig_alt ;;
  ret ("<h3>Altitud vs Tiempo</h3><img src='data:image/png;base64,"
       ++ img_base64_alt ++ "' alt='Altitud vs Tiempo'>").

Definition sin_columnas_xyz : string :=
  "<p>No hay suficientes datos en solution_array para la trayectoria 3D (se necesitan columnas para x, y, z).</p>".

(** Lines 162-181: the trajectory chart, or the note that replaces it. *)
Definition grafica_3d (solution_array : Matrix float) : M Server string :=
  if (3 <? ncols solution_array)%nat then
    x_flight <- ext (column solution_array 1) ;;
    y_flight <- ext (column solution_array 2) ;;
    z_flight <- ext (column solution_array 3) ;;
    fig3d <- pyplot (plt_figure (10%Q, 8%Q)) ;;
    ax3d <- pyplot (add_subplot fig3d (1, 1, 1) "3d") ;;
    pyplot (ax_plot ax3d
              (mkLine x_flight y_flight (Some z_flight)
                 "Trayectoria del CanSat")) ;;
    pyplot (ax_set ax3d "xlabel" "Posición X (m)") ;;
    pyplot (ax_set ax3d "ylabel" "Posición Y (m)") ;;
    pyplot (ax_set ax3d "zlabel" "Posición Z (Altitud) (m)") ;;
    pyplot (ax_set ax3d "title" "Trayectoria 3D del CanSat") ;;
    pyplot (ax_legend ax3d) ;;
    pyplot plt_tight_layout ;;
    img_base64_3d <- fig_to_base64 fig3d ;;
    ret ("<h3>Trayectoria 3D</h3><img src='data:image/png;base64,"
         ++ img_base64_3d ++ "' alt='Trayectoria 3D'>")
  else ret sin_columnas_xyz.

(** Lines 141-184: the two charts, for a solution that passed the
    guards. *)
Definition generar_graficas (a : Attrs) (solution_array : Matrix float)
    : M Server string :=
  print "Generando gráficas..." ;;
  ap <- ext (apogee a) ;;
  let img_html_output :=
    "<h2>Simulación Completada</h2><p>Apogeo (calculado por RocketPy): "
    ++ format_2f ap ++ " m</p>" in
  altitud <- grafica_2d a solution_array ;;
  let img_html_output := img_html_output ++ altitud in
  trayectoria <- grafica_3d solution_array ;;
  let img_html_output := img_html_output ++ trayectoria in
  print "--- Simulación y graficación finalizadas exitosamente. ---" ;;
  ret img_html_output.

(** Lines 119-184: from the apogee line to the returned fragment. *)
Definition graficar (flight : Flight) : M Server string :=
  ap <- ext (apogee (attrs flight)) ;;
  print ("Altitud Máxima (Apogeo) alcanzada: " ++ format_2f ap ++ " m") ;;
  checked <-
    (if sin_resultados (attrs flight) then
       a <- match post_process flight with
            | Some processed =>
                print "Intentando flight.post_process() explícitamente..." ;;
                ext processed
            | None => ret (attrs flight)
            end ;;
       if sin_resultados a then
         print "ADVERTENCIA: La simulación no produjo suficientes resultados en flight.solution." ;;
         has <- hasattr (apogee a) ;;
         apogee_val <- (if has : bool
                        then v <- ext (apogee a) ;; ret (str_float v)
                        else ret "No disponible") ;;
         ret (inl ("<p>Error: La simulación no produjo resultados graficables. Apogeo: "
                   ++ apogee_val ++ "</p>"))
       else ret (inr a)
     else ret (inr (attrs flight))) ;;
  match checked with
  | inl fragment => ret fragment
  | inr a =>
      match solution a with
      | None => raise none_has_no_source_raw
      | Some solution_array =>
          if ((size solution_array =? 0) || (nrows solution_array <=? 1))%nat
          then
            ap <- ext (apogee a) ;;
            ret ("<p>ADVERTENCIA: La simulación no produjo resultados válidos. Apogeo: "
                 ++ format_2f ap ++ " m</p>")
          else generar_graficas a solution_array
      end
  end.

(** Lines 186-190: the [except Exception] clause. *)
Definition error_en_la_simulacion (e : exn) : M Server string :=
  print ("ERROR CRÍTICO durante la simulación o graficación: " ++ exc_str e) ;;
  let error_details := format_exc e in
  print error_details ;;
  ret ("<h2>Error en la Simulación</h2><p>Ha ocurrido un error:</p><pre>"
       ++ exc_str e ++ "</pre><pre>" ++ error_details ++ "</pre>").

(** Lines 31-190. *)
Definition ejecutar_simulacion_y_graficar : M Server string :=
  print "--- Iniciando simulación con valores por defecto ---" ;;
  let inclination := default_inclination in
  let heading := default_heading in
  let rail_length := default_rail_length in
  let cansat_mass := default_cansat_mass in
  let drag_coeff := default_drag_coeff in
  let burn_time := default_burn_time in
  let avg_thrust := default_avg_thrust in
  let elevation := default_elevation in
  try_except
    (flight <- configurar_y_simular inclination heading rail_length
                 cansat_mass drag_coeff burn_time avg_thrust elevation ;;
     graficar flight)
    error_en_la_simulacion.

Definition dq : string := String (ascii_of_nat 34) EmptyString.

(** Lines 199-236: the page around the result, before and after it. *)
Definition html_head : string :=
  String.concat newline
    [ EmptyString;
      "    <!DOCTYPE html>";
      ("    <html lang=" ++ dq ++ "es" ++ dq ++ ">");
      "    <head>";
      ("        <meta charset=" ++ dq ++ "UTF-8" ++ dq ++ ">");
      ("        <meta name=" ++ dq ++ "viewport" ++ dq ++ " content=" ++ dq ++ "width=device-width, initial-scale=1.0" ++ dq ++ ">");
      "        <title>Simulación CanSat Sencilla con Flask</title>";
      "        <style>";
      "            body { font-family: Arial, sans-serif; margin: 20px; line-height: 1.6; }";
      "            h1, h2, h3 { color: #333; }";
      "            img { ";
      "                border: 1px solid #ddd; ";
      "                margin-top: 10px; ";
      "                margin-bottom: 20px; ";
      "                max-width: 100%; ";
      "                height: auto; ";
      "                display: block;";
      "            }";
      "            p { color: #555; }";
      "            pre { ";
      "                background-color: #f4f4f4; ";
      "                padding: 15px; ";
      "                border: 1px solid #ccc; ";
      "                overflow-x: auto; ";
      "                white-space: pre-wrap; /* Permite que el texto se ajuste */";
      "                word-wrap: break-word; /* Asegura que palabras largas no desborden */";
      "            }";
      "            .container { max-width: 900px; margin: auto; padding: 20px; }";
      "        </style>";
      "    </head>";
      "    <body>";
      ("        <div class=" ++ dq ++ "container" ++ dq ++ ">");
      "            <h1>Resultado de la Simulación del CanSat</h1>";
      "            " ].

Definition html_tail : string :=
  String.concat newline
    [ EmptyString; "        </div>"; "    </body>"; "    </html>"; "    " ].

(** Lines 193-237. *)
Definition home : M Server string :=
  resultado_html <- ejecutar_simulacion_y_graficar ;;
  let html_template := html_head ++ resultado_html ++ html_tail in
  ret html_template.

Record Response := mkResponse {
  status : nat;
  body : string
}.

(** Flask serving [GET /]: a string returned by the view is the body of a
    200 response; an exception leaving the view is a 500. *)
Definition get_root : M Server Response :=
  fun s =>
    match home s with
    | (Ok html, s') => (Ok (mkResponse 200 html), s')
    | (Raise e, s') => (Ok (mkResponse 500 (format_exc e)), s')
    | (Exit, s') => (Exit, s')
    end.
End App.
End Server.
Arguments Server.Attrs : clear implicits.
Arguments Server.Flight : clear implicits.
Arguments Server.Server : clear implicits.

(** ** A float to run the programs on

    Rationals with decimal numerals: [float_of_string] reads an optional
    sign, digits and an optional fraction, and the printers write decimal
    fractions.  On short decimal numerals this is what CPython's [float]
    does; it stands in for it where a program is run on concrete input. *)

Definition digit_of (c : ascii) : option Z :=
  let n := nat_of_ascii c in
  if ((48 <=? n) && (n <=? 57))%nat then Some (Z.of_nat (n - 48)) else None.

Fixpoint scan_decimal (s : string) (num : Z) (scale : option positive)
    (seen : bool) : option Q :=
  match s with
  | EmptyString =>
      if seen
      then Some (Qmake num
                  (match scale with Some d => d | None => 1%positive end))
      else None
  | String c s' =>
      if Ascii.eqb c "."%char then
        match scale with
        | None => scan_decimal s' num (Some 1%positive) seen
        | Some _ => None
        end
      else
        match digit_of c with
        | Some d =>
            scan_decimal s' (10 * num + d)%Z
              (option_map (Pos.mul 10) scale) true
        | None => None
        end
  end.

Definition parse_decimal (s : string) : option Q :=
  match s with
  | String c s' =>
      if Ascii.eqb c "-"%char
      then option_map Qopp (scan_decimal s' 0 None false)
      else if Ascii.eqb c "+"%char then scan_decimal s' 0 None false
      else scan_decimal s 0 None false
  | EmptyString => None
  end.

Definition decZ (z : Z) : string := NilZero.string_of_uint
    (N.to_uint (Z.to_N z)).

(** [q] rounded to [k] decimals (ties to even), in decimal. *)
Definition show_fixed (k : nat) (q : Q) : string :=
  let p := (10 ^ Z.of_nat k)%Z in
  let a := Z.abs (Qnum q) in
  let d := Zpos (Qden q) in
  let n0 := (a * p / d)%Z in
  let r2 := (2 * (a * p mod d))%Z in
  let n := if (d <? r2)%Z then (n0 + 1)%Z
           else if ((r2 =? d) && Z.odd n0)%Z then (n0 + 1)%Z else n0 in
  let frac := decZ (n mod p) in
  (if (Qnum q <? 0)%Z then "-" else EmptyString)
  ++ decZ (n / p) ++ "."
  ++ String.concat EmptyString (repeat "0" (k - String.length frac)) ++ frac.

(** The digits of a fraction without its trailing zeros; the first digit
    stays. *)
Fixpoint strip_zeros (digits : string) : string :=
  match digits with
  | EmptyString => EmptyString
  | String c rest =>
      match strip_zeros rest with
      | EmptyString =>
          if Ascii.eqb c "0"%char then EmptyString else String c EmptyString
      | kept => String c kept
      end
  end.

Definition keep_one_digit (fraction : string) : string :=
  match strip_zeros fraction with
  | EmptyString => "0"
  | kept => kept
  end.

(** A decimal fraction in the fewest decimals that show it, at least one. *)
Definition show_shortest (q : Q) : string :=
  let p := (10 ^ Z.of_nat (Pos.size_nat (Qden q)))%Z in
  let n := (Z.abs (Qnum q) * p / Zpos (Qden q))%Z in
  let frac := decZ (n mod p) in
  (if (Qnum q <? 0)%Z then "-" else EmptyString)
  ++ decZ (n / p) ++ "."
  ++ keep_one_digit
       (String.concat EmptyString
          (repeat "0" (Pos.size_nat (Qden q) - String.length frac)) ++ frac).

#[export] Instance QFloat : PyFloat Q :=
  {| float_of_string := parse_decimal;
     float_of_empty := eq_refl;
     str_float := show_shortest;
     format_2f := show_fixed 2;
     lit := fun q => q;
     of_int := inject_Z;
     fmul := Qmult;
     fadd := Qplus;
     fdiv := Qdiv;
     fneg := Qopp;
     fpow := Qpower |}.

(** A clock for the runs below. *)
Definition clock0 : datetime := mkDatetime 2025 5 3 22 52 0.

(** ** Vocabulary of the statements *)

Section IntakeVocabulary.
Context {float : Type} {H : PyFloat float}.

(** A line that is not just Enter and that [float] rejects. *)
Definition invalid (s : string) : Prop :=
  s <> EmptyString /\ float_of_string s = None.

(** The line [s] ends the prompt with the value [v]: Enter gives the
    default, a numeral its float. *)
Definition accepted_as (default_value : float) (s : string) (v : float)
    : Prop :=
  (s = EmptyString /\ v = default_value)
  \/ (s <> EmptyString /\ float_of_string s = Some v).

(** What one rejected line leaves on the screen. *)
Definition retry_output (prompt : string) (default_value : float)
    : list output :=
  [Prompt (prompt_text prompt default_value); entrada_invalida].

(** The process once [n] more lines were read and [out] was written. *)
Definition after_reading (n : nat) (out : list output)
    (p : Terminal.Process float) : Terminal.Process float :=
  Terminal.mkProcess (skipn n (Terminal.stdin p))
    (Terminal.stdout p ++ out)%list (Terminal.plt p) (Terminal.now p)
    (Terminal.disk p) (Terminal.shown p).
End IntakeVocabulary.

Section RenderingVocabulary.
Context {float : Type} {H : PyFloat float}.

(** Column [j] of the matrix, top to bottom. *)
Definition col (a : Matrix float) (j : nat) : list float :=
  map (fun i => cell a i j) (seq 0 (nrows a)).

(** The points a line joins, in order. *)
Definition points (l : Line float) : list (float * float) :=
  combine (line_x l) (line_y l).

Definition panel (spec : nat * nat * nat) (l : Line float) : Axes float :=
  mkAxes spec "rectilinear" [l] true false [].

(** The figure of lines 116-127 for the time, altitude and vertical
    velocity samples. *)
Definition time_series_figure (t z vz : list float) : Figure float :=
  mkFigure (10%Q, 8%Q)
    [ panel (2, 1, 1) (mkLine t z None "Altitud (z)");
      panel (2, 1, 2) (mkLine t vz None "Velocidad Vertical (vz)") ]
    true.

(** The figure of lines 129-139. *)
Definition trajectory_figure (x y z : list float) : Figure float :=
  mkFigure (10%Q, 8%Q)
    [ mkAxes (1, 1, 1) "3d"
        [mkLine x y (Some z) "Trayectoria del CanSat"] true true [] ]
    false.

(** The first column index among 0, 3, 6, 1, 2 (the order of lines
    120-133) that a matrix of [n] columns lacks. *)
Definition first_missing_column (n : nat) : nat :=
  if (n =? 0)%nat then 0 else if (n <=? 3)%nat then 3 else 6.
End RenderingVocabulary.

Section ServerVocabulary.
Context {float : Type} {H : PyFloat float}.

(** What lines 148-151 draw on the altitude axes: the engine's own plot
    of [flight.z] when there is one, else column 3 against column 0. *)
Definition altitude_lines (a : Server.Attrs float)
    (solution_array : Matrix float)
    : Exc (list (Line float)) :=
  match Server.z_plot a with
  | Some drawn => drawn
  | None =>
      match column solution_array 0, column solution_array 3 with
      | Val t, Val z => Val [mkLine t z None "Altitud (z)"]
      | Err e, _ => Err e
      | Val _, Err e => Err e
      end
  end.

(** The altitude figure of lines 146-157 once [ls] is drawn on it. *)
Definition altitude_figure (ls : list (Line float)) : Figure float :=
  mkFigure (10%Q, 6%Q)
    [ mkAxes (1, 1, 1) "rectilinear" ls true true
        [ ("xlabel", "Tiempo (s)"); ("ylabel", "Altitud (m)");
          ("title", "Altitud del CanSat vs. Tiempo") ] ]
    false.

(** The altitude figure as line 146 leaves it. *)
Definition empty_altitude_figure : Figure float :=
  mkFigure (10%Q, 6%Q) [mkAxes (1, 1, 1) "rectilinear" [] false false []]
    false.

(** The trajectory figure of lines 168-176. *)
Definition trajectory3d_figure (x y z : list float) : Figure float :=
  mkFigure (10%Q, 8%Q)
    [ mkAxes (1, 1, 1) "3d"
        [mkLine x y (Some z) "Trayectoria del CanSat"] true false
        [ ("xlabel", "Posición X (m)"); ("ylabel", "Posición Y (m)");
          ("zlabel", "Posición Z (Altitud) (m)");
          ("title", "Trayectoria 3D del CanSat") ] ]
    true.

Definition img_altitud (img_base64 : string) : string :=
  "<h3>Altitud vs Tiempo</h3><img src='data:image/png;base64,"
  ++ img_base64 ++ "' alt='Altitud vs Tiempo'>".

Definition img_trayectoria (img_base64 : string) : string :=
  "<h3>Trayectoria 3D</h3><img src='data:image/png;base64,"
  ++ img_base64 ++ "' alt='Trayectoria 3D'>".

Definition simulacion_completada (ap : float) : string :=
  "<h2>Simulación Completada</h2><p>Apogeo (calculado por RocketPy): "
  ++ format_2f ap ++ " m</p>".

(** The fragment of line 190. *)
Definition error_fragment (e : exn) : string :=
  "<h2>Error en la Simulación</h2><p>Ha ocurrido un error:</p><pre>"
  ++ exc_str e ++ "</pre><pre>" ++ format_exc e ++ "</pre>".

(** Every open figure is one of the figures made so far. *)
Definition registry_ok (pl : Pyplot float) : Prop :=
  Forall (fun h => h < length (figures pl)) (open_figs pl).
End ServerVocabulary.


Section RegistryVocabulary.
Context {float : Type} {H : PyFloat float}.

(** Whenever [c] returns normally from a sound registry, the same
    figures are open as before, and the registry is sound again. *)
Definition keeps_registry {A} (c : M (Server.Server float) A) : Prop :=
  forall s a s',
    registry_ok (Server.plt s) -> c s = (Ok a, s') ->
    open_figs (Server.plt s') = open_figs (Server.plt s)
    /\ registry_ok (Server.plt s').

(** The attributes that line 129 reads when line 123 found no solution
    to plot. *)
Definition after_post_process (flight : Server.Flight float) : Exc
    (Server.Attrs float) :=
  match Server.post_process flight with
  | Some processed => processed
  | None => Val (Server.attrs flight)
  end.

(** The fragment of line 132. *)
Definition sin_resultados_graficables (apogee_val : string) : string :=
  "<p>Error: La simulación no produjo resultados graficables. Apogeo: "
  ++ apogee_val ++ "</p>".
End RegistryVocabulary.
Arguments keeps_registry float {A} c.

(** ** Runs on concrete input *)

(** A solution of [r] rows and [c] columns whose cell (i, j) is 10 i + j. *)
Definition sample (r c : nat) : Matrix Q :=
  @mkMatrix Q r c (fun i j => inject_Z (Z.of_nat (10 * i + j))).

(** An engine that accepts every call. *)
Definition obliging : RocketPy Q := fun _ _ _ => Val (VObj 0).

(** The terminal's flight object with apogee 100.0 and the given array. *)
Definition terminal_flight (a : Matrix Q) : Terminal.Flight Q :=
  @Terminal.mkFlight Q (Val 100%Q) (Val a).

(** The terminal script with Enter pressed at each of the eight prompts. *)
Definition terminal_run (a : Matrix Q)
    : Res unit * Terminal.Process Q :=
  @Terminal.main Q QFloat obliging (fun _ => Val (terminal_flight a))
    (Terminal.start (repeat EmptyString 8) clock0).

(** The view's flight object with apogee 100.0, the given solution, no
    [post_process], and [z] plotting as given. *)
Definition server_flight (a : Matrix Q)
    (z : option (Exc (list (Line Q)))) : Server.Flight Q :=
  @Server.mkFlight Q (@Server.mkAttrs Q (Val 100%Q) (Some a) z) None.

(** A renderer and an encoder that only say what they were given. *)
Definition test_png (fg : Figure Q) : string :=
  "png of " ++ dec (length (fig_axes fg)) ++ " panel(s)".

Definition test_b64 (s : string) : string := "b64(" ++ s ++ ")".

(** The server before its first request. *)
Definition idle : Server.Server Q :=
  @Server.mkServer Q [] no_figures clock0.

Section FigureVocabulary.
Context {float : Type}.

(** The ordinates of every line of every panel of the figures. *)
Definition ordinates (figs : list (Figure float)) : list (list float) :=
  flat_map (fun fg =>
    flat_map (fun ax => map line_y (ax_lines ax)) (fig_axes fg)) figs.
End FigureVocabulary.

(** ** Vocabulary of the further statements *)

Section IntakeScreen.
Context {float : Type} {H : PyFloat float}.

(** What lines 32-41 write when each of the eight answers is accepted at
    once: the heading, the eight prompts in order, the rule. *)
Definition intake_screen : list output :=
  [ Printed "--- Ingrese los parámetros de simulación (Presione Enter para usar el valor por defecto) ---";
    Prompt (prompt_text "Ángulo de lanzamiento (grados, 90=vertical)"
              Terminal.default_inclination);
    Prompt (prompt_text "Dirección de lanzamiento (Azimut, grados)"
              Terminal.default_heading);
    Prompt (prompt_text "Longitud de la rampa de lanzamiento (metros)"
              Terminal.default_rail_length);
    Prompt (prompt_text "Masa seca del CanSat (kg)"
              Terminal.default_cansat_mass);
    Prompt (prompt_text "Coeficiente de arrastre (simplificado)"
              Terminal.default_drag_coeff);
    Prompt (prompt_text "Duración del empuje del motor (segundos)"
              Terminal.default_burn_time);
    Prompt (prompt_text "Empuje promedio del motor (Newtons)"
              Terminal.default_avg_thrust);
    Prompt (prompt_text "Elevación del sitio de lanzamiento (metros)"
              Terminal.default_elevation);
    Printed ("-------------------------------------------------------------------------------------" ++ newline) ].

(** The eight defaults, as [Inputs]. *)
Definition default_inputs : Terminal.Inputs float :=
  Terminal.mkInputs Terminal.default_inclination Terminal.default_heading
    Terminal.default_rail_length Terminal.default_cansat_mass
    Terminal.default_drag_coeff Terminal.default_burn_time
    Terminal.default_avg_thrust Terminal.default_elevation.
End IntakeScreen.

Section TerminalVocabulary.
Context {float : Type} {H : PyFloat float}.

(** What lines 99-103 print for the apogee [ap]. *)
Definition results_screen (ap : float) : list output :=
  [ Printed "Ejecutando simulación con los parámetros ingresados...";
    Printed (newline ++ "Simulación completada. Accediendo a resultados...");
    Printed ("Altitud Máxima (Apogeo) alcanzada: " ++ format_2f ap ++ " m") ].

(** What lines 111-112 print for the exception [e]. *)
Definition access_error_screen (e : exn) : list output :=
  [ Printed (newline ++ "ERROR al acceder a los resultados de la simulación: "
             ++ exc_str e);
    Printed "Puede que necesite llamar a flight.post_process() después de crear el objeto Flight." ].

(** [c] writes no file and opens no window. *)
Definition writes_nothing {A} (c : M (Terminal.Process float) A) : Prop :=
  forall p,
    Terminal.disk (snd (c p)) = Terminal.disk p
    /\ Terminal.shown (snd (c p)) = Terminal.shown p.

(** From a process without file or window, [c] either ends normally with
    one file and one round of windows, or ends otherwise with none. *)
Definition all_or_nothing (c : M (Terminal.Process float) unit) : Prop :=
  forall p,
    Terminal.disk p = [] -> Terminal.shown p = [] ->
    (fst (c p) = Ok tt
     /\ length (Terminal.disk (snd (c p))) = 1
     /\ length (Terminal.shown (snd (c p))) = 1)
    \/ (fst (c p) <> Ok tt
        /\ Terminal.disk (snd (c p)) = []
        /\ Terminal.shown (snd (c p)) = []).

(** [c] leaves the state as it is and does not exit. *)
Definition only_asks {S A} (c : M S A) : Prop :=
  forall s, snd (c s) = s /\ fst (c s) <> Exit.
End TerminalVocabulary.
Arguments writes_nothing float {A} c.
Arguments all_or_nothing : clear implicits.

(** An engine that raises [e] at the call of [callee] and accepts every
    other call. *)
Definition failing_at (callee : string) (e : exn) : RocketPy Q :=
  fun f _ _ => if (f =? callee)%string then Err e else Val (VObj 0).

(** Decimal digits only. *)
Fixpoint all_digits (s : string) : bool :=
  match s with
  | EmptyString => true
  | String c rest =>
      let n := nat_of_ascii c in
      ((48 <=? n) && (n <=? 57))%nat && all_digits rest
  end.

(** A numeral of exactly [k] digits. *)
Definition numeral (k : nat) (s : string) : Prop :=
  String.length s = k /\ all_digits s = true.

Section EngineCalls.
Context {float : Type} {H : PyFloat float}.

(** The keyword arguments of [rp.Environment] at lines 44-48. *)
Definition environment_kwargs (elevation : float) : kwargs float :=
  [ ("latitude", VFloat (lit 31.8664%Q));
    ("longitude", VFloat (fneg (lit 116.5959%Q)));
    ("elevation", VFloat elevation) ].


End EngineCalls.

(** An exception for the engine to raise. *)
Definition engine_failure : exn :=
  mkExn (OtherError "ValueError") "Motor burn time must be positive"
    EmptyString.

Section ImageFile.
Context {float : Type} {H : PyFloat float}.

(** A date and time with a year of four digits. *)
Definition calendar (d : datetime) : Prop :=
  1000 <= year d < 10 * 1000 /\ 1 <= month d <= 12 /\ 1 <= day d <= 31
  /\ hour d < 24 /\ minute d < 60 /\ second d < 60.

(** [YYYYMMDD_HHMMSS.png]: digits, an underscore, digits, the
    extension. *)
Definition stamped (name : string) : Prop :=
  exists Y M D h m s,
    name = Y ++ M ++ D ++ "_" ++ h ++ m ++ s ++ ".png"
    /\ numeral 4 Y /\ numeral 2 M /\ numeral 2 D
    /\ numeral 2 h /\ numeral 2 m /\ numeral 2 s.

(** The name of the file that lines 142-143 write. *)
Definition image_name (p : Terminal.Process float) : string :=
  last (map fst (Terminal.disk (snd (Terminal.generar_imagen_y_mostrar p))))
    EmptyString.
End ImageFile.

Section ServerFragments.
Context {float : Type} {H : PyFloat float}.

(** The fragment of line 139. *)
Definition sin_resultados_validos (ap : float) : string :=
  "<p>ADVERTENCIA: La simulación no produjo resultados válidos. Apogeo: "
  ++ format_2f ap ++ " m</p>".

(** The line that line 151 draws: column 3 against column 0. *)
Definition altitud_de_columnas (m : Matrix float) : Line float :=
  mkLine (col m 0) (col m 3) None "Altitud (z)".

(** The exception of line 98. *)
Definition inertia_is_not_defined : exn :=
  mkExn NameError "name 'inertia_IxIy' is not defined" Server.in_the_view.

(** What the view prints for an exception [e] (lines 187-189). *)
Definition error_log (e : exn) : list string :=
  [ ("ERROR CRÍTICO durante la simulación o graficación: " ++ exc_str e)%string;
    format_exc e ].
End ServerFragments.

(** The state after [n] runs of [c], one after the other. *)
Fixpoint requests {S A : Type} (n : nat) (c : M S A) (s : S) : S :=
  match n with
  | 0 => s
  | Datatypes.S k => requests k c (snd (c s))
  end.

(** A flight whose solution has a single row until [post_process] runs,
    which brings three rows and a higher apogee. *)
Definition lazy_flight : Server.Flight Q :=
  @Server.mkFlight Q
    (@Server.mkAttrs Q (Val 100%Q) (Some (sample 1 7)) None)
    (Some (Val (@Server.mkAttrs Q (Val 120%Q) (Some (sample 3 7)) None))).

(** A flight whose solution stays at one row and whose apogee can no
    longer be read once [post_process] has run. *)
Definition spent_flight (e : exn) : Server.Flight Q :=
  @Server.mkFlight Q
    (@Server.mkAttrs Q (Val 100%Q) (Some (sample 1 7)) None)
    (Some (Val (@Server.mkAttrs Q (Err e) (Some (sample 1 7)) None))).

Definition no_apogee : exn :=
  mkExn AttributeError "'Flight' object has no attribute 'apogee'"
    EmptyString.

(** Counting up in decimal from [u] (least digit first): each of the next
    [count] numbers is written with four digits. *)
Fixpoint four_digits_from (count : nat) (u : Decimal.uint) : bool :=
  match count with
  | 0 => true
  | Datatypes.S c =>
      let s := NilZero.string_of_uint (Decimal.rev u) in
      (String.length s =? 4)%nat && all_digits s
      && four_digits_from c (Decimal.Little.succ u)
  end.

(** An engine that refuses the motor whose thrust source is a number. *)
Definition scalar_thrust_refused (e : exn) : RocketPy Q :=
  fun callee _ kw =>
    if String.eqb callee "rp.SolidMotor" then
      match keyword "thrust_source" kw with
      | Some (VFloat _) => Err e
      | _ => Val (VObj 0)
      end
    else Val (VObj 0).

(** An engine that refuses the motor whose thrust source is a list. *)
Definition thrust_curve_refused (e : exn) : RocketPy Q :=
  fun callee _ kw =>
    if String.eqb callee "rp.SolidMotor" then
      match keyword "thrustSource" kw with
      | Some (VList _) => Err e
      | _ => Val (VObj 0)
      end
    else Val (VObj 0).

(** * Properties *)

Example QFloat_reads :
  map (@float_of_string Q QFloat) ["5"; "1.25"; "-3"; "abc"; "1.2.3"; " "]
  = [Some 5%Q; Some 1.25%Q; Some (-3)%Q; None; None; None].
Proof. reflexivity. Qed.

Example QFloat_writes :
  (@str_float Q QFloat 90.0%Q, @format_2f Q QFloat 123.456%Q,
   @format_2f Q QFloat 0.125%Q, @str_float Q QFloat 1.2%Q)
  = ("90.0", "123.46", "0.12", "1.2").
Proof. vm_compute. reflexivity. Qed.

(** ** Parameter intake *)

Section IntakeProperties.
Context {float : Type} {H : PyFloat float}.
Variables (prompt : string) (default_value : float).

Let ask : output := Prompt (prompt_text prompt default_value).
Let loop := get_float_input_lines prompt default_value.

Lemma not_empty_eqb (s : string) :
  s <> EmptyString -> (s =? EmptyString)%string = false.
Proof. intro Hs. now apply String.eqb_neq. Qed.

Lemma lines_invalid (s : string) (rest : list string) :
  invalid s ->
  loop (s :: rest)
  = (let '(r, rest', out) := loop rest in
     (r, rest', ask :: entrada_invalida :: out)).
Proof.
  intros [Hs Hf]. unfold loop. simpl.
  now rewrite (not_empty_eqb s Hs), Hf.
Qed.

Lemma lines_accepted (s : string) (v : float) (rest : list string) :
  accepted_as default_value s v -> loop (s :: rest) = (Ok v, rest, [ask]).
Proof.
  intros [[-> ->] | [Hs Hf]]; unfold loop; simpl.
  - reflexivity.
  - now rewrite (not_empty_eqb s Hs), Hf.
Qed.

Lemma lines_reprompt (bad : list string) (s : string) (v : float)
    (rest : list string) :
  Forall invalid bad -> accepted_as default_value s v ->
  loop (bad ++ s :: rest)%list
  = (Ok v, rest,
     (flat_map (fun _ => retry_output prompt default_value) bad ++ [ask])%list).
Proof.
  intros Hbad Hs. induction Hbad as [|b bad Hb _ IH]; simpl.
  - now apply lines_accepted.
  - change (loop (b :: (bad ++ s :: rest)%list) = (Ok v, rest,
      ask :: entrada_invalida
        :: (flat_map (fun _ => retry_output prompt default_value) bad
            ++ [ask])%list)).
    rewrite (lines_invalid b _ Hb), IH. reflexivity.
Qed.

(** Every line is either just Enter, a numeral, or invalid. *)
Lemma line_cases (s : string) :
  (exists v, accepted_as default_value s v) \/ invalid s.
Proof.
  destruct (String.eqb_spec s EmptyString) as [-> | Hs].
  - left. exists default_value. now left.
  - destruct (float_of_string s) as [x|] eqn:Hf.
    + left. exists x. now right.
    + right. now split.
Qed.

Lemma lines_ok_inv (l : list string) (v : float) (rest : list string)
    (out : list output) :
  loop l = (Ok v, rest, out) ->
  exists bad s, l = (bad ++ s :: rest)%list /\ Forall invalid bad
                /\ accepted_as default_value s v.
Proof.
  revert out. induction l as [|s l IH]; intros out Hl.
  - discriminate Hl.
  - destruct (line_cases s) as [[w Hw] | Hbad].
    + rewrite (lines_accepted s w l Hw) in Hl. injection Hl as <- <- _.
      exists [], s. repeat split; [constructor | exact Hw].
    + rewrite (lines_invalid s l Hbad) in Hl.
      destruct (loop l) as [[r rest'] out'] eqn:El.
      injection Hl as -> -> _.
      destruct (IH out' eq_refl) as (bad & s' & -> & Hall & Hacc).
      exists (s :: bad), s'.
      repeat split; [constructor; assumption | exact Hacc].
Qed.

Lemma lines_raise_inv (l : list string) (e : exn) (rest : list string)
    (out : list output) :
  loop l = (Raise e, rest, out) -> e = eof_error /\ Forall invalid l.
Proof.
  revert rest out. induction l as [|s l IH]; intros rest out Hl.
  - injection Hl as <- _ _. split; [reflexivity | constructor].
  - destruct (line_cases s) as [[w Hw] | Hbad].
    + rewrite (lines_accepted s w l Hw) in Hl. discriminate Hl.
    + rewrite (lines_invalid s l Hbad) in Hl.
      destruct (loop l) as [[r rest'] out'] eqn:El.
      injection Hl as -> _ _.
      destruct (IH rest' out' eq_refl) as [-> Hall].
      split; [reflexivity | constructor; assumption].
Qed.

Lemma lines_never_exit (l : list string) : fst (fst (loop l)) <> Exit.
Proof.
  induction l as [|s l IH].
  - discriminate.
  - destruct (line_cases s) as [[w Hw] | Hbad].
    + rewrite (lines_accepted s w l Hw). discriminate.
    + rewrite (lines_invalid s l Hbad).
      destruct (loop l) as [[r rest'] out']. exact IH.
Qed.

(** The function on a process is its loop on the waiting lines. *)
Lemma get_float_input_unfold (p : Terminal.Process float) :
  Terminal.get_float_input prompt default_value p
  = (let '(r, rest, out) := loop (Terminal.stdin p) in
     (r, Terminal.mkProcess rest (Terminal.stdout p ++ out)%list
           (Terminal.plt p) (Terminal.now p) (Terminal.disk p)
           (Terminal.shown p))).
Proof. reflexivity. Qed.
End IntakeProperties.

(** C1, as the code has it.  At one prompt, with the line [s] waiting on
    standard input: a numeral is returned as its float; Enter alone returns
    the displayed default; a line that [float] rejects returns nothing, the
    diagnostic is printed and the function goes on exactly as if called
    afresh on the lines that follow. *)
Theorem get_float_input_one_line {float : Type} {H : PyFloat float}
    (prompt : string)
    (default_value : float) (p : Terminal.Process float) (s : string)
    (rest : list string) :
  Terminal.stdin p = s :: rest ->
  (forall x, float_of_string s = Some x ->
     Terminal.get_float_input prompt default_value p
     = (Ok x, after_reading 1 [Prompt (prompt_text prompt default_value)] p))
  /\ (s = EmptyString ->
      Terminal.get_float_input prompt default_value p
      = (Ok default_value,
         after_reading 1 [Prompt (prompt_text prompt default_value)] p))
  /\ (invalid s ->
      Terminal.get_float_input prompt default_value p
      = Terminal.get_float_input prompt default_value
          (after_reading 1 (retry_output prompt default_value) p)).
Proof.
  intro Hin. rewrite !get_float_input_unfold. unfold after_reading.
  rewrite Hin. cbn [skipn Terminal.stdin Terminal.stdout Terminal.plt
                    Terminal.now Terminal.disk Terminal.shown].
  repeat split.
  - intros x Hx.
    assert (Hacc : accepted_as default_value s x).
    { right. split; [|exact Hx]. intros ->.
      rewrite float_of_empty in Hx. discriminate Hx. }
    now rewrite (lines_accepted prompt default_value s x rest Hacc).
  - intros ->.
    rewrite (lines_accepted prompt default_value EmptyString default_value
               rest); [reflexivity | now left].
  - intro Hbad. rewrite (lines_invalid prompt default_value s rest Hbad).
    destruct (get_float_input_lines prompt default_value rest)
      as [[r rest'] out].
    unfold retry_output. now rewrite <- app_assoc.
Qed.

Lemma get_float_input_one_line_witness :
  let ask := Prompt "Masa seca del CanSat (kg) [0.3]: " in
  let run := @Terminal.get_float_input Q QFloat "Masa seca del CanSat (kg)"
               (@Terminal.default_cansat_mass Q QFloat) in
  run (Terminal.start ["5"] clock0)
    = (Ok 5%Q, Terminal.mkProcess [] [ask] no_figures clock0 [] [])
  /\ run (Terminal.start [EmptyString; "7"] clock0)
    = (Ok 0.3%Q, Terminal.mkProcess ["7"] [ask] no_figures clock0 [] [])
  /\ (@invalid Q QFloat "abc"
      /\ run (Terminal.start ["abc"; "5"] clock0)
         = run (Terminal.mkProcess ["5"] [ask; entrada_invalida] no_figures
                  clock0 [] [])).
Proof.
  intros ask run. split; [|split].
  - exact (proj1 (@get_float_input_one_line Q QFloat _ _
             (Terminal.start ["5"] clock0) "5" [] eq_refl) 5%Q eq_refl).
  - exact (proj1 (proj2 (@get_float_input_one_line Q QFloat _ _
             (Terminal.start [EmptyString; "7"] clock0) EmptyString ["7"]
             eq_refl)) eq_refl).
  - assert (Hbad : @invalid Q QFloat "abc").
    { split; [discriminate | reflexivity]. }
    split; [exact Hbad|].
    exact (proj2 (proj2 (@get_float_input_one_line Q QFloat _ _
             (Terminal.start ["abc"; "5"] clock0) "abc" ["5"] eq_refl)) Hbad).
Defined.

(** C1 as written fails: the line [abc] is rejected by [float], and the
    prompt for the mass, whose displayed default is 0.3, returns 5.0, the
    value typed next. *)
Lemma get_float_input_invalid_is_not_default :
  @float_of_string Q QFloat "abc" = None
  /\ fst (@Terminal.get_float_input Q QFloat "Masa seca del CanSat (kg)"
            (@Terminal.default_cansat_mass Q QFloat)
            (Terminal.start ["abc"; "5"] clock0)) = Ok 5%Q
  /\ @Ok (Q) 5%Q <> Ok (@Terminal.default_cansat_mass Q QFloat).
Proof.
  split; [reflexivity | split; [reflexivity | discriminate]].
Qed.

(** C2.  However many invalid lines come first, each one is answered by
    the diagnostic and a new prompt, and the first line that is a numeral or
    just Enter ends the call with its value; the call returns a value only
    in that way; it raises only when standard input ends while every line
    so far was invalid, and then with [EOFError], never with the
    [ValueError] of a rejected line; it never exits the process. *)
Theorem get_float_input_reprompts {float : Type} {H : PyFloat float}
    (prompt : string)
    (default_value : float) :
  (forall bad s v rest p,
     Forall invalid bad -> accepted_as default_value s v ->
     Terminal.stdin p = (bad ++ s :: rest)%list ->
     Terminal.get_float_input prompt default_value p
     = (Ok v,
        after_reading (S (length bad))
          (flat_map (fun _ => retry_output prompt default_value) bad
           ++ [Prompt (prompt_text prompt default_value)])%list p))
  /\ (forall p v p',
        Terminal.get_float_input prompt default_value p = (Ok v, p') ->
        exists bad s rest,
          Terminal.stdin p = (bad ++ s :: rest)%list
          /\ Forall invalid bad /\ accepted_as default_value s v)
  /\ (forall p e p',
        Terminal.get_float_input prompt default_value p = (Raise e, p') ->
        e = eof_error /\ exc_type e <> ValueError
        /\ Forall invalid (Terminal.stdin p))
  /\ (forall p p',
        Terminal.get_float_input prompt default_value p <> (Exit, p')).
Proof.
  split; [| split; [| split]].
  - intros bad s v rest p Hbad Hacc Hin.
    rewrite get_float_input_unfold, Hin,
      (lines_reprompt prompt default_value bad s v rest Hbad Hacc).
    unfold after_reading. rewrite Hin.
    replace (skipn (S (length bad)) (bad ++ s :: rest)%list) with rest;
      [reflexivity|].
    clear. induction bad as [|b bad IH]; [reflexivity | exact IH].
  - intros p v p' Hrun. rewrite get_float_input_unfold in Hrun.
    destruct (get_float_input_lines prompt default_value (Terminal.stdin p))
      as [[r rest] out] eqn:El.
    injection Hrun as -> _.
    destruct (lines_ok_inv prompt default_value _ _ _ _ El)
      as (bad & s & Hl & Hall & Hacc).
    now exists bad, s, rest.
  - intros p e p' Hrun. rewrite get_float_input_unfold in Hrun.
    destruct (get_float_input_lines prompt default_value (Terminal.stdin p))
      as [[r rest] out] eqn:El.
    injection Hrun as -> _.
    destruct (lines_raise_inv prompt default_value _ _ _ _ El) as [-> Hall].
    split; [reflexivity | split; [discriminate | exact Hall]].
  - intros p p' Hrun. rewrite get_float_input_unfold in Hrun.
    pose proof (lines_never_exit prompt default_value (Terminal.stdin p))
      as Hne.
    destruct (get_float_input_lines prompt default_value (Terminal.stdin p))
      as [[r rest] out].
    injection Hrun as -> _. now apply Hne.
Qed.

Lemma get_float_input_reprompts_witness :
  let ask := Prompt "Masa seca del CanSat (kg) [0.3]: " in
  Forall (@invalid Q QFloat) ["abc"; "1,5"; " "]
  /\ @accepted_as Q QFloat 0.3%Q "1.5" 1.5%Q
  /\ @Terminal.get_float_input Q QFloat "Masa seca del CanSat (kg)"
       (@Terminal.default_cansat_mass Q QFloat)
       (Terminal.start ["abc"; "1,5"; " "; "1.5"; "0"] clock0)
     = (Ok 1.5%Q,
        Terminal.mkProcess ["0"]
          [ask; entrada_invalida; ask; entrada_invalida;
           ask; entrada_invalida; ask]
          no_figures clock0 [] []).
Proof.
  intro ask.
  assert (Hbad : Forall (@invalid Q QFloat) ["abc"; "1,5"; " "]).
  { repeat constructor; discriminate. }
  assert (Hacc : @accepted_as Q QFloat 0.3%Q "1.5" 1.5%Q).
  { right. split; [discriminate | reflexivity]. }
  split; [exact Hbad | split; [exact Hacc|]].
  exact (proj1 (@get_float_input_reprompts Q QFloat _ _)
           ["abc"; "1,5"; " "] "1.5" 1.5%Q ["0"]
           (Terminal.start ["abc"; "1,5"; " "; "1.5"; "0"] clock0)
           Hbad Hacc eq_refl).
Defined.

(** ** Columns of the solution matrix *)

Section Columns.
Context {float : Type} {H : PyFloat float}.

Lemma column_inside (a : Matrix float) (j : nat) :
  j < ncols a -> column a j = Val (col a j).
Proof.
  intro Hj. unfold column.
  destruct (Nat.ltb_spec j (ncols a)); [reflexivity | lia].
Qed.

Lemma column_outside (a : Matrix float) (j : nat) :
  ncols a <= j -> column a j = Err (index_error j (ncols a)).
Proof.
  intro Hj. unfold column.
  destruct (Nat.ltb_spec j (ncols a)); [lia | reflexivity].
Qed.

Lemma col_length (a : Matrix float) (j : nat) : length (col a j) = nrows a.
Proof. unfold col. now rewrite length_map, length_seq. Qed.

Lemma col_nth (a : Matrix float) (j i : nat) :
  i < nrows a -> nth_error (col a j) i = Some (cell a i j).
Proof.
  intro Hi. unfold col.
  rewrite nth_error_map, nth_error_seq.
  destruct (Nat.ltb_spec i (nrows a)); [reflexivity | lia].
Qed.

Lemma combine_maps {A B C} (f : A -> B) (g : A -> C) (l : list A) :
  combine (map f l) (map g l) = map (fun x => (f x, g x)) l.
Proof. induction l as [|x l IH]; [reflexivity | simpl; now rewrite IH]. Qed.

(** A line drawn from two columns joins, row by row, the cells of the
    two columns. *)
Lemma points_of_columns (a : Matrix float) (jx jy : nat)
    (z : option (list float))
    (label : string) (i : nat) :
  i < nrows a ->
  nth_error (points (mkLine (col a jx) (col a jy) z label)) i
  = Some (cell a i jx, cell a i jy).
Proof.
  intro Hi. unfold points, col. cbn [line_x line_y].
  rewrite combine_maps, nth_error_map, nth_error_seq.
  destruct (Nat.ltb_spec i (nrows a)); [reflexivity | lia].
Qed.
End Columns.

(** ** The terminal script after the guard *)

Section TerminalRendering.
Context {float : Type} {H : PyFloat float}.
Variables (lines : list string) (out : list output) (clock : datetime)
          (files : list (string * Figure float))
          (windows : list (list (Figure float))).

(** The script reaches line 116 with pyplot untouched. *)
Let at_line_116 : Terminal.Process float :=
  Terminal.mkProcess lines out no_figures clock files windows.

Lemma graficas_2d_run (a : Matrix float) (t z vz : list float) :
  column a 0 = Val t -> column a 3 = Val z -> column a 6 = Val vz ->
  Terminal.graficas_2d a at_line_116
  = (Ok tt,
     Terminal.mkProcess lines out
       (mkPyplot [time_series_figure t z vz] [0]) clock files windows).
Proof.
  intros H0 H3 H6. unfold Terminal.graficas_2d. rewrite H0, H3, H6.
  reflexivity.
Qed.

Lemma graficar_run (a : Matrix float) (t x y z vz : list float) :
  column a 0 = Val t -> column a 1 = Val x -> column a 2 = Val y ->
  column a 3 = Val z -> column a 6 = Val vz ->
  Terminal.graficar a at_line_116
  = (Ok tt,
     Terminal.mkProcess lines out
       (mkPyplot [time_series_figure t z vz; trajectory_figure x y z] [0; 1])
       clock
       (files ++ [((strftime_Ymd_HMS clock ++ ".png")%string,
                   trajectory_figure x y z)])%list
       (windows ++ [[time_series_figure t z vz;
                     trajectory_figure x y z]])%list).
Proof.
  intros H0 H1 H2 H3 H6.
  unfold Terminal.graficar, Terminal.graficas_2d, Terminal.grafica_3d.
  rewrite H0, H1, H2, H3, H6. reflexivity.
Qed.

(** On fewer than 7 columns the plotting stops at the first column it
    cannot read, before line 143: no file, no window. *)
Lemma graficar_stops (a : Matrix float) :
  ncols a < 7 ->
  exists p',
    Terminal.graficar a at_line_116
    = (Raise (index_error (first_missing_column (ncols a)) (ncols a)), p')
    /\ Terminal.disk p' = files /\ Terminal.shown p' = windows.
Proof.
  intro Hn.
  unfold Terminal.graficar, Terminal.graficas_2d, first_missing_column.
  destruct (Nat.eqb_spec (ncols a) 0) as [E0 | E0].
  - rewrite (column_outside a 0) by lia.
    eexists. split; [reflexivity | split; reflexivity].
  - rewrite (column_inside a 0) by lia.
    destruct (Nat.leb_spec (ncols a) 3).
    + rewrite (column_outside a 3) by lia.
      eexists. split; [reflexivity | split; reflexivity].
    + rewrite (column_inside a 3), (column_outside a 6) by lia.
      eexists. split; [reflexivity | split; reflexivity].
Qed.

Lemma graficar_index_error (a : Matrix float) :
  ncols a < 7 ->
  fst (Terminal.graficar a at_line_116)
  = Raise (index_error (first_missing_column (ncols a)) (ncols a)).
Proof.
  intro Hn.
  unfold Terminal.graficar, Terminal.graficas_2d, first_missing_column.
  destruct (Nat.eqb_spec (ncols a) 0) as [E0 | E0].
  - rewrite (column_outside a 0) by lia. reflexivity.
  - rewrite (column_inside a 0) by lia.
    destruct (Nat.leb_spec (ncols a) 3).
    + rewrite (column_outside a 3) by lia. reflexivity.
    + rewrite (column_inside a 3), (column_outside a 6) by lia.
      reflexivity.
Qed.

(** Lines 105-114 on a solution array that converted without error. *)
Lemma resultados_guard (flight : Terminal.Flight float) (ap : float)
    (a : Matrix float)
    (p : Terminal.Process float) :
  Terminal.apogee flight = Val ap ->
  Terminal.solution_array flight = Val a ->
  let said :=
    [ Printed "Ejecutando simulación con los parámetros ingresados...";
      Printed (newline ++ "Simulación completada. Accediendo a resultados...");
      Printed ("Altitud Máxima (Apogeo) alcanzada: " ++ format_2f ap ++ " m") ] in
  Terminal.resultados flight p
  = if (size a =? 0)%nat
    then (Exit,
          after_reading 0
            (said ++ [Printed (newline ++ "ADVERTENCIA: La simulación no produjo resultados. Verifique los parámetros.")])%list
            p)
    else (Ok a, after_reading 0 said p).
Proof.
  intros Hap Ha said. unfold Terminal.resultados. rewrite Hap, Ha.
  unfold after_reading, said. destruct p as [i o pl n d sh].
  cbn [skipn Terminal.stdin Terminal.stdout Terminal.plt Terminal.now
       Terminal.disk Terminal.shown].
  destruct (size a =? 0)%nat eqn:E.
  - unfold bind, try_except, Terminal.print, modify, ext, ret, sys_exit.
    cbn. rewrite E. cbn. now rewrite <- !app_assoc.
  - unfold bind, try_except, Terminal.print, modify, ext, ret, sys_exit.
    cbn. rewrite E. cbn. now rewrite <- !app_assoc.
Qed.
End TerminalRendering.

(** ** Pyplot, step by step, on the newest figure *)

Section PyplotSteps.
Context {float : Type}.

Lemma set_nth_last {A} (l : list A) (x y : A) :
  set_nth (length l) y (l ++ [x]) = (l ++ [y])%list.
Proof. induction l as [|a l IH]; [reflexivity | simpl; now rewrite IH]. Qed.

Lemma fig_at_newest (figs : list (Figure float)) (fg : Figure float)
    (o : list nat) :
  fig_at (mkPyplot (figs ++ [fg]) o) (length figs) = fg.
Proof. unfold fig_at. cbn [figures]. apply nth_middle. Qed.

Lemma update_fig_newest (figs : list (Figure float)) (fg : Figure float)
    (o : list nat)
    (f : Figure float -> Figure float) :
  update_fig (length figs) f (mkPyplot (figs ++ [fg]) o)
  = (Ok tt, mkPyplot (figs ++ [f fg]) o).
Proof.
  unfold update_fig, modify. rewrite fig_at_newest. cbn [figures open_figs].
  now rewrite set_nth_last.
Qed.

Lemma update_axes_newest (figs : list (Figure float)) (fg : Figure float)
    (o : list nat)
    (i : nat) (f : Axes float -> Axes float) :
  update_axes (length figs, i) f (mkPyplot (figs ++ [fg]) o)
  = (Ok tt, mkPyplot (figs ++ [with_axes i f fg]) o).
Proof. apply update_fig_newest. Qed.

Lemma plt_figure_run (figsize : Q * Q) (figs : list (Figure float))
    (o : list nat) :
  plt_figure figsize (mkPyplot figs o)
  = (Ok (length figs),
     mkPyplot (figs ++ [blank figsize]) (o ++ [length figs])).
Proof. reflexivity. Qed.

Lemma add_subplot_newest (figs : list (Figure float)) (fg : Figure float)
    (o : list nat)
    (spec : nat * nat * nat) (projection : string) :
  add_subplot (length figs) spec projection (mkPyplot (figs ++ [fg]) o)
  = (Ok (length figs, length (fig_axes fg)),
     mkPyplot
       (figs ++ [mkFigure (fig_size fg)
                   (fig_axes fg ++ [mkAxes spec projection [] false false []])
                   (fig_tight fg)]) o).
Proof.
  unfold add_subplot. rewrite update_fig_newest, fig_at_newest. reflexivity.
Qed.

Lemma plt_subplots_run (figsize : Q * Q) (figs : list (Figure float))
    (o : list nat) :
  plt_subplots figsize (mkPyplot figs o)
  = (Ok (length figs, (length figs, 0)),
     mkPyplot
       (figs ++ [mkFigure figsize
                   [mkAxes (1, 1, 1) "rectilinear" [] false false []] false])
       (o ++ [length figs])).
Proof.
  unfold plt_subplots, bind. rewrite plt_figure_run, add_subplot_newest.
  reflexivity.
Qed.

Lemma plt_gcf_newest (figs : list (Figure float)) (o : list nat) (h : nat) :
  plt_gcf (mkPyplot figs (o ++ [h])) = (Ok h, mkPyplot figs (o ++ [h])).
Proof. unfold plt_gcf. cbn [open_figs]. now rewrite rev_unit. Qed.

Lemma plt_tight_layout_newest (figs : list (Figure float)) (fg : Figure float)
    (o : list nat) :
  plt_tight_layout (mkPyplot (figs ++ [fg]) (o ++ [length figs]))
  = (Ok tt,
     mkPyplot (figs ++ [mkFigure (fig_size fg) (fig_axes fg) true])
       (o ++ [length figs])).
Proof.
  unfold plt_tight_layout, bind. rewrite plt_gcf_newest.
  apply update_fig_newest.
Qed.

Lemma plt_close_newest (figs : list (Figure float)) (o : list nat) (h : nat) :
  Forall (fun k => k < h) o ->
  plt_close h (mkPyplot figs (o ++ [h])) = (Ok tt, mkPyplot figs o).
Proof.
  intro Ho. unfold plt_close, modify. cbn [figures open_figs].
  rewrite filter_app. cbn [filter]. rewrite Nat.eqb_refl. cbn [negb].
  rewrite app_nil_r. f_equal. f_equal.
  induction Ho as [|k o Hk _ IH]; [reflexivity|].
  cbn [filter]. destruct (Nat.eqb_spec k h); [lia|]. cbn [negb].
  now rewrite IH.
Qed.

Lemma registry_ok_grows (figs : list (Figure float)) (fg : Figure float)
    (o : list nat) :
  registry_ok (mkPyplot figs o) ->
  Forall (fun k => k < length (figs ++ [fg])) o.
Proof.
  unfold registry_ok. cbn [figures open_figs]. rewrite length_app.
  apply Forall_impl. intros k Hk. cbn [length]. lia.
Qed.
End PyplotSteps.

(** ** The monad, step by step *)

Lemma bind_ok {S A B} (c : M S A) (k : A -> M S B) (s s' : S) (a : A) :
  c s = (Ok a, s') -> bind c k s = k a s'.
Proof. intro Hc. unfold bind. now rewrite Hc. Qed.

Lemma bind_ret {S A B} (a : A) (k : A -> M S B) : bind (ret a) k = k a.
Proof. reflexivity. Qed.

Lemma bind_bind {S A B C} (c : M S A) (k1 : A -> M S B) (k2 : B -> M S C)
    (s : S) :
  bind (bind c k1) k2 s = bind c (fun a => bind (k1 a) k2) s.
Proof. unfold bind. now destruct (c s) as [[a | e |] s']. Qed.

Lemma bind_raise {S A B} (c : M S A) (k : A -> M S B) (s s' : S) (e : exn) :
  c s = (Raise e, s') -> bind c k s = (Raise e, s').
Proof. intro Hc. unfold bind. now rewrite Hc. Qed.

(** ** The web view's charts *)

Section ServerRendering.
Context {float : Type} {H : PyFloat float}.
Variables (png : Figure float -> string) (b64encode : string -> string).
Variable now : datetime.

Local Abbreviation sv out pl := (Server.mkServer out pl now).

Lemma pyplot_run {A} (c : M (Pyplot float) A) (out : list string)
    (pl pl' : Pyplot float)
    (r : Res A) :
  c pl = (r, pl') -> Server.pyplot c (sv out pl) = (r, sv out pl').
Proof.
  intro Hc. unfold Server.pyplot, zoom. cbn [Server.plt]. now rewrite Hc.
Qed.

Lemma bind_val {S A B} (a : A) (k : A -> M S B) :
  bind (ext (Val a)) k = k a.
Proof. reflexivity. Qed.

Lemma bind_err {S A B} (e : exn) (k : A -> M S B) (s : S) :
  bind (ext (Err e)) k s = (Raise e, s).
Proof. reflexivity. Qed.

Lemma fig_to_base64_newest (figs : list (Figure float)) (fg : Figure float)
    (o : list nat) (out : list string) :
  Forall (fun k => k < length figs) o ->
  Server.fig_to_base64 png b64encode (length figs)
    (sv out (mkPyplot (figs ++ [fg]) (o ++ [length figs])))
  = (Ok (b64encode (png fg)), sv out (mkPyplot (figs ++ [fg]) o)).
Proof.
  intro Ho. unfold Server.fig_to_base64.
  unfold bind at 1. unfold gets. cbn [Server.plt].
  rewrite fig_at_newest.
  erewrite bind_ok by (apply pyplot_run, plt_close_newest, Ho).
  reflexivity.
Qed.

Ltac on_axes :=
  unfold ax_plot, ax_set, ax_legend, ax_grid;
  erewrite bind_ok by (apply pyplot_run, update_axes_newest).

Lemma grafica_2d_run (a : Server.Attrs float) (m : Matrix float)
    (ls : list (Line float))
    (out : list string) (figs : list (Figure float)) (o : list nat) :
  altitude_lines a m = Val ls ->
  Forall (fun k => k < length figs) o ->
  Server.grafica_2d png b64encode a m (sv out (mkPyplot figs o))
  = (Ok (img_altitud (b64encode (png (altitude_figure ls)))),
     sv out (mkPyplot (figs ++ [altitude_figure ls]) o)).
Proof.
  intros Hls Ho. unfold Server.grafica_2d.
  erewrite bind_ok by (apply pyplot_run, plt_subplots_run).
  cbn [fst snd]. unfold altitude_lines in Hls.
  destruct (Server.z_plot a) as [[ls' | e] |].
  - injection Hls as ->. rewrite bind_val.
    do 6 on_axes.
    erewrite bind_ok by (apply fig_to_base64_newest, Ho).
    reflexivity.
  - discriminate Hls.
  - destruct (column m 0) as [t | e]; [| discriminate Hls].
    destruct (column m 3) as [z | e]; [| discriminate Hls].
    injection Hls as <-. rewrite !bind_val.
    do 6 on_axes.
    erewrite bind_ok by (apply fig_to_base64_newest, Ho).
    reflexivity.
Qed.

(** When drawing the altitude fails, the figure of line 146 stays in the
    registry. *)
Lemma grafica_2d_error (a : Server.Attrs float) (m : Matrix float) (e : exn)
    (out : list string) (figs : list (Figure float)) (o : list nat) :
  altitude_lines a m = Err e ->
  Server.grafica_2d png b64encode a m (sv out (mkPyplot figs o))
  = (Raise e,
     sv out (mkPyplot (figs ++ [empty_altitude_figure])
               (o ++ [length figs]))).
Proof.
  intros Hls. unfold Server.grafica_2d.
  erewrite bind_ok by (apply pyplot_run, plt_subplots_run).
  cbn [fst snd]. unfold altitude_lines in Hls.
  destruct (Server.z_plot a) as [[ls' | e'] |].
  - discriminate Hls.
  - injection Hls as ->. reflexivity.
  - destruct (column m 0) as [t | e0].
    + destruct (column m 3) as [z | e3]; [discriminate Hls|].
      injection Hls as ->. reflexivity.
    + injection Hls as ->. reflexivity.
Qed.

Lemma grafica_3d_run (m : Matrix float) (out : list string)
    (figs : list (Figure float))
    (o : list nat) :
  3 < ncols m ->
  Forall (fun k => k < length figs) o ->
  let fig3d := trajectory3d_figure (col m 1) (col m 2) (col m 3) in
  Server.grafica_3d png b64encode m (sv out (mkPyplot figs o))
  = (Ok (img_trayectoria (b64encode (png fig3d))),
     sv out (mkPyplot (figs ++ [fig3d]) o)).
Proof.
  intros Hn Ho fig3d. unfold Server.grafica_3d.
  destruct (Nat.ltb_spec 3 (ncols m)); [| lia].
  rewrite (column_inside m 1), (column_inside m 2), (column_inside m 3)
    by lia.
  rewrite !bind_val.
  erewrite bind_ok by (apply pyplot_run, plt_figure_run).
  erewrite bind_ok by (apply pyplot_run, add_subplot_newest).
  cbn [fig_axes blank length].
  do 6 on_axes.
  erewrite bind_ok by (apply pyplot_run, plt_tight_layout_newest).
  erewrite bind_ok by (apply fig_to_base64_newest, Ho).
  reflexivity.
Qed.

Lemma grafica_3d_skipped (m : Matrix float) (s : Server.Server float) :
  ncols m <= 3 ->
  Server.grafica_3d png b64encode m s = (Ok Server.sin_columnas_xyz, s).
Proof.
  intro Hn. unfold Server.grafica_3d.
  destruct (Nat.ltb_spec 3 (ncols m)); [lia | reflexivity].
Qed.
End ServerRendering.

(** ** The web view, request by request *)

Section ServerRequests.
Context {float : Type} {H : PyFloat float}.
Variables (rp : RocketPy float)
    (rp_attr_text : pyval float -> string -> Exc string)
          (rp_Flight : kwargs float -> Exc (Server.Flight float)).
Variables (png : Figure float -> string) (b64encode : string -> string).

Lemma print_run (line : string) (s : Server.Server float) :
  Server.print line s
  = (Ok tt,
     Server.mkServer (Server.stdout s ++ [line])%list (Server.plt s)
       (Server.now s)).
Proof. reflexivity. Qed.

(** The keyword values of [rp.Rocket] cannot be evaluated: whatever the
    engine answers before, lines 57-118 end in an exception, and pyplot
    is not touched. *)
Lemma configurar_y_simular_raises (i h r m d b t e : float)
    (s : Server.Server float) :
  exists err s',
    Server.configurar_y_simular rp rp_attr_text rp_Flight i h r m d b t e s
    = (Raise err, s')
    /\ Server.plt s' = Server.plt s.
Proof.
  unfold Server.configurar_y_simular.
  erewrite bind_ok by apply print_run.
  destruct (rp "rp.Environment" _ _) as [env | err];
    [rewrite bind_val | eexists _, _; split; reflexivity].
  unfold bind at 1. unfold gets. cbn [Server.now].
  destruct (rp "Environment.set_date" _ _) as [v1 | err];
    [rewrite bind_val | eexists _, _; split; reflexivity].
  destruct (rp "Environment.set_atmospheric_model" _ _) as [v2 | err];
    [rewrite bind_val | eexists _, _; split; reflexivity].
  do 2 erewrite bind_ok by apply print_run.
  destruct (rp "rp.SolidMotor" _ _) as [motor | err];
    [rewrite bind_val | eexists _, _; split; reflexivity].
  destruct (rp_attr_text motor "tag") as [tag | err];
    [rewrite bind_val | eexists _, _; split; reflexivity].
  destruct (rp_attr_text motor "burnOutTime") as [burn_out | err];
    [rewrite bind_val | eexists _, _; split; reflexivity].
  do 2 erewrite bind_ok by apply print_run.
  eexists _, _; split; reflexivity.
Qed.
End ServerRequests.

(** ** Strings *)

Lemma append_assoc (s1 s2 s3 : string) : (s1 ++ s2) ++ s3 = s1 ++ s2 ++ s3.
Proof. induction s1 as [|c s1 IH]; [reflexivity | simpl; now rewrite IH]. Qed.



(** ** The registry of open figures *)

Section Registry.
Context {float : Type} {H : PyFloat float}.
Variables (png : Figure float -> string) (b64encode : string -> string).

Lemma keeps_ret {A} (a : A) : keeps_registry float (ret a).
Proof. intros s a' s' Hok Hrun. injection Hrun as _ <-. now split. Qed.

Lemma keeps_raise {A} (e : exn) : keeps_registry float (@raise _ A e).
Proof. intros s a' s' Hok Hrun. discriminate Hrun. Qed.

Lemma keeps_ext {A} (r : Exc A) : keeps_registry float (ext r).
Proof. destruct r; [apply keeps_ret | apply keeps_raise]. Qed.

Lemma keeps_print (line : string) : keeps_registry float (Server.print line).
Proof. intros s a' s' Hok Hrun. injection Hrun as _ <-. now split. Qed.

Lemma keeps_hasattr {A} (r : Exc A) : keeps_registry float (Server.hasattr r).
Proof.
  destruct r as [a | e]; [apply keeps_ret|].
  unfold Server.hasattr.
  destruct (exc_type e); first [apply keeps_ret | apply keeps_raise].
Qed.

Lemma keeps_bind {A B} (c : M (Server.Server float) A)
    (k : A -> M (Server.Server float) B) :
  keeps_registry float c -> (forall a, keeps_registry float (k a)) ->
  keeps_registry float (bind c k).
Proof.
  intros Hc Hk s b s' Hok Hrun. unfold bind in Hrun.
  destruct (c s) as [[a | e |] s1] eqn:Ec; try discriminate Hrun.
  destruct (Hc s a s1 Hok Ec) as [Ho1 Hok1].
  destruct (Hk a s1 b s' Hok1 Hrun) as [Ho2 Hok2].
  split; [congruence | exact Hok2].
Qed.

Lemma keeps_grafica_2d (a : Server.Attrs float) (m : Matrix float) :
  keeps_registry float (Server.grafica_2d png b64encode a m).
Proof.
  intros [out [figs o] now] html s' Hok Hrun.
  destruct (altitude_lines a m) as [ls | e] eqn:Els.
  - rewrite (grafica_2d_run png b64encode now a m ls out figs o Els Hok)
      in Hrun.
    injection Hrun as _ <-. split; [reflexivity|].
    now apply registry_ok_grows.
  - rewrite (grafica_2d_error png b64encode now a m e out figs o Els)
      in Hrun.
    discriminate Hrun.
Qed.

Lemma keeps_grafica_3d (m : Matrix float) :
  keeps_registry float (Server.grafica_3d png b64encode m).
Proof.
  intros [out [figs o] now] html s' Hok Hrun.
  destruct (Nat.ltb_spec 3 (ncols m)) as [Hn | Hn].
  - rewrite (grafica_3d_run png b64encode now m out figs o Hn Hok) in Hrun.
    injection Hrun as _ <-. split; [reflexivity|].
    now apply registry_ok_grows.
  - rewrite (grafica_3d_skipped png b64encode m _ Hn) in Hrun.
    injection Hrun as _ <-. now split.
Qed.

Lemma keeps_generar_graficas (a : Server.Attrs float) (m : Matrix float) :
  keeps_registry float (Server.generar_graficas png b64encode a m).
Proof.
  unfold Server.generar_graficas.
  apply keeps_bind; [apply keeps_print | intros _].
  apply keeps_bind; [apply keeps_ext | intros ap].
  apply keeps_bind; [apply keeps_grafica_2d | intros altitud].
  apply keeps_bind; [apply keeps_grafica_3d | intros trayectoria].
  apply keeps_bind; [apply keeps_print | intros _]. apply keeps_ret.
Qed.

Lemma keeps_graficar (flight : Server.Flight float) :
  keeps_registry float (Server.graficar png b64encode flight).
Proof.
  unfold Server.graficar.
  apply keeps_bind; [apply keeps_ext | intros ap].
  apply keeps_bind; [apply keeps_print | intros _].
  apply keeps_bind.
  - destruct (Server.sin_resultados (Server.attrs flight));
      [| apply keeps_ret].
    apply keeps_bind.
    + destruct (Server.post_process flight); [| apply keeps_ret].
      apply keeps_bind; [apply keeps_print | intros _; apply keeps_ext].
    + intros a. destruct (Server.sin_resultados a); [| apply keeps_ret].
      apply keeps_bind; [apply keeps_print | intros _].
      apply keeps_bind; [apply keeps_hasattr | intros has].
      apply keeps_bind; [| intros v; apply keeps_ret].
      destruct has; [| apply keeps_ret].
      apply keeps_bind; [apply keeps_ext | intros v; apply keeps_ret].
  - intros [fragment | a]; [apply keeps_ret|].
    destruct (Server.solution a) as [m|]; [| apply keeps_raise].
    destruct ((size m =? 0)%nat || (nrows m <=? 1)%nat).
    + apply keeps_bind; [apply keeps_ext | intros v; apply keeps_ret].
    + apply keeps_generar_graficas.
Qed.
End Registry.

(** ** Lines 119-184 of the web view on a given flight *)

Section ServerCharts.
Context {float : Type} {H : PyFloat float}.
Variables (png : Figure float -> string) (b64encode : string -> string).

Lemma generar_graficas_run (a : Server.Attrs float) (m : Matrix float)
    (ap : float)
    (ls : list (Line float)) (s : Server.Server float) :
  Server.apogee a = Val ap ->
  altitude_lines a m = Val ls ->
  registry_ok (Server.plt s) ->
  let alt := altitude_figure ls in
  let fig3d := trajectory3d_figure (col m 1) (col m 2) (col m 3) in
  let said :=
    (Server.stdout s
     ++ [ "Generando gráficas...";
          "--- Simulación y graficación finalizadas exitosamente. ---" ])%list in
  Server.generar_graficas png b64encode a m s
  = if (3 <? ncols m)%nat
    then (Ok ((simulacion_completada ap
               ++ img_altitud (b64encode (png alt)))
              ++ img_trayectoria (b64encode (png fig3d))),
          Server.mkServer said
            (mkPyplot ((figures (Server.plt s) ++ [alt]) ++ [fig3d])
               (open_figs (Server.plt s)))
            (Server.now s))
    else (Ok ((simulacion_completada ap
               ++ img_altitud (b64encode (png alt)))
              ++ Server.sin_columnas_xyz),
          Server.mkServer said
            (mkPyplot (figures (Server.plt s) ++ [alt])
               (open_figs (Server.plt s)))
            (Server.now s)).
Proof.
  intros Hap Hls Hok alt fig3d said.
  destruct s as [out [figs o] now]. unfold said.
  cbn [Server.stdout Server.plt Server.now figures open_figs] in *.
  unfold Server.generar_graficas.
  erewrite bind_ok by apply print_run.
  rewrite Hap, bind_val.
  cbn [Server.stdout Server.plt Server.now].
  erewrite bind_ok by (apply grafica_2d_run; [exact Hls | exact Hok]).
  destruct (Nat.ltb_spec 3 (ncols m)) as [Hn | Hn].
  - erewrite bind_ok
      by (apply grafica_3d_run;
          [exact Hn | apply registry_ok_grows, Hok]).
    erewrite bind_ok by apply print_run.
    cbn [Server.stdout Server.plt Server.now].
    unfold ret. now rewrite <- app_assoc.
  - erewrite bind_ok by (apply grafica_3d_skipped, Hn).
    erewrite bind_ok by apply print_run.
    cbn [Server.stdout Server.plt Server.now].
    unfold ret. now rewrite <- app_assoc.
Qed.

(** Lines 119-139 when the solution has at least two rows and a column:
    both guards let it through to the charts. *)
Lemma graficar_passes_guards (flight : Server.Flight float) (m : Matrix float)
    (ap : float) (s : Server.Server float) :
  Server.solution (Server.attrs flight) = Some m ->
  1 < nrows m -> 1 <= ncols m ->
  Server.apogee (Server.attrs flight) = Val ap ->
  Server.graficar png b64encode flight s
  = Server.generar_graficas png b64encode (Server.attrs flight) m
      (Server.mkServer
         (Server.stdout s
          ++ [("Altitud Máxima (Apogeo) alcanzada: " ++ format_2f ap
               ++ " m")%string])%list
         (Server.plt s) (Server.now s)).
Proof.
  intros Hsol Hr Hc Hap. unfold Server.graficar.
  rewrite Hap, bind_val.
  erewrite bind_ok by apply print_run.
  unfold Server.sin_resultados. rewrite Hsol.
  destruct (Nat.leb_spec (nrows m) 1) as [Hle | _]; [lia|].
  rewrite bind_ret. rewrite Hsol.
  destruct (Nat.eqb_spec (size m) 0) as [E | _].
  - unfold size in E. destruct (nrows m), (ncols m); cbn in E; lia.
  - cbn [orb]. destruct (Nat.leb_spec (nrows m) 1) as [Hle | _]; [lia|].
    reflexivity.
Qed.

(** Lines 119-132 when the solution has at most one row, before and
    after [post_process]. *)
Lemma graficar_few_rows (flight : Server.Flight float) (a' : Server.Attrs float)
    (ap ap' : float) (s : Server.Server float) :
  Server.apogee (Server.attrs flight) = Val ap ->
  Server.sin_resultados (Server.attrs flight) = true ->
  after_post_process flight = Val a' ->
  Server.sin_resultados a' = true ->
  Server.apogee a' = Val ap' ->
  exists s',
    Server.graficar png b64encode flight s
    = (Ok (sin_resultados_graficables (str_float ap')), s')
    /\ Server.plt s' = Server.plt s.
Proof.
  intros Hap H1 Hpp H2 Hap'. unfold Server.graficar.
  rewrite Hap, bind_val.
  erewrite bind_ok by apply print_run.
  rewrite H1. unfold after_post_process in Hpp.
  destruct (Server.post_process flight) as [processed |].
  - subst processed. rewrite !bind_bind.
    erewrite bind_ok by apply print_run.
    rewrite bind_val, H2, Hap'.
    eexists. split; reflexivity.
  - injection Hpp as <-. rewrite !bind_bind, bind_ret, H2, Hap'.
    eexists. split; reflexivity.
Qed.
End ServerCharts.

(** ** The claims on the terminal script's plotting *)

(** C9.  From line 116 on the script reads columns 0, 3, 6, 1 and 2 of the
    solution array.  These reads are in bounds exactly when the array has 7
    columns or more; the guard of lines 105-114 lets every non-empty array
    through, whatever its width; on 7 columns or more the plotting runs to
    its end, and on fewer it stops with the [IndexError] of the first
    missing column (column 6 for 4, 5 or 6 columns), which nothing
    catches. *)
Theorem column_count_is_never_checked {float : Type} {H : PyFloat float}
    (a : Matrix float)
    (p : Terminal.Process float) :
  Terminal.plt p = no_figures ->
  ((forall j, In j [0; 3; 6; 1; 2] -> column a j = Val (col a j))
   <-> 7 <= ncols a)
  /\ (forall flight ap,
        Terminal.apogee flight = Val ap ->
        Terminal.solution_array flight = Val a -> size a <> 0 ->
        fst (Terminal.resultados flight p) = Ok a)
  /\ (7 <= ncols a -> fst (Terminal.graficar a p) = Ok tt)
  /\ (ncols a < 7 ->
      fst (Terminal.graficar a p)
      = Raise (index_error (first_missing_column (ncols a)) (ncols a)))
  /\ (4 <= ncols a < 7 ->
      fst (Terminal.graficar a p) = Raise (index_error 6 (ncols a))).
Proof.
  intro Hp. destruct p as [i o pl n d sh]. cbn [Terminal.plt] in Hp. subst pl.
  split; [| split; [| split; [| split]]].
  - split.
    + intro Hall. specialize (Hall 6 ltac:(simpl; tauto)).
      unfold column in Hall.
      destruct (Nat.ltb_spec 6 (ncols a)); [lia | discriminate Hall].
    + intros Hn j Hj. apply column_inside.
      simpl in Hj. decompose [or] Hj; subst; try lia; contradiction.
  - intros flight ap Hap Ha Hsize.
    rewrite (resultados_guard flight ap a _ Hap Ha).
    destruct (Nat.eqb_spec (size a) 0); [contradiction | reflexivity].
  - intro Hn.
    rewrite (graficar_run i o n d sh a (col a 0) (col a 1) (col a 2)
               (col a 3) (col a 6)) by (apply column_inside; lia).
    reflexivity.
  - intro Hn. now apply graficar_index_error.
  - intros [Hlo Hhi]. rewrite graficar_index_error by exact Hhi.
    unfold first_missing_column.
    destruct (Nat.eqb_spec (ncols a) 0); [lia|].
    destruct (Nat.leb_spec (ncols a) 3); [lia | reflexivity].
Qed.

Lemma column_count_is_never_checked_witness :
  let p := Terminal.start [] clock0 in
  fst (Terminal.resultados (terminal_flight (sample 2 4)) p) = Ok (sample 2 4)
  /\ fst (Terminal.graficar (sample 2 4) p) = Raise (index_error 6 4)
  /\ fst (Terminal.graficar (sample 2 7) p) = Ok tt.
Proof.
  intro p.
  pose proof (@column_count_is_never_checked Q QFloat (sample 2 4) p eq_refl)
    as (_ & Hguard & _ & _ & Hsix).
  pose proof (@column_count_is_never_checked Q QFloat (sample 2 7) p eq_refl)
    as (_ & _ & Hseven & _).
  split; [| split].
  - apply (Hguard (terminal_flight (sample 2 4)) 100%Q eq_refl eq_refl).
    discriminate.
  - apply Hsix. cbn. lia.
  - apply Hseven. cbn. lia.
Defined.

(** C7, on the code.  With Enter at every prompt and a solution of 2 rows
    and 7 columns the script ends normally; it has written one file, named
    by the clock, and the file holds the trajectory figure - the current
    figure when line 143 runs.  The time-series figure is in no file; both
    figures are in the windows of [plt.show()]. *)
Theorem savefig_writes_the_current_figure_only :
  let a := sample 2 7 in
  let series := time_series_figure (col a 0) (col a 3) (col a 6) in
  let trajectory := trajectory_figure (col a 1) (col a 2) (col a 3) in
  fst (terminal_run a) = Ok tt
  /\ Terminal.disk (snd (terminal_run a))
     = [("20250503_225200.png", trajectory)]
  /\ ~ In series (map snd (Terminal.disk (snd (terminal_run a))))
  /\ Terminal.shown (snd (terminal_run a)) = [[series; trajectory]].
Proof.
  intros a series trajectory.
  split; [| split; [| split]].
  - vm_compute. reflexivity.
  - vm_compute. reflexivity.
  - vm_compute. intros [Heq | []]. discriminate Heq.
  - vm_compute. reflexivity.
Qed.

(** ** The claims on the guards *)

(** C3, as the code has it.  The web view, on a solution that has at most
    one row when line 123 reads it and still at most one row when line 129
    reads it again, returns the fragment of line 132 and leaves pyplot as it
    was.  The terminal script prints its warning and exits, pyplot
    untouched, exactly when the solution array is empty (no row, or no
    column); every other array, a single row included, passes the guard
    and reaches line 116.  From there an array of 7 columns or more is
    plotted, saved and shown, and one of fewer columns stops the script at
    the first column it cannot read, with nothing saved or shown. *)
Theorem few_rows_are_not_plotted {float : Type} {H : PyFloat float} :
  (forall png b64encode (flight : Server.Flight float) m m' a' ap ap' s,
     Server.solution (Server.attrs flight) = Some m -> nrows m <= 1 ->
     Server.apogee (Server.attrs flight) = Val ap ->
     after_post_process flight = Val a' ->
     Server.solution a' = Some m' -> nrows m' <= 1 ->
     Server.apogee a' = Val ap' ->
     exists s',
       Server.graficar png b64encode flight s
       = (Ok (sin_resultados_graficables (str_float ap')), s')
       /\ Server.plt s' = Server.plt s)
  /\ (forall (flight : Terminal.Flight float) a ap p,
        Terminal.apogee flight = Val ap ->
        Terminal.solution_array flight = Val a ->
        size a = 0 ->
        exists p',
          Terminal.resultados flight p = (Exit, p')
          /\ Terminal.plt p' = Terminal.plt p
          /\ last (Terminal.stdout p') (Prompt EmptyString)
             = Printed (newline ++ "ADVERTENCIA: La simulación no produjo resultados. Verifique los parámetros."))
  /\ (forall (flight : Terminal.Flight float) a ap p,
        Terminal.apogee flight = Val ap ->
        Terminal.solution_array flight = Val a ->
        size a <> 0 ->
        exists p',
          Terminal.resultados flight p = (Ok a, p')
          /\ Terminal.plt p' = Terminal.plt p)
  /\ (forall (flight : Terminal.Flight float) a ap p,
        Terminal.apogee flight = Val ap ->
        Terminal.solution_array flight = Val a ->
        size a <> 0 -> 7 <= ncols a ->
        Terminal.plt p = no_figures ->
        let series := time_series_figure (col a 0) (col a 3) (col a 6) in
        let trajectory := trajectory_figure (col a 1) (col a 2) (col a 3) in
        exists p' p'',
          Terminal.resultados flight p = (Ok a, p')
          /\ Terminal.graficar a p' = (Ok tt, p'')
          /\ figures (Terminal.plt p'') = [series; trajectory]
          /\ Terminal.disk p''
             = (Terminal.disk p
                ++ [((strftime_Ymd_HMS (Terminal.now p) ++ ".png")%string,
                     trajectory)])%list
          /\ Terminal.shown p''
             = (Terminal.shown p ++ [[series; trajectory]])%list)
  /\ (forall (flight : Terminal.Flight float) a ap p,
        Terminal.apogee flight = Val ap ->
        Terminal.solution_array flight = Val a ->
        size a <> 0 -> ncols a < 7 ->
        Terminal.plt p = no_figures ->
        exists p' p'',
          Terminal.resultados flight p = (Ok a, p')
          /\ Terminal.graficar a p'
             = (Raise (index_error (first_missing_column (ncols a))
                         (ncols a)), p'')
          /\ Terminal.disk p'' = Terminal.disk p
          /\ Terminal.shown p'' = Terminal.shown p).
Proof.
  split; [| split; [| split; [| split]]].
  - intros png b64encode flight m m' a' ap ap' s Hm Hr Hap Hpp Hm' Hr' Hap'.
    apply (graficar_few_rows png b64encode flight a' ap ap' s Hap);
      try assumption.
    + unfold Server.sin_resultados. rewrite Hm. now apply Nat.leb_le.
    + unfold Server.sin_resultados. rewrite Hm'. now apply Nat.leb_le.
  - intros flight a ap p Hap Ha Hsize.
    rewrite (resultados_guard flight ap a p Hap Ha), Hsize.
    eexists. split; [reflexivity | split; [reflexivity|]].
    unfold after_reading. cbn [Terminal.stdout].
    rewrite app_assoc. apply last_last.
  - intros flight a ap p Hap Ha Hsize.
    rewrite (resultados_guard flight ap a p Hap Ha).
    destruct (Nat.eqb_spec (size a) 0); [contradiction|].
    eexists. split; reflexivity.
  - intros flight a ap p Hap Ha Hsize Hc Hp series trajectory.
    destruct p as [i o pl n d sh]. cbn [Terminal.plt] in Hp. subst pl.
    rewrite (resultados_guard flight ap a _ Hap Ha).
    destruct (Nat.eqb_spec (size a) 0); [contradiction|].
    eexists _, _. split; [reflexivity|].
    unfold after_reading.
    cbn [skipn Terminal.stdin Terminal.stdout Terminal.plt Terminal.now
         Terminal.disk Terminal.shown].
    rewrite (graficar_run i _ n d sh a (col a 0) (col a 1) (col a 2)
               (col a 3) (col a 6)) by (apply column_inside; lia).
    split; [reflexivity|]. repeat split.
  - intros flight a ap p Hap Ha Hsize Hc Hp.
    destruct p as [i o pl n d sh]. cbn [Terminal.plt] in Hp. subst pl.
    rewrite (resultados_guard flight ap a _ Hap Ha).
    destruct (Nat.eqb_spec (size a) 0); [contradiction|].
    unfold after_reading.
    cbn [skipn Terminal.stdin Terminal.stdout Terminal.plt Terminal.now
         Terminal.disk Terminal.shown].
    destruct (graficar_stops i
                (o ++ [ Printed "Ejecutando simulación con los parámetros ingresados...";
                        Printed (newline ++ "Simulación completada. Accediendo a resultados...");
                        Printed ("Altitud Máxima (Apogeo) alcanzada: "
                                 ++ format_2f ap ++ " m") ])%list
                n d sh a Hc) as (p'' & Hrun & Hdisk & Hshown).
    eexists _, p''. split; [reflexivity|].
    split; [exact Hrun | split; assumption].
Qed.

Lemma few_rows_are_not_plotted_witness :
  (exists s',
     Server.graficar test_png test_b64 (server_flight (sample 1 7) None) idle
     = (Ok "<p>Error: La simulación no produjo resultados graficables. Apogeo: 100.0</p>",
        s')
     /\ Server.plt s' = no_figures)
  /\ (exists p',
        Terminal.resultados (terminal_flight (sample 0 7))
          (Terminal.start [] clock0) = (Exit, p')
        /\ Terminal.plt p' = no_figures)
  /\ (exists p',
        Terminal.resultados (terminal_flight (sample 1 7))
          (Terminal.start [] clock0) = (Ok (sample 1 7), p')
        /\ Terminal.plt p' = no_figures)
  /\ (exists p' p'',
        Terminal.resultados (terminal_flight (sample 1 3))
          (Terminal.start [] clock0) = (Ok (sample 1 3), p')
        /\ Terminal.graficar (sample 1 3) p'
           = (Raise (index_error 3 3), p'')
        /\ Terminal.disk p'' = [] /\ Terminal.shown p'' = []).
Proof.
  pose proof (@few_rows_are_not_plotted Q QFloat)
    as (Hserver & Hexit & Hgo & _ & Hstop).
  split; [| split; [| split]].
  - apply (Hserver test_png test_b64 (server_flight (sample 1 7) None)
             (sample 1 7) (sample 1 7)
             (Server.attrs (server_flight (sample 1 7) None))
             100%Q 100%Q idle eq_refl (le_n 1) eq_refl eq_refl eq_refl
             (le_n 1) eq_refl).
  - destruct (Hexit (terminal_flight (sample 0 7)) (sample 0 7) 100%Q
                (Terminal.start [] clock0) eq_refl eq_refl eq_refl)
      as (p' & Hrun & Hplt & _).
    exists p'. split; assumption.
  - apply (Hgo (terminal_flight (sample 1 7)) (sample 1 7) 100%Q
             (Terminal.start [] clock0) eq_refl eq_refl).
    discriminate.
  - apply (Hstop (terminal_flight (sample 1 3)) (sample 1 3) 100%Q
             (Terminal.start [] clock0) eq_refl eq_refl).
    + discriminate.
    + cbn. lia.
    + reflexivity.
Defined.

(** C3 as written fails in the terminal script: with Enter at every prompt
    and a solution of one row and 7 columns the script does not exit at the
    guard; it plots both figures from the single row, writes the image file
    and shows the windows, and prints no warning. *)
Lemma terminal_plots_a_single_row :
  let a := sample 1 7 in
  nrows a = 1
  /\ fst (terminal_run a) = Ok tt
  /\ figures (Terminal.plt (snd (terminal_run a)))
     = [ time_series_figure (col a 0) (col a 3) (col a 6);
         trajectory_figure (col a 1) (col a 2) (col a 3) ]
  /\ map fst (Terminal.disk (snd (terminal_run a))) = ["20250503_225200.png"]
  /\ last (Terminal.stdout (snd (terminal_run a))) (Prompt EmptyString)
     = Printed "Altitud Máxima (Apogeo) alcanzada: 100.00 m".
Proof.
  intro a. repeat split; vm_compute; reflexivity.
Qed.

(** ** The claims on the charts *)

(** C4, as the code has it.  The terminal script, on a solution of at least
    2 rows and 7 columns, makes one figure of two panels, each with a
    legend: the first joins, row by row, column 0 to column 3, the second
    column 0 to column 6.  The web view, when the altitude can be drawn,
    makes a figure of a single panel with a legend, the altitude alone:
    what the engine's own plot of [flight.z] draws when there is one, and
    else the line joining column 0 to column 3; it has no panel for the
    vertical velocity.  The altitude can be drawn when the engine's plot
    returns, or when there is none and the matrix has 4 columns or more;
    when it cannot, lines 145-160 raise and leave the figure of line 146
    with no line and no legend. *)
Theorem time_series_follow_the_columns {float : Type} {H : PyFloat float} :
  (forall (a : Matrix float) (p : Terminal.Process float),
     2 <= nrows a -> 7 <= ncols a -> Terminal.plt p = no_figures ->
     let altitude := mkLine (col a 0) (col a 3) None "Altitud (z)" in
     let velocity := mkLine (col a 0) (col a 6) None "Velocidad Vertical (vz)" in
     exists p',
       Terminal.graficas_2d a p = (Ok tt, p')
       /\ figures (Terminal.plt p')
          = [mkFigure (10%Q, 8%Q)
               [ mkAxes (2, 1, 1) "rectilinear" [altitude] true false [];
                 mkAxes (2, 1, 2) "rectilinear" [velocity] true false [] ]
               true]
       /\ forall i, i < nrows a ->
            nth_error (points altitude) i = Some (cell a i 0, cell a i 3)
            /\ nth_error (points velocity) i = Some (cell a i 0, cell a i 6))
  /\ (forall png b64encode (a : Server.Attrs float) (m : Matrix float) ls
             out figs o now,
        altitude_lines a m = Val ls ->
        Forall (fun k => k < length figs) o ->
        Server.grafica_2d png b64encode a m
          (Server.mkServer out (mkPyplot figs o) now)
        = (Ok (img_altitud
                 (b64encode
                    (png (mkFigure (10%Q, 6%Q)
                            [ mkAxes (1, 1, 1) "rectilinear" ls true true
                                [ ("xlabel", "Tiempo (s)");
                                  ("ylabel", "Altitud (m)");
                                  ("title", "Altitud del CanSat vs. Tiempo") ] ]
                            false)))),
           Server.mkServer out (mkPyplot (figs ++ [altitude_figure ls]) o) now))
  /\ (forall (a : Server.Attrs float) (m : Matrix float),
        Server.z_plot a = None -> 4 <= ncols m ->
        altitude_lines a m = Val [mkLine (col m 0) (col m 3) None "Altitud (z)"])
  /\ (forall (a : Server.Attrs float) (m : Matrix float) drawn,
        Server.z_plot a = Some drawn -> altitude_lines a m = drawn)
  /\ (forall (a : Server.Attrs float) (m : Matrix float),
        Server.z_plot a = None -> ncols m < 4 ->
        altitude_lines a m
        = Err (index_error (if (ncols m =? 0)%nat then 0 else 3) (ncols m)))
  /\ (forall png b64encode (a : Server.Attrs float) (m : Matrix float) e
             out figs o now,
        altitude_lines a m = Err e ->
        Server.grafica_2d png b64encode a m
          (Server.mkServer out (mkPyplot figs o) now)
        = (Raise e,
           Server.mkServer out
             (mkPyplot
                (figs
                 ++ [mkFigure (10%Q, 6%Q)
                       [mkAxes (1, 1, 1) "rectilinear" [] false false []]
                       false])
                (o ++ [length figs]))
             now)).
Proof.
  split; [| split; [| split; [| split; [| split]]]].
  - intros a p Hr Hc Hp altitude velocity.
    destruct p as [i o pl n d sh]. cbn [Terminal.plt] in Hp. subst pl.
    eexists. split; [| split].
    + apply (graficas_2d_run i o n d sh a (col a 0) (col a 3) (col a 6));
        apply column_inside; lia.
    + reflexivity.
    + intros k Hk. split; now apply points_of_columns.
  - intros png b64encode a m ls out figs o now Hls Ho.
    exact (grafica_2d_run png b64encode now a m ls out figs o Hls Ho).
  - intros a m Hz Hc. unfold altitude_lines. rewrite Hz.
    now rewrite (column_inside m 0), (column_inside m 3) by lia.
  - intros a m drawn Hz. unfold altitude_lines. now rewrite Hz.
  - intros a m Hz Hc. unfold altitude_lines. rewrite Hz.
    destruct (Nat.eqb_spec (ncols m) 0) as [E0 | E0].
    + now rewrite (column_outside m 0) by lia.
    + now rewrite (column_inside m 0), (column_outside m 3) by lia.
  - intros png b64encode a m e out figs o now Hls.
    exact (grafica_2d_error png b64encode now a m e out figs o Hls).
Qed.

Lemma time_series_follow_the_columns_witness :
  let a := sample 2 7 in
  (exists p',
     Terminal.graficas_2d a (Terminal.start [] clock0) = (Ok tt, p')
     /\ ordinates (figures (Terminal.plt p')) = [[3%Q; 13%Q]; [6%Q; 16%Q]])
  /\ fst (Server.grafica_2d test_png test_b64
            (Server.attrs (server_flight a None)) a idle)
     = Ok (img_altitud "b64(png of 1 panel(s))").
Proof.
  intro a.
  pose proof (@time_series_follow_the_columns Q QFloat)
    as (Hterminal & Hserver & Hfallback & _).
  split.
  - destruct (Hterminal a (Terminal.start [] clock0)) as (p' & Hrun & Hfig & _).
    + cbn. lia.
    + cbn. lia.
    + reflexivity.
    + exists p'. split; [exact Hrun|]. rewrite Hfig. reflexivity.
  - unfold idle, no_figures.
    rewrite (Hserver test_png test_b64 (Server.attrs (server_flight a None)) a
               [mkLine (col a 0) (col a 3) None "Altitud (z)"]
               [] [] [] clock0).
    + reflexivity.
    + apply Hfallback; [reflexivity | cbn; lia].
    + constructor.
Defined.

(** C4 as written fails in the web view: on a solution of 2 rows and 7
    columns, with no plot method on [flight.z], the request succeeds with
    two figures of one panel each, the altitude and the trajectory; column
    6, the vertical velocity, is drawn nowhere. *)
Lemma web_view_draws_no_velocity :
  let a := sample 2 7 in
  let r := Server.graficar test_png test_b64 (server_flight a None) idle in
  (exists html, fst r = Ok html)
  /\ map (fun fg => length (fig_axes fg)) (figures (Server.plt (snd r)))
     = [1; 1]
  /\ ordinates (figures (Server.plt (snd r))) = [col a 3; col a 2]
  /\ ~ In (col a 6) (ordinates (figures (Server.plt (snd r)))).
Proof.
  intros a r. split; [| split; [| split]].
  - eexists. vm_compute. reflexivity.
  - vm_compute. reflexivity.
  - vm_compute. reflexivity.
  - vm_compute. intros [Heq | [Heq | []]]; discriminate Heq.
Qed.

(** ** The claims on the web view's requests *)


(** The [except] clause on an exception that the [try] block raised. *)
Lemma handler_run {float : Type} {H : PyFloat float}
    (body : M (Server.Server float) string) (s s1 : Server.Server float)
    (e : exn) :
  body s = (Raise e, s1) ->
  try_except body Server.error_en_la_simulacion s
  = (Ok (error_fragment e),
     Server.mkServer
       (Server.stdout s1
        ++ [ ("ERROR CRÍTICO durante la simulación o graficación: "
              ++ exc_str e)%string;
             format_exc e ])%list
       (Server.plt s1) (Server.now s1)).
Proof.
  intro Hbody. unfold try_except. rewrite Hbody.
  unfold Server.error_en_la_simulacion.
  do 2 erewrite bind_ok by apply print_run.
  cbn [Server.stdout Server.plt Server.now]. unfold ret.
  now rewrite <- app_assoc.
Qed.

(** [GET /] on the code as written: the [try] block always raises, so the
    answer is always the page around an error fragment. *)
Lemma get_root_run {float : Type} {H : PyFloat float}
    (rp : RocketPy float) (rp_attr_text : pyval float -> string -> Exc string)
    (rp_Flight : kwargs float -> Exc (Server.Flight float))
    (png : Figure float -> string) (b64encode : string -> string)
    (s : Server.Server float) :
  exists e s',
    Server.get_root rp rp_attr_text rp_Flight png b64encode s
    = (Ok (Server.mkResponse 200
             (Server.html_head ++ error_fragment e ++ Server.html_tail)),
       s')
    /\ In (format_exc e) (Server.stdout s')
    /\ Server.plt s' = Server.plt s.
Proof.
  unfold Server.get_root, Server.home, Server.ejecutar_simulacion_y_graficar.
  rewrite bind_bind.
  erewrite bind_ok by apply print_run.
  destruct (configurar_y_simular_raises rp rp_attr_text rp_Flight
              Server.default_inclination Server.default_heading
              Server.default_rail_length Server.default_cansat_mass
              Server.default_drag_coeff Server.default_burn_time
              Server.default_avg_thrust Server.default_elevation
              (Server.mkServer
                 (Server.stdout s
                  ++ ["--- Iniciando simulación con valores por defecto ---"])
                 (Server.plt s) (Server.now s)))
    as (e & s1 & Hraise & Hplt).
  exists e. eexists. split; [| split].
  - unfold bind at 1.
    erewrite handler_run by (erewrite bind_raise by exact Hraise; reflexivity).
    reflexivity.
  - cbn [Server.stdout]. apply in_or_app. right. right. now left.
  - cbn [Server.plt]. exact Hplt.
Qed.



(** With an engine that accepts every call, the request still fails: the
    keyword values of [rp.Rocket] read a name that is not defined. *)
Example rocket_keywords_are_not_variables :
  fst (Server.ejecutar_simulacion_y_graficar obliging
         (fun _ _ => Val "GasMotor") (fun _ => Val (server_flight (sample 2 7) None))
         test_png test_b64 idle)
  = Ok (error_fragment
          (mkExn NameError "name 'inertia_IxIy' is not defined"
             Server.in_the_view)).
Proof. reflexivity. Qed.

(** C6.  [fig_to_base64] returns the base64 text of the PNG of the figure
    as it stands and takes the figure out of pyplot's registry.  Whenever
    lines 119-184 run to their end, on any flight, the figures open
    afterwards are those open before: none, if none was open.  And a
    request through the route, whatever the engine does, leaves pyplot as
    it was. *)
Theorem figures_are_closed_after_encoding {float : Type} {H : PyFloat float}
    (png : Figure float -> string) (b64encode : string -> string) :
  (forall fig (s : Server.Server float),
     Server.fig_to_base64 png b64encode fig s
     = (Ok (b64encode (png (fig_at (Server.plt s) fig))),
        Server.mkServer (Server.stdout s)
          (mkPyplot (figures (Server.plt s))
             (filter (fun k => negb (k =? fig)%nat)
                (open_figs (Server.plt s))))
          (Server.now s)))
  /\ (forall flight s html s',
        registry_ok (Server.plt s) ->
        Server.graficar png b64encode flight s = (Ok html, s') ->
        open_figs (Server.plt s') = open_figs (Server.plt s))
  /\ (forall flight s html s',
        open_figs (Server.plt s) = [] ->
        Server.graficar png b64encode flight s = (Ok html, s') ->
        length (open_figs (Server.plt s')) = 0)
  /\ (forall rp rp_attr_text rp_Flight s,
        Server.plt
          (snd (Server.get_root rp rp_attr_text rp_Flight png b64encode s))
        = Server.plt s).
Proof.
  split; [| split; [| split]].
  - reflexivity.
  - intros flight s html s' Hok Hrun.
    exact (proj1 (keeps_graficar png b64encode flight s html s' Hok Hrun)).
  - intros flight s html s' Hnone Hrun.
    assert (Hok : registry_ok (Server.plt s)).
    { unfold registry_ok. rewrite Hnone. constructor. }
    rewrite (proj1 (keeps_graficar png b64encode flight s html s' Hok Hrun)).
    now rewrite Hnone.
  - intros rp rp_attr_text rp_Flight s.
    destruct (get_root_run rp rp_attr_text rp_Flight png b64encode s)
      as (e & s' & Hrun & _ & Hplt).
    now rewrite Hrun.
Qed.

Lemma figures_are_closed_after_encoding_witness :
  let r := Server.graficar test_png test_b64
             (server_flight (sample 2 7) None) idle in
  length (figures (Server.plt (snd r))) = 2
  /\ open_figs (Server.plt (snd r)) = [].
Proof.
  intro r. split; [reflexivity|].
  assert (Hrun : exists html s', r = (Ok html, s')).
  { exists (match fst r with Ok html => html | _ => EmptyString end), (snd r).
    vm_compute. reflexivity. }
  destruct Hrun as (html & s' & Hrun). rewrite Hrun.
  exact (proj1 (proj2 (@figures_are_closed_after_encoding Q QFloat
                         test_png test_b64))
           (server_flight (sample 2 7) None) idle html s'
           (Forall_nil _) Hrun).
Defined.

(** When drawing fails between line 146 and line 159, the figure made at
    line 146 is still open after the [except] clause has run. *)
Example a_failed_drawing_leaves_its_figure_open :
  open_figs
    (Server.plt
       (snd (try_except
               (Server.graficar test_png test_b64
                  (server_flight (sample 2 2) None))
               Server.error_en_la_simulacion idle)))
  = [0].
Proof. reflexivity. Qed.

(** C10, as the code has it.  On a solution of more than one row and of
    one, two or three columns, when the engine's own plot of [flight.z]
    draws the altitude, lines 119-184 return the altitude image followed by
    the note of line 181: the altitude figure is the only figure made,
    columns 1 to 3 are not read, and no figure is left open. *)
Theorem trajectory_is_skipped_without_xyz {float : Type} {H : PyFloat float}
    (png : Figure float -> string) (b64encode : string -> string)
    (flight : Server.Flight float) (m : Matrix float) (ls : list (Line float))
    (ap : float) (s : Server.Server float) :
  Server.solution (Server.attrs flight) = Some m ->
  1 < nrows m -> 1 <= ncols m <= 3 ->
  Server.z_plot (Server.attrs flight) = Some (Val ls) ->
  Server.apogee (Server.attrs flight) = Val ap ->
  registry_ok (Server.plt s) ->
  Server.graficar png b64encode flight s
  = (Ok ((simulacion_completada ap
          ++ img_altitud (b64encode (png (altitude_figure ls))))
         ++ Server.sin_columnas_xyz),
     Server.mkServer
       (Server.stdout s
        ++ [ ("Altitud Máxima (Apogeo) alcanzada: " ++ format_2f ap
              ++ " m")%string;
             "Generando gráficas...";
             "--- Simulación y graficación finalizadas exitosamente. ---" ])%list
       (mkPyplot (figures (Server.plt s) ++ [altitude_figure ls])
          (open_figs (Server.plt s)))
       (Server.now s)).
Proof.
  intros Hsol Hr [Hc1 Hc3] Hz Hap Hok.
  rewrite (graficar_passes_guards png b64encode flight m ap s Hsol Hr Hc1 Hap).
  rewrite (generar_graficas_run png b64encode (Server.attrs flight) m ap ls);
    [| exact Hap | unfold altitude_lines; now rewrite Hz | exact Hok ].
  destruct (Nat.ltb_spec 3 (ncols m)); [lia|].
  cbn [Server.stdout Server.plt Server.now].
  now rewrite <- app_assoc.
Qed.

Lemma trajectory_is_skipped_without_xyz_witness :
  let drawn := [mkLine [0%Q; 1%Q] [0%Q; 50%Q] None "Altitud (z vs t)"] in
  let flight := server_flight (sample 2 3) (Some (Val drawn)) in
  Server.graficar test_png test_b64 flight idle
  = (Ok ("<h2>Simulación Completada</h2><p>Apogeo (calculado por RocketPy): 100.00 m</p>"
         ++ "<h3>Altitud vs Tiempo</h3><img src='data:image/png;base64,b64(png of 1 panel(s))' alt='Altitud vs Tiempo'>"
         ++ Server.sin_columnas_xyz),
     Server.mkServer
       [ "Altitud Máxima (Apogeo) alcanzada: 100.00 m";
         "Generando gráficas...";
         "--- Simulación y graficación finalizadas exitosamente. ---" ]
       (mkPyplot [altitude_figure drawn] []) clock0).
Proof.
  intros drawn flight.
  apply (@trajectory_is_skipped_without_xyz Q QFloat test_png test_b64 flight
           (sample 2 3) drawn 100%Q idle eq_refl).
  - cbn. lia.
  - cbn. lia.
  - reflexivity.
  - reflexivity.
  - constructor.
Defined.

(** C10 as written fails on a solution without columns: 2 rows and 0
    columns are more than one row and at most 3 columns, yet line 138 finds
    the array empty and the view returns the warning of line 139; no figure
    is made, the altitude figure included. *)
Lemma no_columns_no_altitude_figure :
  let drawn := [mkLine [0%Q; 1%Q] [0%Q; 50%Q] None "Altitud (z vs t)"] in
  let flight := server_flight (sample 2 0) (Some (Val drawn)) in
  1 < nrows (sample 2 0) /\ ncols (sample 2 0) <= 3
  /\ Server.graficar test_png test_b64 flight idle
     = (Ok "<p>ADVERTENCIA: La simulación no produjo resultados válidos. Apogeo: 100.00 m</p>",
        Server.mkServer ["Altitud Máxima (Apogeo) alcanzada: 100.00 m"]
          no_figures clock0).
Proof.
  intros drawn flight. split; [| split].
  - cbn. lia.
  - cbn. lia.
  - reflexivity.
Qed.

(** * Further properties *)

(** ** The prompts, one after the other *)

Section IntakeRuns.
Context {float : Type} {H : PyFloat float}.

Lemma lines_all_invalid (prompt : string) (default_value : float)
    (l : list string) :
  Forall invalid l ->
  get_float_input_lines prompt default_value l
  = (Raise eof_error, [],
     (flat_map (fun _ => retry_output prompt default_value) l
      ++ [Prompt (prompt_text prompt default_value)])%list).
Proof.
  induction 1 as [|s l Hs _ IH]; [reflexivity|].
  rewrite (lines_invalid prompt default_value s l Hs), IH. reflexivity.
Qed.

Lemma terminal_print_run (line : string) (p : Terminal.Process float) :
  Terminal.print line p = (Ok tt, after_reading 0 [Printed line] p).
Proof. reflexivity. Qed.

Lemma get_float_input_accepts (prompt : string) (default_value v : float)
    (s : string) (rest : list string) (p : Terminal.Process float) :
  Terminal.stdin p = s :: rest ->
  accepted_as default_value s v ->
  Terminal.get_float_input prompt default_value p
  = (Ok v, after_reading 1 [Prompt (prompt_text prompt default_value)] p).
Proof.
  intros Hin Hacc. rewrite get_float_input_unfold, Hin.
  rewrite (lines_accepted prompt default_value s v rest Hacc).
  unfold after_reading. now rewrite Hin.
Qed.

(** A call either returns, having read at least one line, or finds the
    input at its end. *)
Lemma get_float_input_cases (prompt : string) (default_value : float)
    (p : Terminal.Process float) :
  (exists v p',
     Terminal.get_float_input prompt default_value p = (Ok v, p')
     /\ length (Terminal.stdin p') < length (Terminal.stdin p))
  \/ (exists p',
        Terminal.get_float_input prompt default_value p
        = (Raise eof_error, p')).
Proof.
  rewrite get_float_input_unfold.
  pose proof (lines_never_exit prompt default_value (Terminal.stdin p)) as Hne.
  destruct (get_float_input_lines prompt default_value (Terminal.stdin p))
    as [[[v | e |] rest] out] eqn:El.
  - left. eexists _, _. split; [reflexivity|].
    destruct (lines_ok_inv prompt default_value _ _ _ _ El)
      as (bad & s & -> & _ & _).
    cbn [Terminal.stdin]. rewrite length_app. cbn [length]. lia.
  - right. destruct (lines_raise_inv prompt default_value _ _ _ _ El)
      as [-> _].
    eexists. reflexivity.
  - now contradiction Hne.
Qed.

(** The same two steps on a process written out, so that a chain of them
    keeps the state small. *)
Lemma terminal_print_mk (line : string) (i : list string) (o : list output)
    (pl : Pyplot float) (n : datetime) (d : list (string * Figure float))
    (sh : list (list (Figure float))) :
  Terminal.print line (Terminal.mkProcess i o pl n d sh)
  = (Ok tt, Terminal.mkProcess i (o ++ [Printed line])%list pl n d sh).
Proof. reflexivity. Qed.

Lemma get_float_input_accepts_mk (prompt : string) (default_value v : float)
    (s : string) (rest : list string) (o : list output) (pl : Pyplot float)
    (n : datetime) (d : list (string * Figure float))
    (sh : list (list (Figure float))) :
  accepted_as default_value s v ->
  Terminal.get_float_input prompt default_value
    (Terminal.mkProcess (s :: rest) o pl n d sh)
  = (Ok v,
     Terminal.mkProcess rest
       (o ++ [Prompt (prompt_text prompt default_value)])%list pl n d sh).
Proof.
  intro Hacc.
  now rewrite (get_float_input_accepts prompt default_value v s rest
                 (Terminal.mkProcess (s :: rest) o pl n d sh) eq_refl Hacc).
Qed.

Lemma entrada_del_usuario_run (p : Terminal.Process float)
    (s1 s2 s3 s4 s5 s6 s7 s8 : string) (v1 v2 v3 v4 v5 v6 v7 v8 : float)
    (rest : list string) :
  Terminal.stdin p = s1 :: s2 :: s3 :: s4 :: s5 :: s6 :: s7 :: s8 :: rest ->
  accepted_as Terminal.default_inclination s1 v1 ->
  accepted_as Terminal.default_heading s2 v2 ->
  accepted_as Terminal.default_rail_length s3 v3 ->
  accepted_as Terminal.default_cansat_mass s4 v4 ->
  accepted_as Terminal.default_drag_coeff s5 v5 ->
  accepted_as Terminal.default_burn_time s6 v6 ->
  accepted_as Terminal.default_avg_thrust s7 v7 ->
  accepted_as Terminal.default_elevation s8 v8 ->
  Terminal.entrada_del_usuario p
  = (Ok (Terminal.mkInputs v1 v2 v3 v4 v5 v6 v7 v8),
     after_reading 8 intake_screen p).
Proof.
  intros Hin H1 H2 H3 H4 H5 H6 H7 H8.
  destruct p as [i o pl n d sh]. cbn [Terminal.stdin] in Hin. subst i.
  unfold Terminal.entrada_del_usuario.
  erewrite bind_ok by apply terminal_print_mk.
  erewrite bind_ok by (apply get_float_input_accepts_mk; exact H1).
  erewrite bind_ok by (apply get_float_input_accepts_mk; exact H2).
  erewrite bind_ok by (apply get_float_input_accepts_mk; exact H3).
  erewrite bind_ok by (apply get_float_input_accepts_mk; exact H4).
  erewrite bind_ok by (apply get_float_input_accepts_mk; exact H5).
  erewrite bind_ok by (apply get_float_input_accepts_mk; exact H6).
  erewrite bind_ok by (apply get_float_input_accepts_mk; exact H7).
  erewrite bind_ok by (apply get_float_input_accepts_mk; exact H8).
  erewrite bind_ok by apply terminal_print_mk.
  unfold ret, after_reading, intake_screen.
  cbn [skipn Terminal.stdin Terminal.stdout Terminal.plt Terminal.now
       Terminal.disk Terminal.shown].
  repeat rewrite <- app_assoc. reflexivity.
Qed.

(** One more prompt: it returns, with fewer lines left, or the goal is
    settled by [EOFError]. *)
Ltac ask_again :=
  let v := fresh "v" in
  let q := fresh "p" in
  let Hrun := fresh "Hrun" in
  let Hq := fresh "Hlen" in
  match goal with
  | |- context [bind (Terminal.get_float_input ?pr ?d) _ ?p] =>
      destruct (get_float_input_cases pr d p)
        as [(v & q & Hrun & Hq) | (q & Hrun)];
      [ erewrite bind_ok by exact Hrun
      | erewrite bind_raise by exact Hrun; eexists; reflexivity ]
  end.

(** With fewer than eight lines on standard input the prompts end in
    [EOFError]. *)
Lemma entrada_del_usuario_starves (p : Terminal.Process float) :
  length (Terminal.stdin p) < 8 ->
  exists p', Terminal.entrada_del_usuario p = (Raise eof_error, p').
Proof.
  intro Hlen. unfold Terminal.entrada_del_usuario.
  erewrite bind_ok by apply terminal_print_run.
  assert (H0 : length (Terminal.stdin
                         (after_reading 0
                            [Printed "--- Ingrese los parámetros de simulación (Presione Enter para usar el valor por defecto) ---"]
                            p)) < 8) by exact Hlen.
  revert H0. generalize (after_reading 0
    [Printed "--- Ingrese los parámetros de simulación (Presione Enter para usar el valor por defecto) ---"]
    p).
  intros p0 H0.
  do 8 ask_again. lia.
Qed.
End IntakeRuns.

(** X1.  When every line left on standard input is invalid, the call ends
    in [EOFError] once the input is used up: it has read every line,
    answered each with the diagnostic, and printed the prompt once more. *)
Theorem get_float_input_runs_out {float : Type} {H : PyFloat float}
    (prompt : string) (default_value : float) (p : Terminal.Process float) :
  Forall invalid (Terminal.stdin p) ->
  Terminal.get_float_input prompt default_value p
  = (Raise eof_error,
     after_reading (length (Terminal.stdin p))
       (flat_map (fun _ => retry_output prompt default_value)
          (Terminal.stdin p)
        ++ [Prompt (prompt_text prompt default_value)])%list p).
Proof.
  intro Hall. rewrite get_float_input_unfold.
  rewrite (lines_all_invalid prompt default_value _ Hall).
  unfold after_reading. now rewrite skipn_all.
Qed.

Lemma get_float_input_runs_out_witness :
  let ask := Prompt "Masa seca del CanSat (kg) [0.3]: " in
  @Terminal.get_float_input Q QFloat "Masa seca del CanSat (kg)"
    (@Terminal.default_cansat_mass Q QFloat)
    (Terminal.start ["abc"; "1,5"] clock0)
  = (Raise eof_error,
     Terminal.mkProcess []
       [ask; entrada_invalida; ask; entrada_invalida; ask]
       no_figures clock0 [] []).
Proof.
  intro ask.
  apply (@get_float_input_runs_out Q QFloat "Masa seca del CanSat (kg)"
           (@Terminal.default_cansat_mass Q QFloat)
           (Terminal.start ["abc"; "1,5"] clock0)).
  repeat constructor; discriminate.
Defined.

(** X2.  Eight lines that are each accepted at once answer the eight
    prompts in the order inclination, heading, rail length, mass, drag,
    burn time, thrust, elevation; exactly these eight lines are read; and
    eight times Enter gives the eight defaults. *)
Theorem eight_answers_in_order {float : Type} {H : PyFloat float}
    (p : Terminal.Process float) (rest : list string) :
  (forall s1 s2 s3 s4 s5 s6 s7 s8 v1 v2 v3 v4 v5 v6 v7 v8,
     Terminal.stdin p
     = s1 :: s2 :: s3 :: s4 :: s5 :: s6 :: s7 :: s8 :: rest ->
     accepted_as Terminal.default_inclination s1 v1 ->
     accepted_as Terminal.default_heading s2 v2 ->
     accepted_as Terminal.default_rail_length s3 v3 ->
     accepted_as Terminal.default_cansat_mass s4 v4 ->
     accepted_as Terminal.default_drag_coeff s5 v5 ->
     accepted_as Terminal.default_burn_time s6 v6 ->
     accepted_as Terminal.default_avg_thrust s7 v7 ->
     accepted_as Terminal.default_elevation s8 v8 ->
     Terminal.entrada_del_usuario p
     = (Ok (Terminal.mkInputs v1 v2 v3 v4 v5 v6 v7 v8),
        after_reading 8 intake_screen p))
  /\ (Terminal.stdin p = (repeat EmptyString 8 ++ rest)%list ->
      Terminal.entrada_del_usuario p
      = (Ok default_inputs, after_reading 8 intake_screen p)).
Proof.
  split.
  - intros s1 s2 s3 s4 s5 s6 s7 s8 v1 v2 v3 v4 v5 v6 v7 v8 Hin
      H1 H2 H3 H4 H5 H6 H7 H8.
    exact (entrada_del_usuario_run p s1 s2 s3 s4 s5 s6 s7 s8
             v1 v2 v3 v4 v5 v6 v7 v8 rest Hin H1 H2 H3 H4 H5 H6 H7 H8).
  - intro Hin. unfold default_inputs.
    apply (entrada_del_usuario_run p EmptyString EmptyString EmptyString
             EmptyString EmptyString EmptyString EmptyString EmptyString
             _ _ _ _ _ _ _ _ rest Hin); now left.
Qed.

Lemma eight_answers_in_order_witness :
  fst (@Terminal.entrada_del_usuario Q QFloat
         (Terminal.start
            ["80"; EmptyString; "1.5"; "0.35"; EmptyString; "3";
             "12.5"; "100"; "left over"] clock0))
  = Ok (Terminal.mkInputs 80%Q 0.0%Q 1.5%Q 0.35%Q 0.6%Q 3%Q 12.5%Q 100%Q)
  /\ fst (@Terminal.entrada_del_usuario Q QFloat
            (Terminal.start (repeat EmptyString 8) clock0))
     = Ok (Terminal.mkInputs 90.0%Q 0.0%Q 1.2%Q 0.3%Q 0.6%Q 2.0%Q 10.0%Q
             20.0%Q).
Proof.
  split.
  - rewrite (proj1 (@eight_answers_in_order Q QFloat
                      (Terminal.start
                         ["80"; EmptyString; "1.5"; "0.35"; EmptyString; "3";
                          "12.5"; "100"; "left over"] clock0)
                      ["left over"])
               "80" EmptyString "1.5" "0.35" EmptyString "3" "12.5" "100"
               80%Q 0.0%Q 1.5%Q 0.35%Q 0.6%Q 3%Q 12.5%Q 100%Q eq_refl);
      first [ reflexivity
            | now left
            | right; split; [discriminate | reflexivity] ].
  - rewrite (proj2 (@eight_answers_in_order Q QFloat
                      (Terminal.start (repeat EmptyString 8) clock0) [])
               eq_refl).
    reflexivity.
Defined.

(** X3.  With fewer than eight lines on standard input the script ends in
    [EOFError] while still asking, whatever the lines are and whatever the
    engine would do. *)
Theorem too_few_answers {float : Type} {H : PyFloat float}
    (rp : RocketPy float)
    (rp_Flight : kwargs float -> Exc (Terminal.Flight float))
    (lines : list string) (clock : datetime) :
  length lines < 8 ->
  fst (Terminal.main rp rp_Flight (Terminal.start lines clock))
  = Raise eof_error.
Proof.
  intro Hlen. unfold Terminal.main.
  destruct (entrada_del_usuario_starves (Terminal.start lines clock) Hlen)
    as [p' Hrun].
  now erewrite bind_raise by exact Hrun.
Qed.

Lemma too_few_answers_witness :
  fst (@Terminal.main Q QFloat obliging
         (fun _ => Val (terminal_flight (sample 2 7)))
         (Terminal.start ["45"; "abc"; EmptyString] clock0))
  = Raise eof_error.
Proof.
  apply too_few_answers. cbn. lia.
Defined.

(** ** The terminal script between the prompts and the figures *)

Section TerminalRuns.
Context {float : Type} {H : PyFloat float}.
Variable rp : RocketPy float.
Variable rp_Flight : kwargs float -> Exc (Terminal.Flight float).

Lemma only_asks_ext {S A} (r : Exc A) : only_asks (@ext S A r).
Proof. intro s. destruct r; split; try reflexivity; discriminate. Qed.

Lemma only_asks_bind {S A B} (c : M S A) (k : A -> M S B) :
  only_asks c -> (forall a, only_asks (k a)) -> only_asks (bind c k).
Proof.
  intros Hc Hk s. unfold bind. destruct (Hc s) as [Hs Hne].
  destruct (c s) as [[a | e |] s1]; cbn [fst snd] in *; subst s1.
  - apply Hk.
  - split; [reflexivity | discriminate].
  - now contradiction Hne.
Qed.

Lemma configuracion_only_asks (u : Terminal.Inputs float) :
  only_asks (Terminal.configuracion rp rp_Flight u).
Proof.
  unfold Terminal.configuracion.
  repeat (cbv zeta; apply only_asks_bind; [apply only_asks_ext | intro]).
  apply only_asks_ext.
Qed.

Lemma writes_nothing_ret {A} (a : A) :
  writes_nothing float (ret a).
Proof. intro p. now split. Qed.

Lemma writes_nothing_ext {A} (r : Exc A) :
  writes_nothing float (ext r).
Proof. intro p. destruct r; now split. Qed.

Lemma writes_nothing_exit {A} :
  writes_nothing float (@sys_exit _ A).
Proof. intro p. now split. Qed.

Lemma writes_nothing_print (line : string) :
  writes_nothing float (Terminal.print line).
Proof. intro p. now split. Qed.

Lemma writes_nothing_pyplot {A} (c : M (Pyplot float) A) :
  writes_nothing float (Terminal.pyplot c).
Proof.
  intro p. unfold Terminal.pyplot, zoom.
  destruct (c (Terminal.plt p)). now split.
Qed.

Lemma writes_nothing_get_float_input (prompt : string)
    (default_value : float) :
  writes_nothing float (Terminal.get_float_input prompt default_value).
Proof.
  intro p. rewrite get_float_input_unfold.
  destruct (get_float_input_lines prompt default_value (Terminal.stdin p))
    as [[r rest] out].
  now split.
Qed.

Lemma writes_nothing_bind {A B} (c : M (Terminal.Process float) A)
    (k : A -> M (Terminal.Process float) B) :
  writes_nothing float c -> (forall a, writes_nothing float (k a)) ->
  writes_nothing float (bind c k).
Proof.
  intros Hc Hk p. unfold bind. destruct (Hc p) as [Hd Hs].
  destruct (c p) as [[a | e |] p1]; cbn [fst snd] in *.
  - destruct (Hk a p1) as [Hd1 Hs1]. split; congruence.
  - now split.
  - now split.
Qed.

Lemma writes_nothing_try {A} (body : M (Terminal.Process float) A)
    (handler : exn -> M (Terminal.Process float) A) :
  writes_nothing float body -> (forall e, writes_nothing float (handler e)) ->
  writes_nothing float (try_except body handler).
Proof.
  intros Hb Hh p. unfold try_except. destruct (Hb p) as [Hd Hs].
  destruct (body p) as [[a | e |] p1]; cbn [fst snd] in *.
  - now split.
  - destruct (Hh e p1) as [Hd1 Hs1]. split; congruence.
  - now split.
Qed.

(** Everything before line 141 writes no file and opens no window. *)
Ltac quiet :=
  repeat first
    [ apply writes_nothing_print
    | apply writes_nothing_pyplot
    | apply writes_nothing_get_float_input
    | apply writes_nothing_ext
    | apply writes_nothing_ret
    | apply writes_nothing_exit
    | apply writes_nothing_try
    | (apply writes_nothing_bind; [| intro])
    | intro ].

Lemma writes_nothing_entrada : writes_nothing float Terminal.entrada_del_usuario.
Proof. unfold Terminal.entrada_del_usuario. quiet. Qed.

Lemma writes_nothing_configuracion (u : Terminal.Inputs float) :
  writes_nothing float (Terminal.configuracion rp rp_Flight u).
Proof. unfold Terminal.configuracion. cbv zeta. quiet. Qed.

Lemma writes_nothing_resultados (flight : Terminal.Flight float) :
  writes_nothing float (Terminal.resultados flight).
Proof.
  unfold Terminal.resultados.
  do 4 (apply writes_nothing_bind; [quiet | intro]).
  apply writes_nothing_try.
  - apply writes_nothing_bind; [quiet | intro m].
    destruct (size m =? 0)%nat; quiet.
  - intro e. quiet.
Qed.

Lemma writes_nothing_graficas_2d (a : Matrix float) :
  writes_nothing float (Terminal.graficas_2d a).
Proof. unfold Terminal.graficas_2d. quiet. Qed.

Lemma writes_nothing_grafica_3d (a : Matrix float) :
  writes_nothing float (Terminal.grafica_3d a).
Proof. unfold Terminal.grafica_3d. quiet. Qed.

Lemma all_or_nothing_bind {A} (c : M (Terminal.Process float) A)
    (k : A -> M (Terminal.Process float) unit) :
  writes_nothing float c -> (forall a, all_or_nothing float (k a)) ->
  all_or_nothing float (bind c k).
Proof.
  intros Hc Hk p Hd Hs. unfold bind. destruct (Hc p) as [Hd1 Hs1].
  destruct (c p) as [[a | e |] p1]; cbn [fst snd] in *.
  - apply Hk; congruence.
  - right. repeat split; [discriminate | congruence | congruence].
  - right. repeat split; [discriminate | congruence | congruence].
Qed.

(** Lines 141-146 always run to their end: one file, one round of
    windows. *)
Lemma all_or_nothing_generar :
  all_or_nothing float Terminal.generar_imagen_y_mostrar.
Proof.
  intros [i o pl n d sh] Hd Hs. cbn [Terminal.disk Terminal.shown] in Hd, Hs.
  subst d sh. left.
  unfold Terminal.generar_imagen_y_mostrar, Terminal.plt_savefig,
    Terminal.plt_show, Terminal.pyplot, zoom, plt_gcf, bind, gets, modify.
  cbn [Terminal.now Terminal.plt fst snd].
  destruct (rev (open_figs pl)); repeat split.
Qed.

Lemma all_or_nothing_main : all_or_nothing float (Terminal.main rp rp_Flight).
Proof.
  unfold Terminal.main, Terminal.graficar.
  apply all_or_nothing_bind; [apply writes_nothing_entrada | intro u].
  apply all_or_nothing_bind; [apply writes_nothing_configuracion | intro fl].
  apply all_or_nothing_bind; [apply writes_nothing_resultados | intro a].
  apply all_or_nothing_bind; [apply writes_nothing_graficas_2d | intros _].
  apply all_or_nothing_bind; [apply writes_nothing_grafica_3d | intros _].
  apply all_or_nothing_generar.
Qed.

(** Lines 98-114 when reading the results fails. *)
Lemma resultados_errors (flight : Terminal.Flight float)
    (p : Terminal.Process float) :
  (forall ap e,
     Terminal.apogee flight = Val ap ->
     Terminal.solution_array flight = Err e ->
     Terminal.resultados flight p
     = (Exit,
        after_reading 0 (results_screen ap ++ access_error_screen e)%list p))
  /\ (forall e,
        Terminal.apogee flight = Err e ->
        Terminal.resultados flight p
        = (Raise e,
           after_reading 0
             [ Printed "Ejecutando simulación con los parámetros ingresados...";
               Printed (newline ++ "Simulación completada. Accediendo a resultados...") ]
             p)).
Proof.
  destruct p as [i o pl n d sh]. split.
  - intros ap e Hap Ha. unfold Terminal.resultados. rewrite Hap, Ha.
    unfold after_reading, results_screen, access_error_screen.
    cbn [skipn Terminal.stdin Terminal.stdout Terminal.plt Terminal.now
         Terminal.disk Terminal.shown].
    do 2 erewrite bind_ok by apply terminal_print_mk.
    rewrite bind_val.
    erewrite bind_ok by apply terminal_print_mk.
    unfold try_except. rewrite bind_err.
    do 2 erewrite bind_ok by apply terminal_print_mk.
    unfold sys_exit. now rewrite <- !app_assoc.
  - intros e Hap. unfold Terminal.resultados. rewrite Hap.
    unfold after_reading.
    cbn [skipn Terminal.stdin Terminal.stdout Terminal.plt Terminal.now
         Terminal.disk Terminal.shown].
    do 2 erewrite bind_ok by apply terminal_print_mk.
    rewrite bind_err. now rewrite <- !app_assoc.
Qed.
End TerminalRuns.

Section TerminalAssembly.
Context {float : Type} {H : PyFloat float}.
Variable rp : RocketPy float.
Variable rp_Flight : kwargs float -> Exc (Terminal.Flight float).

End TerminalAssembly.

(** ** Further properties of the terminal script *)

(** X4.  Lines 43-96 only ask the engine: they leave the process as it is
    and never exit; and an exception that the engine raises there is
    caught by nothing: the script ends with that exception, in the state
    the prompts left. *)
Theorem engine_errors_end_the_script {float : Type} {H : PyFloat float}
    (rp : RocketPy float)
    (rp_Flight : kwargs float -> Exc (Terminal.Flight float)) :
  (forall u p,
     snd (Terminal.configuracion rp rp_Flight u p) = p
     /\ fst (Terminal.configuracion rp rp_Flight u p) <> Exit)
  /\ (forall p0 u p e,
        Terminal.entrada_del_usuario p0 = (Ok u, p) ->
        fst (Terminal.configuracion rp rp_Flight u p) = Raise e ->
        Terminal.main rp rp_Flight p0 = (Raise e, p)).
Proof.
  split.
  - intros u p. apply configuracion_only_asks.
  - intros p0 u p e Hin Hraise. unfold Terminal.main.
    erewrite bind_ok by exact Hin.
    destruct (configuracion_only_asks rp rp_Flight u p) as [Hsame _].
    destruct (Terminal.configuracion rp rp_Flight u p) as [r p1] eqn:Hrun.
    cbn [fst snd] in *. subst r p1.
    now erewrite bind_raise by exact Hrun.
Qed.

Lemma engine_errors_end_the_script_witness :
  let p0 := Terminal.start (repeat EmptyString 8) clock0 in
  @Terminal.main Q QFloat (failing_at "rp.SolidMotor" engine_failure)
    (fun _ => Val (terminal_flight (sample 2 7))) p0
  = (Raise engine_failure, after_reading 8 intake_screen p0).
Proof.
  intro p0.
  apply (proj2 (@engine_errors_end_the_script Q QFloat
                  (failing_at "rp.SolidMotor" engine_failure)
                  (fun _ => Val (terminal_flight (sample 2 7))))
           p0 default_inputs (after_reading 8 intake_screen p0)
           engine_failure).
  - reflexivity.
  - reflexivity.
Defined.

(** X5.  When the solution cannot be read (line 106 raises), the script
    prints the two lines of the [except] clause, the first with the text of
    the exception, and exits; pyplot is not touched.  When the apogee
    cannot be read (line 103, outside the [try]), the exception ends the
    script. *)
Theorem unreadable_results {float : Type} {H : PyFloat float}
    (flight : Terminal.Flight float) (p : Terminal.Process float) :
  (forall ap e,
     Terminal.apogee flight = Val ap ->
     Terminal.solution_array flight = Err e ->
     Terminal.resultados flight p
     = (Exit,
        after_reading 0 (results_screen ap ++ access_error_screen e)%list p))
  /\ (forall e,
        Terminal.apogee flight = Err e ->
        fst (Terminal.resultados flight p) = Raise e
        /\ Terminal.plt (snd (Terminal.resultados flight p))
           = Terminal.plt p).
Proof.
  destruct (resultados_errors flight p) as [Hexit Hraise]. split.
  - exact Hexit.
  - intros e Hap. now rewrite (Hraise e Hap).
Qed.

Lemma unreadable_results_witness :
  let broken := mkExn (OtherError "TypeError") "bad solution" EmptyString in
  let p0 := Terminal.start [] clock0 in
  Terminal.resultados (@Terminal.mkFlight Q (Val 100%Q) (Err broken)) p0
  = (Exit,
     Terminal.mkProcess []
       [ Printed "Ejecutando simulación con los parámetros ingresados...";
         Printed (newline ++ "Simulación completada. Accediendo a resultados...");
         Printed "Altitud Máxima (Apogeo) alcanzada: 100.00 m";
         Printed (newline ++ "ERROR al acceder a los resultados de la simulación: bad solution");
         Printed "Puede que necesite llamar a flight.post_process() después de crear el objeto Flight." ]
       no_figures clock0 [] [])
  /\ fst (Terminal.resultados (@Terminal.mkFlight Q (Err broken) (Val (sample 2 7)))
            p0)
     = Raise broken.
Proof.
  intros broken p0. split.
  - exact (proj1 (@unreadable_results Q QFloat
                    (@Terminal.mkFlight Q (Val 100%Q) (Err broken)) p0)
             100%Q broken eq_refl eq_refl).
  - exact (proj1 (proj2 (@unreadable_results Q QFloat
                           (@Terminal.mkFlight Q (Err broken)
                              (Val (sample 2 7))) p0)
                    broken eq_refl)).
Defined.

(** X6.  Whatever is typed and whatever the engine does, the script either
    runs to its end, and then it has written exactly one file and opened
    one round of windows, or it ends otherwise (an exception or [exit()])
    and then it has written no file and opened no window. *)
Theorem image_only_after_a_complete_run {float : Type} {H : PyFloat float}
    (rp : RocketPy float)
    (rp_Flight : kwargs float -> Exc (Terminal.Flight float))
    (lines : list string) (clock : datetime) :
  let r := Terminal.main rp rp_Flight (Terminal.start lines clock) in
  (fst r = Ok tt
   /\ length (Terminal.disk (snd r)) = 1
   /\ length (Terminal.shown (snd r)) = 1)
  \/ (fst r <> Ok tt
      /\ Terminal.disk (snd r) = [] /\ Terminal.shown (snd r) = []).
Proof.
  apply (all_or_nothing_main rp rp_Flight (Terminal.start lines clock));
    reflexivity.
Qed.



(** ** The name of the image file *)

Lemma append_inj (a a' b b' : string) :
  String.length a = String.length a' ->
  a ++ b = a' ++ b' -> a = a' /\ b = b'.
Proof.
  revert a'. induction a as [| c a IH]; intros [| c' a'] Hlen Heq;
    try discriminate Hlen.
  - now split.
  - cbn in Hlen, Heq. injection Hlen as Hlen. injection Heq as -> Heq.
    destruct (IH a' Hlen Heq) as [-> ->]. now split.
Qed.

Lemma length_append (a b : string) :
  String.length (a ++ b) = String.length a + String.length b.
Proof. induction a as [| c a IH]; cbn; [reflexivity | now rewrite IH]. Qed.

Lemma dec_inj (n m : nat) : dec n = dec m -> n = m.
Proof.
  unfold dec. intro Heq. apply DecimalNat.Unsigned.to_uint_inj.
  assert (Hnn : forall k, Nat.to_uint k <> Decimal.Nil).
  { intro k. rewrite <- (DecimalNat.Unsigned.of_to k), DecimalNat.Unsigned.to_of.
    apply DecimalFacts.unorm_nonnil. }
  pose proof (NilZero.usu (Nat.to_uint n) (Hnn n)) as Hn.
  pose proof (NilZero.usu (Nat.to_uint m) (Hnn m)) as Hm.
  rewrite Heq, Hm in Hn. now injection Hn.
Qed.

Lemma to_little_uint_add (n k : nat) (acc : Decimal.uint) :
  Nat.to_little_uint (n + k) acc
  = Nat.to_little_uint k (Nat.to_little_uint n acc).
Proof.
  revert acc. induction n as [| n IH]; intro acc; [reflexivity|].
  cbn [Nat.add Nat.to_little_uint]. apply IH.
Qed.

Lemma four_digits_from_spec (count : nat) :
  forall (u : Decimal.uint) (k : nat),
    four_digits_from count u = true -> k < count ->
    numeral 4
      (NilZero.string_of_uint (Decimal.rev (Nat.to_little_uint k u))).
Proof.
  induction count as [| c IH]; intros u k Hall Hk; [lia|].
  cbn [four_digits_from] in Hall.
  apply andb_prop in Hall as [Hhead Htail].
  apply andb_prop in Hhead as [Hlen Hdig].
  destruct k as [| k].
  - split; [now apply Nat.eqb_eq | exact Hdig].
  - cbn [Nat.to_little_uint]. apply IH; [exact Htail | lia].
Qed.

Lemma year_numeral (n : nat) : 1000 <= n < 10 * 1000 -> numeral 4 (dec n).
Proof.
  intro Hn. replace n with (1000 + (n - 1000)) by lia.
  unfold dec, Nat.to_uint. rewrite to_little_uint_add.
  apply (four_digits_from_spec (9 * 1000)); [| lia].
  vm_compute. reflexivity.
Qed.

Lemma pad2_numeral (n : nat) : n < 100 -> numeral 2 (pad2 n).
Proof.
  intro Hn.
  assert (Hall : forallb (fun k =>
                   (String.length (pad2 k) =? 2)%nat && all_digits (pad2 k))
                   (seq 0 100) = true) by (vm_compute; reflexivity).
  rewrite forallb_forall in Hall.
  specialize (Hall n ltac:(apply in_seq; lia)).
  apply andb_prop in Hall as [Hlen Hdig].
  split; [now apply Nat.eqb_eq | exact Hdig].
Qed.

Lemma pad2_inj (n m : nat) : n < 100 -> m < 100 -> pad2 n = pad2 m -> n = m.
Proof.
  intros Hn Hm Heq.
  assert (Hall : forallb (fun a =>
                   forallb (fun b =>
                     implb (String.eqb (pad2 a) (pad2 b)) (a =? b)%nat)
                     (seq 0 100)) (seq 0 100) = true)
    by (vm_compute; reflexivity).
  rewrite forallb_forall in Hall.
  specialize (Hall n ltac:(apply in_seq; lia)).
  rewrite forallb_forall in Hall.
  specialize (Hall m ltac:(apply in_seq; lia)).
  rewrite Heq, String.eqb_refl in Hall. now apply Nat.eqb_eq.
Qed.

(** Lines 142-143 add one file to the disk, named by the clock. *)
Lemma image_name_run {float : Type} {H : PyFloat float}
    (p : Terminal.Process float) :
  image_name p = strftime_Ymd_HMS (Terminal.now p) ++ ".png".
Proof.
  unfold image_name, Terminal.generar_imagen_y_mostrar, Terminal.plt_savefig,
    Terminal.plt_show, Terminal.pyplot, zoom, plt_gcf, plt_figure.
  destruct p as [i o [figs op] n d sh].
  unfold bind, gets, modify. cbn [Terminal.now Terminal.plt open_figs].
  destruct (rev op); cbn; rewrite map_app; apply last_last.
Qed.

(** X8.  The image file is named after the date and time that line 142
    reads from the clock, to the second: for a year of four digits the
    name is [YYYYMMDD_HHMMSS.png], every field of fixed width, and two
    runs write files of the same name exactly when the readings agree in
    all six fields.  Nothing but the reading enters the name. *)
Theorem image_name_tells_the_second {float : Type} {H : PyFloat float} :
  (forall p : Terminal.Process float,
     calendar (Terminal.now p) ->
     stamped (image_name p) /\ String.length (image_name p) = 19)
  /\ (forall p1 p2 : Terminal.Process float,
        calendar (Terminal.now p1) -> calendar (Terminal.now p2) ->
        image_name p1 = image_name p2 ->
        Terminal.now p1 = Terminal.now p2)
  /\ (forall p1 p2 : Terminal.Process float,
        Terminal.now p1 = Terminal.now p2 ->
        image_name p1 = image_name p2).
Proof.
  split; [| split];
    [| | intros p1 p2 Hnow; rewrite !image_name_run; now rewrite Hnow].
  - intros p (Hy & Hmo & Hd & Hh & Hmi & Hs). rewrite image_name_run.
    unfold strftime_Ymd_HMS.
    pose proof (year_numeral _ Hy) as HY.
    pose proof (pad2_numeral (month (Terminal.now p)) ltac:(lia)) as HM.
    pose proof (pad2_numeral (day (Terminal.now p)) ltac:(lia)) as HD.
    pose proof (pad2_numeral (hour (Terminal.now p)) ltac:(lia)) as Hh'.
    pose proof (pad2_numeral (minute (Terminal.now p)) ltac:(lia)) as Hm'.
    pose proof (pad2_numeral (second (Terminal.now p)) ltac:(lia)) as Hs'.
    split.
    + exists (dec (year (Terminal.now p))), (pad2 (month (Terminal.now p))),
        (pad2 (day (Terminal.now p))), (pad2 (hour (Terminal.now p))),
        (pad2 (minute (Terminal.now p))), (pad2 (second (Terminal.now p))).
      rewrite !append_assoc. cbn [append].
      exact (conj eq_refl
               (conj HY (conj HM (conj HD (conj Hh' (conj Hm' Hs')))))).
    + rewrite !length_append.
      rewrite (proj1 HY), (proj1 HM), (proj1 HD), (proj1 Hh'), (proj1 Hm'),
        (proj1 Hs').
      reflexivity.
  - intros p1 p2 (Hy1 & Hmo1 & Hd1 & Hh1 & Hmi1 & Hs1)
      (Hy2 & Hmo2 & Hd2 & Hh2 & Hmi2 & Hs2).
    rewrite !image_name_run. unfold strftime_Ymd_HMS.
    destruct (Terminal.now p1) as [y1 mo1 d1 h1 mi1 s1].
    destruct (Terminal.now p2) as [y2 mo2 d2 h2 mi2 s2].
    cbn [year month day hour minute second] in *.
    rewrite !append_assoc. intro Heq.
    apply append_inj in Heq as [Ey Heq];
      [| now rewrite (proj1 (year_numeral y1 Hy1)),
                     (proj1 (year_numeral y2 Hy2))].
    apply append_inj in Heq as [Emo Heq];
      [| now rewrite (proj1 (pad2_numeral mo1 ltac:(lia))),
                     (proj1 (pad2_numeral mo2 ltac:(lia)))].
    apply append_inj in Heq as [Ed Heq];
      [| now rewrite (proj1 (pad2_numeral d1 ltac:(lia))),
                     (proj1 (pad2_numeral d2 ltac:(lia)))].
    apply append_inj in Heq as [_ Heq]; [| reflexivity].
    apply append_inj in Heq as [Eh Heq];
      [| now rewrite (proj1 (pad2_numeral h1 ltac:(lia))),
                     (proj1 (pad2_numeral h2 ltac:(lia)))].
    apply append_inj in Heq as [Emi Heq];
      [| now rewrite (proj1 (pad2_numeral mi1 ltac:(lia))),
                     (proj1 (pad2_numeral mi2 ltac:(lia)))].
    apply append_inj in Heq as [Es _];
      [| now rewrite (proj1 (pad2_numeral s1 ltac:(lia))),
                     (proj1 (pad2_numeral s2 ltac:(lia)))].
    apply dec_inj in Ey.
    apply pad2_inj in Emo, Ed, Eh, Emi, Es; try lia.
    now subst.
Qed.

Lemma image_name_tells_the_second_witness :
  let p := @Terminal.start Q [] (mkDatetime 2025 5 3 9 7 0) in
  calendar (Terminal.now p)
  /\ image_name p = "20250503_090700.png"
  /\ String.length (image_name p) = 19.
Proof.
  intro p.
  assert (Hc : calendar (Terminal.now p)) by (cbv; repeat split; lia).
  split; [exact Hc | split; [reflexivity|]].
  exact (proj2 (proj1 (@image_name_tells_the_second Q QFloat) p Hc)).
Defined.

(** ** Further properties of the web view *)

Lemma bind_ok_inv {S A B} (c : M S A) (k : A -> M S B) (s s' : S) (b : B) :
  bind c k s = (Ok b, s') ->
  exists a s1, c s = (Ok a, s1) /\ k a s1 = (Ok b, s').
Proof.
  unfold bind. destruct (c s) as [[a | e |] s1]; try discriminate.
  intro Hk. now exists a, s1.
Qed.

Section ServerRuns.
Context {float : Type} {H : PyFloat float}.
Variables (png : Figure float -> string) (b64encode : string -> string).


Lemma altitude_lines_short (a : Server.Attrs float) (m : Matrix float) :
  Server.z_plot a = None -> 1 <= ncols m <= 3 ->
  altitude_lines a m = Err (index_error 3 (ncols m)).
Proof.
  intros Hz Hn. unfold altitude_lines. rewrite Hz.
  now rewrite (column_inside m 0), (column_outside m 3) by lia.
Qed.


(** Lines 119-139 when line 123 finds no solution to plot and
    [post_process] brings one. *)
Lemma graficar_retry (flight : Server.Flight float) (a' : Server.Attrs float)
    (m' : Matrix float) (ap : float) (s : Server.Server float) :
  Server.apogee (Server.attrs flight) = Val ap ->
  Server.sin_resultados (Server.attrs flight) = true ->
  Server.post_process flight = Some (Val a') ->
  Server.solution a' = Some m' -> 1 < nrows m' -> 1 <= ncols m' ->
  Server.graficar png b64encode flight s
  = Server.generar_graficas png b64encode a' m'
      (Server.mkServer
         (Server.stdout s
          ++ [ ("Altitud Máxima (Apogeo) alcanzada: " ++ format_2f ap
                ++ " m")%string;
               "Intentando flight.post_process() explícitamente..." ])%list
         (Server.plt s) (Server.now s)).
Proof.
  intros Hap H1 Hpp Hsol Hr Hc. unfold Server.graficar.
  rewrite Hap, bind_val.
  erewrite bind_ok by apply print_run.
  rewrite H1, Hpp. rewrite !bind_bind.
  erewrite bind_ok by apply print_run.
  rewrite bind_val.
  unfold Server.sin_resultados at 1. rewrite Hsol.
  destruct (Nat.leb_spec (nrows m') 1) as [Hle | _]; [lia|].
  rewrite bind_ret, Hsol.
  destruct (Nat.eqb_spec (size m') 0) as [E | _].
  - unfold size in E. destruct (nrows m'), (ncols m'); cbn in E; lia.
  - cbn [orb]. destruct (Nat.leb_spec (nrows m') 1) as [Hle | _]; [lia|].
    cbn [Server.stdout Server.plt Server.now].
    now rewrite <- app_assoc.
Qed.

Lemma graficar_retry_fails (flight : Server.Flight float) (e : exn)
    (ap : float) (s : Server.Server float) :
  Server.apogee (Server.attrs flight) = Val ap ->
  Server.sin_resultados (Server.attrs flight) = true ->
  Server.post_process flight = Some (Err e) ->
  Server.graficar png b64encode flight s
  = (Raise e,
     Server.mkServer
       (Server.stdout s
        ++ [ ("Altitud Máxima (Apogeo) alcanzada: " ++ format_2f ap
              ++ " m")%string;
             "Intentando flight.post_process() explícitamente..." ])%list
       (Server.plt s) (Server.now s)).
Proof.
  intros Hap H1 Hpp. unfold Server.graficar.
  rewrite Hap, bind_val.
  erewrite bind_ok by apply print_run.
  rewrite H1, Hpp. rewrite !bind_bind.
  erewrite bind_ok by apply print_run.
  cbn [Server.stdout Server.plt Server.now].
  rewrite bind_err. now rewrite <- app_assoc.
Qed.

(** Line 131 when the apogee cannot be read after the retry. *)
Lemma graficar_no_apogee (flight : Server.Flight float)
    (a' : Server.Attrs float) (ap : float) (e : exn)
    (s : Server.Server float) :
  Server.apogee (Server.attrs flight) = Val ap ->
  Server.sin_resultados (Server.attrs flight) = true ->
  after_post_process flight = Val a' ->
  Server.sin_resultados a' = true ->
  Server.apogee a' = Err e ->
  exists s',
    Server.graficar png b64encode flight s
    = (match exc_type e with
       | AttributeError => Ok (sin_resultados_graficables "No disponible")
       | _ => Raise e
       end, s')
    /\ Server.plt s' = Server.plt s.
Proof.
  intros Hap H1 Hpp H2 Hap'. unfold Server.graficar.
  rewrite Hap, bind_val.
  erewrite bind_ok by apply print_run.
  rewrite H1. unfold after_post_process in Hpp.
  destruct (Server.post_process flight) as [processed |].
  - subst processed. rewrite !bind_bind.
    erewrite bind_ok by apply print_run.
    rewrite bind_val, H2, Hap'. rewrite !bind_bind.
    erewrite bind_ok by apply print_run.
    unfold Server.hasattr.
    destruct (exc_type e); eexists; split; reflexivity.
  - injection Hpp as <-. rewrite !bind_bind, bind_ret, H2, Hap'.
    rewrite !bind_bind.
    erewrite bind_ok by apply print_run.
    unfold Server.hasattr.
    destruct (exc_type e); eexists; split; reflexivity.
Qed.

Lemma generar_graficas_ok_inv (a : Server.Attrs float) (m : Matrix float)
    (s s' : Server.Server float) (html : string) :
  Server.generar_graficas png b64encode a m s = (Ok html, s') ->
  exists ap rest,
    Server.apogee a = Val ap /\ html = simulacion_completada ap ++ rest.
Proof.
  unfold Server.generar_graficas. intro Hrun.
  apply bind_ok_inv in Hrun as (_ & s1 & _ & Hrun).
  destruct (Server.apogee a) as [ap | e]; [| discriminate Hrun].
  rewrite bind_val in Hrun.
  apply bind_ok_inv in Hrun as (altitud & s2 & _ & Hrun).
  apply bind_ok_inv in Hrun as (trayectoria & s3 & _ & Hrun).
  apply bind_ok_inv in Hrun as (_ & s4 & _ & Hrun).
  assert (Hhtml : html = (simulacion_completada ap ++ altitud) ++ trayectoria)
    by (unfold ret in Hrun; unfold simulacion_completada; congruence).
  exists ap, (altitud ++ trayectoria). split; [reflexivity|].
  rewrite Hhtml. apply append_assoc.
Qed.

(** Lines 141-184 fail only where the apogee is read or the altitude is
    drawn. *)
Lemma generar_graficas_cases (a : Server.Attrs float) (m : Matrix float)
    (s : Server.Server float) :
  registry_ok (Server.plt s) ->
  match fst (Server.generar_graficas png b64encode a m s) with
  | Ok _ => exists ap ls,
      Server.apogee a = Val ap /\ altitude_lines a m = Val ls
  | Raise e => Server.apogee a = Err e \/ altitude_lines a m = Err e
  | Exit => False
  end.
Proof.
  intro Hok. destruct s as [out [figs o] now].
  cbn [Server.plt figures open_figs] in Hok.
  unfold Server.generar_graficas.
  erewrite bind_ok by apply print_run.
  destruct (Server.apogee a) as [ap | e];
    [rewrite bind_val | rewrite bind_err; now left].
  cbn [Server.stdout Server.plt Server.now].
  destruct (altitude_lines a m) as [ls | e] eqn:Els.
  - erewrite bind_ok by (apply grafica_2d_run; [exact Els | exact Hok]).
    destruct (Nat.ltb_spec 3 (ncols m)) as [Hn | Hn].
    + erewrite bind_ok
        by (apply grafica_3d_run; [exact Hn | apply registry_ok_grows, Hok]).
      erewrite bind_ok by apply print_run. now exists ap, ls.
    + erewrite bind_ok by (apply grafica_3d_skipped, Hn).
      erewrite bind_ok by apply print_run. now exists ap, ls.
  - erewrite bind_raise by (apply grafica_2d_error; exact Els).
    now right.
Qed.

(** A request whose altitude chart fails. *)
Lemma failed_altitude_run (flight : Server.Flight float) (m : Matrix float)
    (ap : float) (e : exn) (s : Server.Server float) :
  Server.solution (Server.attrs flight) = Some m ->
  1 < nrows m -> 1 <= ncols m ->
  Server.apogee (Server.attrs flight) = Val ap ->
  altitude_lines (Server.attrs flight) m = Err e ->
  try_except (Server.graficar png b64encode flight)
    Server.error_en_la_simulacion s
  = (Ok (error_fragment e),
     Server.mkServer
       (Server.stdout s
        ++ [ ("Altitud Máxima (Apogeo) alcanzada: " ++ format_2f ap
              ++ " m")%string;
             "Generando gráficas..." ] ++ error_log e)%list
       (mkPyplot (figures (Server.plt s) ++ [empty_altitude_figure])
          (open_figs (Server.plt s) ++ [length (figures (Server.plt s))]))
       (Server.now s)).
Proof.
  intros Hsol Hr Hc Hap Hls. destruct s as [out [figs o] now].
  erewrite handler_run.
  2:{ rewrite (graficar_passes_guards png b64encode flight m ap _ Hsol Hr Hc
                 Hap).
      unfold Server.generar_graficas.
      erewrite bind_ok by apply print_run.
      rewrite Hap, bind_val.
      cbn [Server.stdout Server.plt Server.now].
      erewrite bind_raise by (apply grafica_2d_error; exact Hls).
      reflexivity. }
  cbn [Server.stdout Server.plt Server.now figures open_figs].
  unfold error_log. now rewrite <- !app_assoc.
Qed.
End ServerRuns.

Section ServerGuards.
Context {float : Type} {H : PyFloat float}.
Variables (png : Figure float -> string) (b64encode : string -> string).

(** Lines 136-184 on attributes that passed line 123 or line 129. *)
Lemma after_the_guards_inv (a : Server.Attrs float)
    (s s' : Server.Server float) (html : string) :
  Server.sin_resultados a = false ->
  (match Server.solution a with
   | None => raise Server.none_has_no_source_raw
   | Some solution_array =>
       if ((size solution_array =? 0) || (nrows solution_array <=? 1))%nat
       then bind (ext (Server.apogee a)) (fun ap =>
              ret (sin_resultados_validos ap))
       else Server.generar_graficas png b64encode a solution_array
   end) s = (Ok html, s') ->
  (exists m ap,
     Server.solution a = Some m /\ 1 < nrows m /\ ncols m = 0
     /\ Server.apogee a = Val ap /\ html = sin_resultados_validos ap)
  \/ (exists m ap rest,
        Server.solution a = Some m /\ 1 < nrows m /\ 1 <= ncols m
        /\ Server.apogee a = Val ap
        /\ html = simulacion_completada ap ++ rest).
Proof.
  unfold Server.sin_resultados. intros Hg Hrun.
  destruct (Server.solution a) as [m |]; [| discriminate Hg].
  apply Nat.leb_gt in Hg.
  destruct (Nat.eqb_spec (size m) 0) as [E | E].
  - cbn [orb] in Hrun. left.
    destruct (Server.apogee a) as [ap | e]; [| discriminate Hrun].
    rewrite bind_val in Hrun. exists m, ap.
    repeat split; try assumption.
    + unfold size in E. destruct (ncols m); [reflexivity | nia].
    + unfold ret in Hrun. congruence.
  - cbn [orb] in Hrun.
    destruct (Nat.leb_spec (nrows m) 1) as [Hle | _]; [lia|].
    right.
    destruct (generar_graficas_ok_inv png b64encode a m s s' html Hrun)
      as (ap & rest & Hap & Hhtml).
    exists m, ap, rest. repeat split; try assumption.
    unfold size in E. destruct (ncols m); lia.
Qed.

Lemma requests_leak (c : M (Server.Server float) string) (n : nat) :
  (forall s,
     length (open_figs (Server.plt (snd (c s))))
     = Datatypes.S (length (open_figs (Server.plt s)))) ->
  forall s,
    length (open_figs (Server.plt (requests n c s)))
    = length (open_figs (Server.plt s)) + n.
Proof.
  intro Hone. induction n as [| n IH]; intro s; cbn [requests].
  - now rewrite Nat.add_0_r.
  - rewrite IH, Hone. lia.
Qed.
End ServerGuards.

Section ServerRoute.
Context {float : Type} {H : PyFloat float}.
Variables (rp : RocketPy float)
    (rp_attr_text : pyval float -> string -> Exc string).

(** Lines 57-118 end before the call of [rp.Flight]. *)
Lemma configurar_y_simular_ignores_flight
    (rp_Flight rp_Flight' : kwargs float -> Exc (Server.Flight float))
    (i h r m d b t e : float) (s : Server.Server float) :
  Server.configurar_y_simular rp rp_attr_text rp_Flight i h r m d b t e s
  = Server.configurar_y_simular rp rp_attr_text rp_Flight' i h r m d b t e s.
Proof.
  unfold Server.configurar_y_simular.
  unfold bind, ext, gets, Server.print, modify, Server.load_global, raise,
    ret.
  cbn.
  destruct (rp "rp.Environment" _ _) as [env | err]; [| reflexivity].
  destruct (rp "Environment.set_date" _ _) as [v1 | err]; [| reflexivity].
  destruct (rp "Environment.set_atmospheric_model" _ _) as [v2 | err];
    [| reflexivity].
  destruct (rp "rp.SolidMotor" _ _) as [motor | err]; [| reflexivity].
  destruct (rp_attr_text motor "tag") as [tag | err]; [| reflexivity].
  destruct (rp_attr_text motor "burnOutTime") as [burn_out | err];
    reflexivity.
Qed.

Lemma ejecutar_ignores_flight
    (rp_Flight rp_Flight' : kwargs float -> Exc (Server.Flight float))
    (png png' : Figure float -> string) (b64encode b64encode' : string -> string)
    (s : Server.Server float) :
  Server.ejecutar_simulacion_y_graficar rp rp_attr_text rp_Flight png
    b64encode s
  = Server.ejecutar_simulacion_y_graficar rp rp_attr_text rp_Flight' png'
      b64encode' s.
Proof.
  unfold Server.ejecutar_simulacion_y_graficar.
  destruct (configurar_y_simular_raises rp rp_attr_text rp_Flight
              Server.default_inclination Server.default_heading
              Server.default_rail_length Server.default_cansat_mass
              Server.default_drag_coeff Server.default_burn_time
              Server.default_avg_thrust Server.default_elevation
              (Server.mkServer
                 (Server.stdout s
                  ++ ["--- Iniciando simulación con valores por defecto ---"])
                 (Server.plt s) (Server.now s)))
    as (e & s1 & Hraise & _).
  pose proof Hraise as Hraise'.
  rewrite (configurar_y_simular_ignores_flight rp_Flight rp_Flight')
    in Hraise'.
  transitivity (Server.error_en_la_simulacion e s1).
  - erewrite bind_ok by apply print_run.
    unfold try_except. now erewrite bind_raise by exact Hraise.
  - symmetry. erewrite bind_ok by apply print_run.
    unfold try_except. now erewrite bind_raise by exact Hraise'.
Qed.

(** Lines 31-190 when the engine answers every call up to line 88. *)
Lemma ejecutar_name_error
    (rp_Flight : kwargs float -> Exc (Server.Flight float))
    (png : Figure float -> string) (b64encode : string -> string)
    (s : Server.Server float) (env x1 x2 motor : pyval float)
    (tag burn_out : string) :
  rp "rp.Environment" [] (environment_kwargs Server.default_elevation)
    = Val env ->
  rp "Environment.set_date" [env; VDatetime (Server.now s)]
    [("timezone", VStr "America/Tijuana")] = Val x1 ->
  rp "Environment.set_atmospheric_model" [env]
    [("type", VStr "standard_atmosphere")] = Val x2 ->
  rp "rp.SolidMotor" []
    (Server.GasMotor Server.default_avg_thrust Server.default_burn_time)
    = Val motor ->
  rp_attr_text motor "tag" = Val tag ->
  rp_attr_text motor "burnOutTime" = Val burn_out ->
  Server.ejecutar_simulacion_y_graficar rp rp_attr_text rp_Flight png
    b64encode s
  = (Ok (error_fragment inertia_is_not_defined),
     Server.mkServer
       (Server.stdout s
        ++ [ "--- Iniciando simulación con valores por defecto ---";
             "Configurando entorno...";
             "Entorno configurado.";
             "Definiendo motor...";
             ("Motor '" ++ tag ++ "' creado con tiempo de quemado: "
              ++ burn_out ++ "s")%string;
             "Definiendo CanSat (Rocket)..." ]
        ++ error_log inertia_is_not_defined)%list
       (Server.plt s) (Server.now s)).
Proof.
  unfold environment_kwargs. intros H1 H2 H3 H4 H5 H6.
  unfold Server.ejecutar_simulacion_y_graficar.
  erewrite bind_ok by apply print_run.
  erewrite handler_run.
  2:{ erewrite bind_raise; [reflexivity|].
      unfold Server.configurar_y_simular.
      erewrite bind_ok by apply print_run.
      rewrite H1, bind_val.
      unfold bind at 1. unfold gets. cbn [Server.now].
      rewrite H2, bind_val, H3, bind_val.
      do 2 erewrite bind_ok by apply print_run.
      rewrite H4, bind_val, H5, bind_val, H6, bind_val.
      do 2 erewrite bind_ok by apply print_run.
      reflexivity. }
  cbn [Server.stdout Server.plt Server.now].
  unfold error_log. now rewrite <- !app_assoc.
Qed.
End ServerRoute.




(** X10.  When line 123 finds at most one row and the flight has
    [post_process], line 127 calls it.  If the call raises, the exception
    leaves lines 119-184 with pyplot untouched.  If it returns, line 129
    and everything after read the flight as the call left it: the report
    shows the apogee and the charts of the processed flight, while the
    apogee printed at line 120 is the earlier one. *)
Theorem post_process_is_retried {float : Type} {H : PyFloat float}
    (png : Figure float -> string) (b64encode : string -> string)
    (flight : Server.Flight float) (ap : float) (s : Server.Server float) :
  Server.apogee (Server.attrs flight) = Val ap ->
  Server.sin_resultados (Server.attrs flight) = true ->
  let said :=
    (Server.stdout s
     ++ [ ("Altitud Máxima (Apogeo) alcanzada: " ++ format_2f ap
           ++ " m")%string;
          "Intentando flight.post_process() explícitamente..." ])%list in
  (forall e,
     Server.post_process flight = Some (Err e) ->
     Server.graficar png b64encode flight s
     = (Raise e, Server.mkServer said (Server.plt s) (Server.now s)))
  /\ (forall a' m' ap' ls,
        Server.post_process flight = Some (Val a') ->
        Server.solution a' = Some m' -> 1 < nrows m' -> 3 < ncols m' ->
        Server.apogee a' = Val ap' ->
        altitude_lines a' m' = Val ls ->
        registry_ok (Server.plt s) ->
        Server.graficar png b64encode flight s
        = (Ok ((simulacion_completada ap'
                ++ img_altitud (b64encode (png (altitude_figure ls))))
               ++ img_trayectoria
                    (b64encode
                       (png (trajectory3d_figure (col m' 1) (col m' 2)
                               (col m' 3))))),
           Server.mkServer
             (said
              ++ [ "Generando gráficas...";
                   "--- Simulación y graficación finalizadas exitosamente. ---" ])%list
             (mkPyplot
                ((figures (Server.plt s) ++ [altitude_figure ls])
                 ++ [trajectory3d_figure (col m' 1) (col m' 2) (col m' 3)])
                (open_figs (Server.plt s)))
             (Server.now s))).
Proof.
  intros Hap H1 said. split.
  - intros e Hpp.
    exact (graficar_retry_fails png b64encode flight e ap s Hap H1 Hpp).
  - intros a' m' ap' ls Hpp Hsol Hr Hc Hap' Hls Hok.
    rewrite (graficar_retry png b64encode flight a' m' ap s Hap H1 Hpp Hsol
               Hr ltac:(lia)).
    rewrite (generar_graficas_run png b64encode a' m' ap' ls);
      [| exact Hap' | exact Hls | exact Hok ].
    destruct (Nat.ltb_spec 3 (ncols m')); [| lia].
    reflexivity.
Qed.

Lemma post_process_is_retried_witness :
  let r := Server.graficar test_png test_b64 lazy_flight idle in
  fst r
  = Ok ("<h2>Simulación Completada</h2><p>Apogeo (calculado por RocketPy): 120.00 m</p>"
        ++ "<h3>Altitud vs Tiempo</h3><img src='data:image/png;base64,b64(png of 1 panel(s))' alt='Altitud vs Tiempo'>"
        ++ "<h3>Trayectoria 3D</h3><img src='data:image/png;base64,b64(png of 1 panel(s))' alt='Trayectoria 3D'>")
  /\ Server.stdout (snd r)
     = [ "Altitud Máxima (Apogeo) alcanzada: 100.00 m";
         "Intentando flight.post_process() explícitamente...";
         "Generando gráficas...";
         "--- Simulación y graficación finalizadas exitosamente. ---" ].
Proof.
  intro r.
  assert (Hrun := proj2 (@post_process_is_retried Q QFloat test_png test_b64
                           lazy_flight 100%Q idle eq_refl eq_refl)
                    (@Server.mkAttrs Q (Val 120%Q) (Some (sample 3 7)) None)
                    (sample 3 7) 120%Q [altitud_de_columnas (sample 3 7)]
                    eq_refl eq_refl ltac:(cbn; lia) ltac:(cbn; lia)
                    eq_refl eq_refl (Forall_nil _)).
  unfold r. rewrite Hrun. split; vm_compute; reflexivity.
Defined.

(** X11.  Line 131, when the simulation still has at most one row after
    the retry and the apogee can no longer be read: if reading it raises
    [AttributeError], the fragment of line 132 says 'No disponible'; any
    other exception is not caught by [hasattr] and leaves lines 119-184.
    Pyplot is untouched either way. *)
Theorem apogee_after_the_retry {float : Type} {H : PyFloat float}
    (png : Figure float -> string) (b64encode : string -> string)
    (flight : Server.Flight float) (a' : Server.Attrs float) (ap : float)
    (e : exn) (s : Server.Server float) :
  Server.apogee (Server.attrs flight) = Val ap ->
  Server.sin_resultados (Server.attrs flight) = true ->
  after_post_process flight = Val a' ->
  Server.sin_resultados a' = true ->
  Server.apogee a' = Err e ->
  (exc_type e = AttributeError ->
   exists s',
     Server.graficar png b64encode flight s
     = (Ok (sin_resultados_graficables "No disponible"), s')
     /\ Server.plt s' = Server.plt s)
  /\ (exc_type e <> AttributeError ->
      exists s',
        Server.graficar png b64encode flight s = (Raise e, s')
        /\ Server.plt s' = Server.plt s).
Proof.
  intros Hap H1 Hpp H2 Hap'.
  destruct (graficar_no_apogee png b64encode flight a' ap e s Hap H1 Hpp H2
              Hap') as (s' & Hrun & Hplt).
  split; intro Hty; exists s'; (split; [| exact Hplt]); rewrite Hrun.
  - now rewrite Hty.
  - destruct (exc_type e); try reflexivity. now contradiction Hty.
Qed.

Lemma apogee_after_the_retry_witness :
  fst (Server.graficar test_png test_b64 (spent_flight no_apogee) idle)
  = Ok "<p>Error: La simulación no produjo resultados graficables. Apogeo: No disponible</p>"
  /\ fst (Server.graficar test_png test_b64 (spent_flight engine_failure) idle)
     = Raise engine_failure.
Proof.
  split.
  - destruct (proj1 (@apogee_after_the_retry Q QFloat test_png test_b64
                       (spent_flight no_apogee)
                       (@Server.mkAttrs Q (Err no_apogee)
                          (Some (sample 1 7)) None)
                       100%Q no_apogee idle
                       eq_refl eq_refl eq_refl eq_refl eq_refl) eq_refl)
      as (s' & Hrun & _).
    now rewrite Hrun.
  - destruct (proj2 (@apogee_after_the_retry Q QFloat test_png test_b64
                       (spent_flight engine_failure)
                       (@Server.mkAttrs Q (Err engine_failure)
                          (Some (sample 1 7)) None)
                       100%Q engine_failure idle
                       eq_refl eq_refl eq_refl eq_refl eq_refl)
                ltac:(discriminate))
      as (s' & Hrun & _).
    now rewrite Hrun.
Defined.

(** X12.  Every normal return of lines 119-184 is one of three fragments,
    decided by the flight as line 123 reads it or, when line 123 found at
    most one row, as [post_process] leaves it: the fragment of line 132
    when it has no solution or at most one row; the warning of line 139
    when it has more than one row and no column; the report that begins
    with the heading of line 143 when it has more than one row and a
    column.  So the row test of line 138 never decides anything: a flight
    that reaches it has more than one row. *)
Theorem fragments_of_a_normal_return {float : Type} {H : PyFloat float}
    (png : Figure float -> string) (b64encode : string -> string)
    (flight : Server.Flight float) (s s' : Server.Server float)
    (html : string) :
  Server.graficar png b64encode flight s = (Ok html, s') ->
  exists a,
    (a = Server.attrs flight
     \/ (Server.sin_resultados (Server.attrs flight) = true
         /\ after_post_process flight = Val a))
    /\ ((Server.sin_resultados a = true
         /\ exists txt, html = sin_resultados_graficables txt)
        \/ (exists m ap,
              Server.solution a = Some m /\ 1 < nrows m /\ ncols m = 0
              /\ Server.apogee a = Val ap
              /\ html = sin_resultados_validos ap)
        \/ (exists m ap rest,
              Server.solution a = Some m /\ 1 < nrows m /\ 1 <= ncols m
              /\ Server.apogee a = Val ap
              /\ html = simulacion_completada ap ++ rest)).
Proof.
  unfold Server.graficar. intro Hrun.
  destruct (Server.apogee (Server.attrs flight)) as [ap0 | e0] eqn:Hap0;
    [| discriminate Hrun].
  rewrite bind_val in Hrun.
  apply bind_ok_inv in Hrun as (_ & s1 & _ & Hrun).
  apply bind_ok_inv in Hrun as (checked & s2 & Hchk & Hrun).
  destruct (Server.sin_resultados (Server.attrs flight)) eqn:H1.
  - apply bind_ok_inv in Hchk as (a & s3 & Hpp & Hchk).
    assert (Hafter : after_post_process flight = Val a).
    { unfold after_post_process.
      destruct (Server.post_process flight) as [processed |].
      - apply bind_ok_inv in Hpp as (_ & s4 & _ & Hpp).
        destruct processed as [a1 | e1]; [| discriminate Hpp].
        unfold ext, ret in Hpp. congruence.
      - unfold ret in Hpp. congruence. }
    exists a. split; [right; now split|].
    destruct (Server.sin_resultados a) eqn:H2.
    + left. split; [reflexivity|].
      apply bind_ok_inv in Hchk as (_ & s4 & _ & Hchk).
      apply bind_ok_inv in Hchk as (has & s5 & _ & Hchk).
      apply bind_ok_inv in Hchk as (apogee_val & s6 & _ & Hchk).
      exists apogee_val. unfold sin_resultados_graficables.
      unfold ret in Hchk, Hrun.
      injection Hchk as <- _. now injection Hrun as <- _.
    + right. unfold ret in Hchk. injection Hchk as <- <-.
      exact (after_the_guards_inv png b64encode a s3 s' html H2 Hrun).
  - exists (Server.attrs flight). split; [now left|]. right.
    unfold ret in Hchk. injection Hchk as <- <-.
    exact (after_the_guards_inv png b64encode (Server.attrs flight) s1 s'
             html H1 Hrun).
Qed.

Lemma fragments_of_a_normal_return_witness :
  exists a : Server.Attrs Q,
    (a = Server.attrs (server_flight (sample 2 0) None)
     \/ (Server.sin_resultados (Server.attrs (server_flight (sample 2 0) None))
         = true
         /\ after_post_process (server_flight (sample 2 0) None) = Val a))
    /\ ((Server.sin_resultados a = true
         /\ exists txt,
              "<p>ADVERTENCIA: La simulación no produjo resultados válidos. Apogeo: 100.00 m</p>"
              = sin_resultados_graficables txt)
        \/ (exists m ap,
              Server.solution a = Some m /\ 1 < nrows m /\ ncols m = 0
              /\ Server.apogee a = Val ap
              /\ "<p>ADVERTENCIA: La simulación no produjo resultados válidos. Apogeo: 100.00 m</p>"
                 = sin_resultados_validos ap)
        \/ (exists m ap rest,
              Server.solution a = Some m /\ 1 < nrows m /\ 1 <= ncols m
              /\ Server.apogee a = Val ap
              /\ "<p>ADVERTENCIA: La simulación no produjo resultados válidos. Apogeo: 100.00 m</p>"
                 = simulacion_completada ap ++ rest)).
Proof.
  apply (@fragments_of_a_normal_return Q QFloat test_png test_b64
           (server_flight (sample 2 0) None) idle
           (Server.mkServer ["Altitud Máxima (Apogeo) alcanzada: 100.00 m"]
              no_figures clock0)).
  vm_compute. reflexivity.
Defined.

(** X13.  A request whose altitude chart cannot be drawn - the engine's
    plot of [flight.z] raises, or there is none and column 3 is missing -
    is answered with the error fragment, and the figure made at line 146 is
    never closed: each such request leaves one more figure open, so after
    [n] of them [n] more figures are open than before.  Without
    [flight.z.plot] and with one, two or three columns the exception is the
    [IndexError] of column 3. *)
Theorem failed_altitude_chart_leaks_a_figure {float : Type} {H : PyFloat float}
    (png : Figure float -> string) (b64encode : string -> string)
    (flight : Server.Flight float) (m : Matrix float) (ap : float) (e : exn) :
  Server.solution (Server.attrs flight) = Some m ->
  1 < nrows m -> 1 <= ncols m ->
  Server.apogee (Server.attrs flight) = Val ap ->
  altitude_lines (Server.attrs flight) m = Err e ->
  let request :=
    try_except (Server.graficar png b64encode flight)
      Server.error_en_la_simulacion in
  (forall s,
     request s
     = (Ok (error_fragment e),
        Server.mkServer
          (Server.stdout s
           ++ [ ("Altitud Máxima (Apogeo) alcanzada: " ++ format_2f ap
                 ++ " m")%string;
                "Generando gráficas..." ] ++ error_log e)%list
          (mkPyplot (figures (Server.plt s) ++ [empty_altitude_figure])
             (open_figs (Server.plt s) ++ [length (figures (Server.plt s))]))
          (Server.now s)))
  /\ (forall n s,
        length (open_figs (Server.plt (requests n request s)))
        = length (open_figs (Server.plt s)) + n)
  /\ (Server.z_plot (Server.attrs flight) = None -> ncols m <= 3 ->
      e = index_error 3 (ncols m)).
Proof.
  intros Hsol Hr Hc Hap Hls request.
  assert (Hone : forall s,
    request s
    = (Ok (error_fragment e),
       Server.mkServer
         (Server.stdout s
          ++ [ ("Altitud Máxima (Apogeo) alcanzada: " ++ format_2f ap
                ++ " m")%string;
               "Generando gráficas..." ] ++ error_log e)%list
         (mkPyplot (figures (Server.plt s) ++ [empty_altitude_figure])
            (open_figs (Server.plt s) ++ [length (figures (Server.plt s))]))
         (Server.now s))).
  { intro s.
    exact (failed_altitude_run png b64encode flight m ap e s Hsol Hr Hc Hap
             Hls). }
  split; [exact Hone | split].
  - intro n. apply requests_leak. intro s. rewrite Hone.
    cbn [snd Server.plt open_figs]. rewrite length_app. cbn. lia.
  - intros Hz Hn.
    rewrite (altitude_lines_short (Server.attrs flight) m Hz ltac:(lia))
      in Hls.
    now injection Hls.
Qed.

Lemma failed_altitude_chart_leaks_a_figure_witness :
  let request :=
    try_except (Server.graficar test_png test_b64
                  (server_flight (sample 2 2) None))
      Server.error_en_la_simulacion in
  fst (request idle) = Ok (error_fragment (index_error 3 2))
  /\ length (open_figs (Server.plt (requests 5 request idle))) = 5.
Proof.
  intro request.
  pose proof (@failed_altitude_chart_leaks_a_figure Q QFloat test_png test_b64
                (server_flight (sample 2 2) None) (sample 2 2) 100%Q
                (index_error 3 2)
                eq_refl ltac:(cbn; lia) ltac:(cbn; lia) eq_refl eq_refl)
    as (Hone & Hmany & _).
  split.
  - unfold request. now rewrite Hone.
  - exact (Hmany 5 idle).
Defined.

(** X14.  A request to the route never reaches the flight or the charts:
    the page it returns and the state it leaves do not depend on what
    [rp.Flight] would compute, nor on the renderer or the encoder.  And
    when the engine answers every call up to the motor, the page holds
    the [NameError] of line 98, [rp.Rocket] not having been called. *)
Theorem route_never_reaches_the_flight {float : Type} {H : PyFloat float}
    (rp : RocketPy float)
    (rp_attr_text : pyval float -> string -> Exc string) :
  (forall rp_Flight rp_Flight' png png' b64encode b64encode' s,
     Server.get_root rp rp_attr_text rp_Flight png b64encode s
     = Server.get_root rp rp_attr_text rp_Flight' png' b64encode' s)
  /\ (forall rp_Flight png b64encode s env x1 x2 motor tag burn_out,
        rp "rp.Environment" [] (environment_kwargs Server.default_elevation)
          = Val env ->
        rp "Environment.set_date" [env; VDatetime (Server.now s)]
          [("timezone", VStr "America/Tijuana")] = Val x1 ->
        rp "Environment.set_atmospheric_model" [env]
          [("type", VStr "standard_atmosphere")] = Val x2 ->
        rp "rp.SolidMotor" []
          (Server.GasMotor Server.default_avg_thrust
             Server.default_burn_time)
          = Val motor ->
        rp_attr_text motor "tag" = Val tag ->
        rp_attr_text motor "burnOutTime" = Val burn_out ->
        Server.get_root rp rp_attr_text rp_Flight png b64encode s
        = (Ok (Server.mkResponse 200
                 (Server.html_head
                  ++ error_fragment inertia_is_not_defined
                  ++ Server.html_tail)),
           Server.mkServer
             (Server.stdout s
              ++ [ "--- Iniciando simulación con valores por defecto ---";
                   "Configurando entorno...";
                   "Entorno configurado.";
                   "Definiendo motor...";
                   ("Motor '" ++ tag ++ "' creado con tiempo de quemado: "
                    ++ burn_out ++ "s")%string;
                   "Definiendo CanSat (Rocket)..." ]
              ++ error_log inertia_is_not_defined)%list
             (Server.plt s) (Server.now s))).
Proof.
  split.
  - intros rp_Flight rp_Flight' png png' b64encode b64encode' s.
    unfold Server.get_root, Server.home, bind.
    now rewrite (ejecutar_ignores_flight rp rp_attr_text rp_Flight rp_Flight'
                   png png' b64encode b64encode' s).
  - intros rp_Flight png b64encode s env x1 x2 motor tag burn_out
      H1 H2 H3 H4 H5 H6.
    unfold Server.get_root, Server.home.
    erewrite bind_ok
      by exact (ejecutar_name_error rp rp_attr_text rp_Flight png b64encode s
                  env x1 x2 motor tag burn_out H1 H2 H3 H4 H5 H6).
    reflexivity.
Qed.

Lemma route_never_reaches_the_flight_witness :
  let r := Server.get_root obliging (fun _ _ => Val "GasMotor")
             (fun _ => Val (server_flight (sample 2 7) None))
             test_png test_b64 idle in
  fst r
  = Ok (Server.mkResponse 200
          (Server.html_head ++ error_fragment inertia_is_not_defined
           ++ Server.html_tail))
  /\ Server.plt (snd r) = no_figures.
Proof.
  intro r.
  assert (Hrun := proj2 (@route_never_reaches_the_flight Q QFloat obliging
                           (fun _ _ => Val "GasMotor"))
                    (fun _ => Val (server_flight (sample 2 7) None))
                    test_png test_b64 idle
                    (VObj 0) (VObj 0) (VObj 0) (VObj 0) "GasMotor" "GasMotor"
                    eq_refl eq_refl eq_refl eq_refl eq_refl eq_refl).
  unfold r. rewrite Hrun. split; reflexivity.
Defined.

(** X15.  Lines 141-184 can fail only where the apogee is read or the
    altitude is drawn: with both available they return normally, they
    never exit, and an exception they raise is the one of the apogee or of
    the altitude drawing.  The trajectory block (lines 162-181) never
    fails, its guard keeping the three column reads in bounds, and leaves
    open the figures that were open. *)
Theorem only_the_altitude_chart_can_fail {float : Type} {H : PyFloat float}
    (png : Figure float -> string) (b64encode : string -> string)
    (a : Server.Attrs float) (m : Matrix float) (s : Server.Server float) :
  registry_ok (Server.plt s) ->
  (forall e s',
     Server.generar_graficas png b64encode a m s = (Raise e, s') ->
     Server.apogee a = Err e \/ altitude_lines a m = Err e)
  /\ fst (Server.generar_graficas png b64encode a m s) <> Exit
  /\ (forall ap ls,
        Server.apogee a = Val ap -> altitude_lines a m = Val ls ->
        exists html,
          fst (Server.generar_graficas png b64encode a m s) = Ok html)
  /\ (exists html s',
        Server.grafica_3d png b64encode m s = (Ok html, s')
        /\ open_figs (Server.plt s') = open_figs (Server.plt s)).
Proof.
  intro Hok.
  pose proof (generar_graficas_cases png b64encode a m s Hok) as Hcases.
  split; [| split; [| split]].
  - intros e s' Hrun. now rewrite Hrun in Hcases.
  - intro Hexit. now rewrite Hexit in Hcases.
  - intros ap ls Hap Hls.
    destruct (fst (Server.generar_graficas png b64encode a m s))
      as [html | e |].
    + now exists html.
    + destruct Hcases as [He | He]; congruence.
    + contradiction.
  - destruct s as [out [figs o] now].
    cbn [Server.plt figures open_figs] in Hok.
    destruct (Nat.ltb_spec 3 (ncols m)) as [Hn | Hn].
    + rewrite (grafica_3d_run png b64encode now m out figs o Hn Hok).
      eexists _, _. split; reflexivity.
    + rewrite (grafica_3d_skipped png b64encode m _ Hn).
      eexists _, _. split; reflexivity.
Qed.

Lemma only_the_altitude_chart_can_fail_witness :
  let a := Server.attrs (server_flight (sample 2 2) None) in
  Server.apogee a = Err (index_error 3 2)
  \/ altitude_lines a (sample 2 2) = Err (index_error 3 2).
Proof.
  intro a.
  apply (proj1 (@only_the_altitude_chart_can_fail Q QFloat test_png test_b64
                  a (sample 2 2) idle (Forall_nil _))
           (index_error 3 2)
           (Server.mkServer ["Generando gráficas..."]
              (mkPyplot [empty_altitude_figure] [0]) clock0)).
  vm_compute. reflexivity.
Defined.

(** ** Motor descriptors *)

(** C8.  Both front-ends ask the engine for the motor with the average
    thrust T and the burn time B they hold.  The terminal script calls
    [rp.SolidMotor] with the keywords of lines 54-72, in which the thrust
    source is the number T and the burn time is B; the web view calls it
    with the keywords of lines 71-82, in which the thrust source is the
    list of the two points (0, T) and (B, T) and the burn-out time is B.
    What the engine answers to exactly that call decides how the script
    goes on: an exception it raises there is the exception the front-end
    ends with. *)
Theorem thrust_source_encodings {float : Type} {H : PyFloat float}
    (T B : float) :
  (forall (rp : RocketPy float) rp_Flight i h r m d el p env x1 x2 e,
     rp "rp.Environment" [] (environment_kwargs el) = Val env ->
     rp "Environment.set_date" [env; VDatetime (mkDatetime 2025 5 3 22 52 0)]
       [("timezone", VStr "America/Tijuana")] = Val x1 ->
     rp "Environment.set_atmospheric_model" [env]
       [("type", VStr "standard_atmosphere")] = Val x2 ->
     rp "rp.SolidMotor" [] (Terminal.gas_motor T B) = Err e ->
     Terminal.configuracion rp rp_Flight (Terminal.mkInputs i h r m d B T el)
       p
     = (Raise e, p))
  /\ keyword "thrust_source" (Terminal.gas_motor T B) = Some (VFloat T)
  /\ keyword "burn_time" (Terminal.gas_motor T B) = Some (VFloat B)
  /\ (forall (rp : RocketPy float) rp_attr_text rp_Flight i h r m d el s
             env x1 x2 e,
        rp "rp.Environment" [] (environment_kwargs el) = Val env ->
        rp "Environment.set_date" [env; VDatetime (Server.now s)]
          [("timezone", VStr "America/Tijuana")] = Val x1 ->
        rp "Environment.set_atmospheric_model" [env]
          [("type", VStr "standard_atmosphere")] = Val x2 ->
        rp "rp.SolidMotor" [] (Server.GasMotor T B) = Err e ->
        Server.configurar_y_simular rp rp_attr_text rp_Flight i h r m d B T el
          s
        = (Raise e,
           Server.mkServer
             (Server.stdout s
              ++ [ "Configurando entorno..."; "Entorno configurado.";
                   "Definiendo motor..." ])%list
             (Server.plt s) (Server.now s)))
  /\ keyword "thrustSource" (Server.GasMotor T B)
     = Some (VList [ VTuple [VInt 0; VFloat T]; VTuple [VFloat B; VFloat T] ])
  /\ keyword "burnOut" (Server.GasMotor T B) = Some (VFloat B)
  /\ keyword "thrust_source" (Terminal.gas_motor T B)
     <> keyword "thrustSource" (Server.GasMotor T B).
Proof.
  split; [| split; [| split; [| split; [| split; [| split]]]]];
    try reflexivity.
  - intros rp rp_Flight i h r m d el p env x1 x2 e H1 H2 H3 H4.
    unfold environment_kwargs in H1. unfold Terminal.configuracion.
    cbn [Terminal.user_elevation Terminal.user_avg_thrust
         Terminal.user_burn_time].
    rewrite H1, bind_val. cbv zeta.
    rewrite H2, bind_val, H3, bind_val, H4. apply bind_err.
  - intros rp rp_attr_text rp_Flight i h r m d el s env x1 x2 e
      H1 H2 H3 H4.
    unfold environment_kwargs in H1. unfold Server.configurar_y_simular.
    erewrite bind_ok by apply print_run.
    rewrite H1, bind_val.
    unfold bind at 1. unfold gets. cbn [Server.now].
    rewrite H2, bind_val, H3, bind_val.
    do 2 erewrite bind_ok by apply print_run.
    rewrite H4, bind_err.
    cbn [Server.stdout Server.plt Server.now].
    now rewrite <- !app_assoc.
  - discriminate.
Qed.

Lemma thrust_source_encodings_witness :
  @Terminal.configuracion Q QFloat (scalar_thrust_refused engine_failure)
    (fun _ => Val (terminal_flight (sample 2 7)))
    (Terminal.mkInputs 90%Q 0%Q 1.2%Q 0.3%Q 0.6%Q 2%Q 10%Q 20%Q)
    (Terminal.start [] clock0)
  = (Raise engine_failure, Terminal.start [] clock0)
  /\ fst (@Server.configurar_y_simular Q QFloat
            (thrust_curve_refused engine_failure)
            (fun _ _ => Val "GasMotor")
            (fun _ => Val (server_flight (sample 2 7) None))
            90%Q 0%Q 1.2%Q 0.3%Q 0.6%Q 2%Q 10%Q 20%Q idle)
     = Raise engine_failure.
Proof.
  pose proof (@thrust_source_encodings Q QFloat 10%Q 2%Q)
    as (Hterminal & _ & _ & Hserver & _).
  split.
  - apply (Hterminal (scalar_thrust_refused engine_failure)
             (fun _ => Val (terminal_flight (sample 2 7)))
             90%Q 0%Q 1.2%Q 0.3%Q 0.6%Q 20%Q (Terminal.start [] clock0)
             (VObj 0) (VObj 0) (VObj 0) engine_failure);
      vm_compute; reflexivity.
  - rewrite (Hserver (thrust_curve_refused engine_failure)
               (fun _ _ => Val "GasMotor")
               (fun _ => Val (server_flight (sample 2 7) None))
               90%Q 0%Q 1.2%Q 0.3%Q 0.6%Q 20%Q idle
               (VObj 0) (VObj 0) (VObj 0) engine_failure);
      vm_compute; reflexivity.
Defined.
